(** * Tracing control flow of evox: [TracingWhile] and [TracingCond]

    A shallow embedding of
    - [src/utils/control_flow.py] (module [ControlFlow] below), and
    - [src/evox/utils/_control_flow/loop.py] (module [Loop] below),
    followed by the properties of the three execution paths (direct, trace
    compiled, batched), of the specialization caches and of the instance
    cache.

    Conventions of the embedding.
    - A Python call either returns, raises, or is cut off by the iteration
      budget [fuel] of the enclosing [while]; this is the type [outcome].
    - Every execution of a user function (or, inside a compiled procedure,
      of its compiled form), every tracing of a user function on example
      inputs and every build of a specialized procedure is recorded in an
      event log (a writer monad [M]); the log is an observer only and never
      influences a result.
    - A build can fail: tracing runs the user function on the example inputs,
      and TorchScript rejects a closure whose text does not type-check.  The
      static types it works with are the type [sty].
    - Tensors are kept abstract.  An unbatched tensor is a value of a type
      [T] with the attributes the code reads ([ndim], [dtype], [device]) and
      its iteration along the first axis; a batched tensor is the list of
      its lanes. *)

From stdpp Require Import base strings list gmap pretty.

(** ** The Python run time *)

Module Py.

Inductive exn : Type :=
| TypeError
| AttributeError
| IndexError
| ValueError
| RuntimeError
| KeyError (k : nat)
| AssertionError (msg : string).

Inductive outcome (A : Type) : Type :=
| Done (a : A)
| Raise (e : exn)
| Timeout.
Arguments Done {A} a.
Arguments Raise {A} e.
Arguments Timeout {A}.

(** The user functions a tracer holds, and the three builders. *)
Inductive callee : Type := CondFn | BodyFn | TrueFn | FalseFn.
Inductive builder : Type := CompileLoopFn | CompileStateLoopFn | CompileVmapLoopFn.
(** [Call who]: the function [who] is executed, as the user function itself
    (direct executor, batch map) or as its compiled form (inside a compiled
    procedure).  [Trace who]: the function [who] is traced on example inputs,
    which invokes the user function on them, as often as the tracing takes.
    [Compile what]: the builder [what] is entered. *)
Inductive event : Type :=
| Call (who : callee)
| Trace (who : callee)
| Compile (what : builder).

Global Instance callee_eq_dec : EqDecision callee.
Proof. solve_decision. Defined.
Global Instance builder_eq_dec : EqDecision builder.
Proof. solve_decision. Defined.
Global Instance event_eq_dec : EqDecision event.
Proof. solve_decision. Defined.

(** The writer monad of the embedding: an outcome and the log of events. *)
Abbreviation M A := (outcome A * list event)%type (only parsing).

Definition ret {A} (a : A) : M A := (Done a, []).
Definition raise {A} (e : exn) : M A := (Raise e, []).
Definition timeout {A} : M A := (Timeout, []).
Definition tell (ev : event) : M unit := (Done tt, [ev]).
Definition bind {A B} (m : M A) (k : A → M B) : M B :=
  match m with
  | (Done a, l) => let r := k a in (r.1, l ++ r.2)
  | (Raise e, l) => (Raise e, l)
  | (Timeout, l) => (Timeout, l)
  end.

Notation "'let*' x ':=' m 'in' k" := (bind m (λ x, k))
  (at level 10, x pattern, m at level 100, k at level 200,
   format "'[v' 'let*'  x  ':='  m  'in' '/' k ']'").

(** Number of times [who] was invoked, number of builds, in a log. *)
Definition calls (who : callee) (l : list event) : nat :=
  length (filter (λ ev, ev = Call who) l).
Definition is_compile (ev : event) : bool :=
  match ev with Compile _ => true | Call _ | Trace _ => false end.
Definition builds (l : list event) : nat :=
  length (filter (λ ev, is_compile ev) l).

(** Python values: a tensor, a tuple, a dictionary from names to tensors,
    [None], or any other object, of which only the name of its type is kept
    (what [type(arg)] prints); such an object is taken not to be iterable. *)
Inductive pyval (A : Type) : Type :=
| VTensor (t : A)
| VTuple (l : list (pyval A))
| VDict (d : gmap string A)
| VNone
| VOther (type_name : string).
Arguments VTensor {A} t.
Arguments VTuple {A} l.
Arguments VDict {A} d.
Arguments VNone {A}.
Arguments VOther {A} type_name.

(** What the code reads of an unbatched tensor; [iter_tensor] is the
    iteration [*x] performs on a tensor (the slices along axis 0; a
    [TypeError] on a 0-d tensor). *)
Class TensorLike (T : Type) : Type := {
  ndim : T → nat;
  dtype : T → string;
  device : T → string;
  iter_tensor : T → outcome (list T);
}.

(** An attribute holding a user function: [None], or a callable taking
    positional arguments to a result or an exception. *)
Abbreviation pyfn A R := (option (list (pyval A) → outcome R)) (only parsing).

(** [fn(args)], recorded; calling [None] is a [TypeError]. *)
Definition invoke {A R} (who : callee) (fn : pyfn A R) (args : list (pyval A)) : M R :=
  match fn with
  | Some f => (f args, [Call who])
  | None => raise TypeError
  end.

(** Runs the outcomes of a list left to right; the first that does not
    return decides. *)
Fixpoint sequence {A} (os : list (outcome A)) : outcome (list A) :=
  match os with
  | [] => Done []
  | o :: os =>
      match o with
      | Done a =>
          match sequence os with
          | Done l => Done (a :: l)
          | Raise e => Raise e
          | Timeout => Timeout
          end
      | Raise e => Raise e
      | Timeout => Timeout
      end
  end.

(** [a, b, ... = v] inside a compiled procedure: [v] is a tuple of exactly
    [n] items. *)
Definition destructure {A} (n : nat) (v : pyval A) : M (list (pyval A)) :=
  match v with
  | VTuple l => if decide (length l = n) then ret l else raise ValueError
  | _ => raise TypeError
  end.

Section Unpacking.
Context {T : Type} `{!TensorLike T}.

(** [*x] in a call: the items of the iterable [x]. *)
Definition star (x : pyval T) : M (list (pyval T)) :=
  match x with
  | VTuple l => ret l
  | VTensor t =>
      match iter_tensor t with
      | Done ts => ret (VTensor <$> ts)
      | Raise e => raise e
      | Timeout => timeout
      end
  | VDict d => ret ((λ kv : string * T, VOther "str") <$> map_to_list d)
  | VNone | VOther _ => raise TypeError
  end.

(** [x1, ..., xn = r]: exactly [n] items, else [ValueError]. *)
Definition unpack_n (n : nat) (r : pyval T) : M (list (pyval T)) :=
  let* items := star r in
  if decide (length items = n) then ret items else raise ValueError.
End Unpacking.

(** [isinstance(arg, torch.Tensor)] and [type(arg)]. *)
Definition is_tensor {A} (v : pyval A) : bool :=
  match v with VTensor _ => true | _ => false end.
Definition type_repr {A} (v : pyval A) : string :=
  match v with
  | VTensor _ => "<class 'torch.Tensor'>"
  | VTuple _ => "<class 'tuple'>"
  | VDict _ => "<class 'dict'>"
  | VNone => "<class 'NoneType'>"
  | VOther name => "<class '" +:+ name +:+ "'>"
  end.

(** [f"At most {limit} arguments are supported, got {got}"]. *)
Definition arity_msg (limit got : nat) : string :=
  "At most " +:+ pretty limit +:+ " arguments are supported, got " +:+ pretty got.

(** *** Compilation

    The static types TorchScript gives to values, and the type of a value. *)
Inductive sty : Type :=
| TyTensor
| TyTuple (items : list sty)
| TyList (item : sty)
| TyDict
| TyNone
| TyOther (name : string).

Fixpoint sty_eqb (a b : sty) : bool :=
  match a, b with
  | TyTensor, TyTensor | TyDict, TyDict | TyNone, TyNone => true
  | TyTuple l, TyTuple l' =>
      (fix go (l l' : list sty) : bool :=
         match l, l' with
         | [], [] => true
         | x :: l, y :: l' => sty_eqb x y && go l l'
         | _, _ => false
         end) l l'
  | TyList x, TyList y => sty_eqb x y
  | TyOther n, TyOther m => bool_decide (n = m)
  | _, _ => false
  end.

Fixpoint type_of {A} (v : pyval A) : sty :=
  match v with
  | VTensor _ => TyTensor
  | VTuple l => TyTuple (type_of <$> l)
  | VDict _ => TyDict
  | VNone => TyNone
  | VOther name => TyOther name
  end.

(** The static type of a result: a condition returns a boolean tensor, a
    branch function a list of tensors, an extracted function the pair of a
    state and its result. *)
Class Typed (R : Type) : Type := static_type : R → sty.
Global Instance bool_typed : Typed bool := λ _, TyTensor.
Global Instance pyval_typed {A} : Typed (pyval A) := type_of.
Global Instance list_typed {A} : Typed (list A) := λ _, TyList TyTensor.
Global Instance state_typed {A R} `{!Typed R} : Typed (gmap string A * R) :=
  λ sr, TyTuple [TyDict; static_type sr.2].

(** The schema of a compiled function: the number of its inputs and the
    type of its result.  A call in the text of a closure fits a schema when
    it passes that many inputs and uses the result at that type. *)
Record schema : Type := { inputs : nat; returns : sty }.
Definition fits (s : schema) (n : nat) (ty : sty) : bool :=
  bool_decide (inputs s = n) && sty_eqb (returns s) ty.

(** A compiled function: what a call of it does, and its schema. *)
Record compiled_fn (F : Type) : Type := { cf_call : F; cf_schema : schema }.
Arguments cf_call {F} _.
Arguments cf_schema {F} _.

(** What tracing needs of a callable [F] with example inputs [E]: the type
    of the result of the callable run on the inputs, and their number. *)
Class Traceable (F E : Type) : Type := {
  trace_run : F → E → outcome sty;
  n_inputs : E → nat;
}.

Definition typed_outcome {R} `{!Typed R} (o : outcome R) : outcome sty :=
  match o with
  | Done r => Done (static_type r)
  | Raise e => Raise e
  | Timeout => Timeout
  end.

(** A user function on positional arguments; tracing [None] is taken to
    fail as a call of [None] does. *)
Global Instance pyfn_traceable {A R} `{!Typed R} : Traceable (pyfn A R) (list (pyval A)) := {|
  trace_run fn example_inputs :=
    match fn with
    | Some f => typed_outcome (f example_inputs)
    | None => Raise TypeError
    end;
  n_inputs := length;
|}.

(** A function of the embedding that records what it executes (a function
    lifted through the batch map). *)
Global Instance recording_traceable {X R} `{!Typed R}
  : Traceable (list X → outcome R * list event) (list X) := {|
  trace_run fn example_inputs := typed_outcome (fn example_inputs).1;
  n_inputs := length;
|}.

(** Modelled from the spec: the trace-compilation primitive [core.jit] (its
    code is not part of the sources) takes a function plus example inputs
    and returns a specialized compiled callable.  Tracing runs the function
    on the example inputs: if the function does not return there, neither
    does [jit] (a failure propagates unchanged); else the compiled callable
    behaves as the function does, takes as many inputs as there were example
    inputs, and its result has the type of the traced result. *)
Definition jit {F E} `{!Traceable F E} (who : callee) (fn : F) (example_inputs : E)
  : M (compiled_fn F) :=
  match trace_run fn example_inputs with
  | Done ty =>
      (Done {| cf_call := fn;
               cf_schema := {| inputs := n_inputs (F:=F) example_inputs; returns := ty |} |},
       [Trace who])
  | Raise e => (Raise e, [Trace who])
  | Timeout => (Timeout, [Trace who])
  end.

(** A closure handed to [torch.jit.script]: whether its text type-checks
    against the schemas of the compiled functions it calls, and what running
    it does. *)
Record closure (P : Type) : Type := { well_typed : bool; run : P }.
Arguments well_typed {P} _.
Arguments run {P} _.

(** Modelled from the spec: [torch.jit.script] (its code is not part of the
    sources) compiles the text of a closure as a single unit.  A text that
    does not type-check is rejected with a [RuntimeError]; else the compiled
    procedure behaves as the closure does. *)
Definition torch_jit_script {P} (fn : closure P) : M P :=
  if well_typed fn then ret (run fn) else raise RuntimeError.

(** A user function handed to [torch.jit.script] as a whole
    ([control_flow.py] requires its user functions to be script compatible):
    what a call does, and the schema TorchScript derives from its text. *)
Record script_fn (A R : Type) : Type := { sf_call : pyfn A R; sf_schema : schema }.
Arguments sf_call {A R} _.
Arguments sf_schema {A R} _.
Definition torch_jit_script_fn {A R} (fn : script_fn A R) : compiled_fn (pyfn A R) :=
  {| cf_call := sf_call fn; cf_schema := sf_schema fn |}.

End Py.
Import Py.

(** ** Batched tensors

    A physical batched tensor is the list of its lanes; all levels of nested
    batch axes are flattened into that list, and every operand of a batched
    call is assumed to carry at least one batch axis. *)

Module Batch.

(** A batch-tagged tensor as [vmap_loop] receives it: the lanes, the batch
    axis of every nesting level, and the attributes of the unwrapped
    (physical) tensor that the cache key reads. *)
Record BatchedTensor (T : Type) : Type := {
  lanes : list T;
  in_dim : list Z;
  phys_ndim : nat;
  phys_dtype : string;
  phys_device : string;
}.
Arguments lanes {T} _.
Arguments in_dim {T} _.
Arguments phys_ndim {T} _.
Arguments phys_dtype {T} _.
Arguments phys_device {T} _.

(** [_vmap_fix.unwrap_batch_tensor(arg)]: the physical tensor and its batch
    axes (the third component is not used by the code). *)
Definition unwrap_batch_tensor {T} (arg : BatchedTensor T) : BatchedTensor T * list Z :=
  (arg, in_dim arg).

(** A result of [vmap_loop]: a physical tensor re-tagged by
    [_vmap_fix.add_batch_dim(r, dim, level)], once per nesting level. *)
Inductive wrapped (T : Type) : Type :=
| Physical (r : list T)
| add_batch_dim (r : wrapped T) (dim : Z) (level : nat).
Arguments Physical {T} r.
Arguments add_batch_dim {T} r dim level.

(** Iteration of a physical batched tensor along its first axis, which the
    lanes alone do not determine. *)
Class PhysIter (T : Type) : Type :=
  iter_phys : list T → outcome (list (list T)).

Section Lanes.
Context {T : Type}.

Definition batch_size (xs : list (list T)) : nat :=
  match xs with [] => 0 | x :: _ => length x end.

(** The operands of lane [j]. *)
Definition lane (j : nat) (xs : list (list T)) : list T :=
  omap (λ x : list T, x !! j) xs.

(** All lanes; operands must agree on the number of lanes. *)
Definition lanes_of (xs : list (list T)) : outcome (list (list T)) :=
  if decide (Forall (λ x : list T, length x = batch_size xs) xs)
  then Done ((λ j, lane j xs) <$> seq 0 (batch_size xs))
  else Raise ValueError.

(** Modelled from the spec: the batch-map primitive [core.vmap] (its code is
    not part of the sources) takes a function plus per-argument batch-axis
    descriptors and returns a function operating on an added batch dimension.
    One call of the batched function is one invocation of the user function,
    which computes every lane. *)
Definition batched_call {R} (who : callee) (fn : pyfn T R) (xs : list (list T)) : M (list R) :=
  match fn with
  | Some f =>
      (match lanes_of xs with
       | Done ls => sequence ((λ l, f (VTensor <$> l)) <$> ls)
       | Raise e => Raise e
       | Timeout => Timeout
       end, [Call who])
  | None => raise TypeError
  end.

Definition as_tensor {A} (v : pyval A) : option A :=
  match v with VTensor t => Some t | _ => None end.
Definition as_tensors {A} (v : pyval A) : option (list A) :=
  match v with VTuple l => mapM as_tensor l | _ => None end.

(** Per-lane lists of [m] tensors put back along the batch axis: [m] batched
    tensors. *)
Definition stack_lists (m : nat) (tss : list (list T)) : outcome (list (list T)) :=
  if decide (Forall (λ ts : list T, length ts = m) tss)
  then Done ((λ i, lane i tss) <$> seq 0 m)
  else Raise ValueError.

(** Per-lane results put back along the batch axis: a tensor per lane gives
    a batched tensor, a tuple of [m] tensors per lane gives a tuple of [m]
    batched tensors. *)
Definition stack (rs : list (pyval T)) : outcome (pyval (list T)) :=
  match rs with
  | [] => Raise ValueError
  | VTensor _ :: _ =>
      match mapM as_tensor rs with
      | Some ts => Done (VTensor ts)
      | None => Raise ValueError
      end
  | VTuple l :: _ =>
      match mapM as_tensors rs with
      | Some tss =>
          match stack_lists (length l) tss with
          | Done xs => Done (VTuple (VTensor <$> xs))
          | Raise e => Raise e
          | Timeout => Timeout
          end
      | None => Raise ValueError
      end
  | _ :: _ => Raise TypeError
  end.

(** [torch.where(cond, x_new, x)] on lanes; sizes must agree (broadcasting
    of size-1 axes is not modelled). *)
Definition where_lanes (m : list bool) (new x : list T) : M (list T) :=
  if decide (length m = length x ∧ length new = length x)
  then ret (zip_with (λ (c : bool) (p : T * T), if c then p.1 else p.2) m (zip new x))
  else raise RuntimeError.
End Lanes.

(** The key entry of a physical tensor ([a.ndim], [a.dtype], [a.device]). *)
Definition phys_sig {T} (a : BatchedTensor T) : nat * string * string :=
  (phys_ndim a, phys_dtype a, phys_device a).

(** The first loop of [vmap_loop]: every argument must be a tensor; the
    batch axes and the physical tensors are collected in order. *)
Definition tensor_msg {A} (arg : pyval A) : string :=
  "Expect all arguments in `vmap` to be `torch.Tensor`, got " +:+ type_repr arg.

Fixpoint unwrap_args {T} (x : list (pyval (BatchedTensor T)))
  : M (list (list Z) * list (BatchedTensor T)) :=
  match x with
  | [] => ret ([], [])
  | arg :: x =>
      if is_tensor arg then
        match arg with
        | VTensor b =>
            let '(arg, in_dim) := unwrap_batch_tensor b in
            let* rest := unwrap_args x in
            ret (in_dim :: rest.1, arg :: rest.2)
        | _ => raise TypeError
        end
      else raise (AssertionError (tensor_msg arg))
  end.

(** [for level, dim in enumerate(d, 1): r = add_batch_dim(r, dim, level)]. *)
Definition rewrap {T} (r : list T) (d : list Z) : wrapped T :=
  foldl (λ r (ld : nat * Z), add_batch_dim r ld.2 ld.1) (Physical r) (zip (seq 1 (length d)) d).

(** [for r, d in zip(ret, vmap_dims)]: the items of [ret], a tuple of
    physical tensors or one physical tensor, paired with the batch axes. *)
Definition ret_items {T} `{!PhysIter T} (ret_ : pyval (list T)) : M (list (list T)) :=
  match ret_ with
  | VTuple l =>
      match mapM as_tensor l with
      | Some rs => ret rs
      | None => raise TypeError
      end
  | VTensor r =>
      match iter_phys r with
      | Done rs => ret rs
      | Raise e => raise e
      | Timeout => timeout
      end
  | _ => raise TypeError
  end.

Definition rewrap_all {T} `{!PhysIter T} (ret_ : pyval (list T)) (vmap_dims : list (list Z))
  : M (list (pyval (wrapped T))) :=
  let* rs := ret_items ret_ in
  ret ((λ rd : list T * list Z, VTensor (rewrap rd.1 rd.2)) <$> zip rs vmap_dims).

End Batch.
Import Batch.

(** ** The batched loop builder [_compile_vmap_loop_fn]

    The text of this method is the same in both source files (up to the name
    of the attributes holding the user functions), so it is embedded once. *)

Module VmapLoopFn.
Section Build.
Context {T : Type}.
(** [self._cond], [self._body] (control_flow.py) or [self.cond_fn],
    [self.body_fn] (loop.py). *)
Variable cond_fn : pyfn T bool.
Variable body_fn : pyfn T (pyval T).
Variable original_args : list (list T).
Variable vmap_dims : list (list Z).

(** The user functions after the loop [for d in zip( *vmap_dims)]. *)
Definition vmap_cond (xs : list (list T)) : M (list bool) :=
  batched_call CondFn cond_fn xs.

Definition vmap_body (xs : list (list T)) : M (pyval (list T)) :=
  let* rs := batched_call BodyFn body_fn xs in
  (stack rs, []).

(** [a.view( *size)] with every non-batch extent set to 1: the per-lane
    booleans, laid out so that they broadcast against operand [a]; the lanes
    are unchanged. *)
Definition _expand_vmap_dim (vmap_dim : list Z) (a : list T) (cond_res : list bool) : list bool :=
  cond_res.

Definition _vmap_cond_fn (xs : list (list T)) : M (pyval (list bool)) :=
  let* cond_res := vmap_cond xs in
  ret (VTuple ((λ da : list Z * list T, VTensor (_expand_vmap_dim da.1 da.2 cond_res))
                 <$> zip vmap_dims xs)).

(** The closures [_loop1] ... [_loop9] call the compiled functions [body]
    and [cond]: what running a closure does depends on what a call of these
    does, whether its text type-checks on their schemas. *)
Section Closures.
Variable body : list (list T) → M (pyval (list T)).
Variable cond : list (list T) → M (pyval (list bool)).

(** [cond_res.any()]: a method of tensors only. *)
Definition any_ (cond_res : pyval (list bool)) : M bool :=
  match cond_res with
  | VTensor m => ret (existsb id m)
  | _ => raise AttributeError
  end.

(** [torch.where(cond_res, x_new, x)]: both [cond_res] and [x_new] must be
    tensors. *)
Definition torch_where (cond_res : pyval (list bool)) (x_new : pyval (list T)) (x : list T)
  : M (list T) :=
  match cond_res, x_new with
  | VTensor m, VTensor new => where_lanes m new x
  | _, _ => raise TypeError
  end.

(** [v[0]]. *)
Definition item0 {A} (v : pyval A) : M (pyval A) :=
  match v with
  | VTuple (a :: _) => ret a
  | VTuple [] => raise IndexError
  | _ => raise TypeError
  end.

(** [_loop1]: the mask is [cond(x1)[0]] before the loop and [cond(x1)]
    inside it. *)
Fixpoint _loop1_while (fuel : nat) (x1 : list T) (cond_res : pyval (list bool)) : M (list T) :=
  let* continue := any_ cond_res in
  if continue : bool then
    match fuel with
    | 0 => timeout
    | S fuel =>
        let* x1_new := body [x1] in
        let* x1 := torch_where cond_res x1_new x1 in
        let* cond_res := cond [x1] in
        _loop1_while fuel x1 cond_res
    end
  else ret x1.

Definition _loop1 (fuel : nat) (args : list (list T)) : M (pyval (list T)) :=
  match args with
  | [x1] =>
      let* cond_res := bind (cond [x1]) (item0) in
      let* x1 := _loop1_while fuel x1 cond_res in
      ret (VTensor x1)
  | _ => raise TypeError
  end.

(** The assignments [xi = torch.where(cond_resi, xi_new, xi)], in order. *)
Fixpoint wheres (cond_res : list (pyval (list bool))) (x_new : list (pyval (list T)))
    (xs : list (list T)) : M (list (list T)) :=
  match cond_res, x_new, xs with
  | m :: cond_res, new :: x_new, x :: xs =>
      let* y := torch_where m new x in
      let* ys := wheres cond_res x_new xs in
      ret (y :: ys)
  | _, _, _ => ret []
  end.

(** [cond_res1.any()]. *)
Definition any1 (cond_res : list (pyval (list bool))) : M bool :=
  match cond_res with
  | cond_res1 :: _ => any_ cond_res1
  | [] => raise IndexError
  end.

(** [_loop2] ... [_loop9]: they differ in the number [n] of operands only. *)
Fixpoint _loopN_while (n fuel : nat) (xs : list (list T)) (cond_res : list (pyval (list bool)))
  : M (list (list T)) :=
  let* continue := any1 cond_res in
  if continue : bool then
    match fuel with
    | 0 => timeout
    | S fuel =>
        let* x_new := bind (body xs) (destructure n) in
        let* xs := wheres cond_res x_new xs in
        let* cond_res := bind (cond xs) (destructure n) in
        _loopN_while n fuel xs cond_res
    end
  else ret xs.

Definition _loopN (n fuel : nat) (args : list (list T)) : M (pyval (list T)) :=
  if decide (length args = n) then
    let* cond_res := bind (cond args) (destructure n) in
    let* xs := _loopN_while n fuel args cond_res in
    ret (VTuple (VTensor <$> xs))
  else raise TypeError.
End Closures.

(** The type check of [_loop1]: [cond_res = cond(x1)[0]] gives [cond_res]
    the type of the first item of the result of [cond], a tensor for
    [cond_res.any()]; [torch.where(cond_res, x1_new, x1)] takes the tensor
    [x1_new = body(x1)]; and [cond_res = cond(x1)] assigns the whole result
    of [cond] to [cond_res], which must keep its type. *)
Definition _loop1_typed (body cond : schema) : bool :=
  match returns cond with
  | TyTuple (cond_res :: _) =>
      bool_decide (inputs cond = 1) && sty_eqb cond_res TyTensor
      && fits body 1 TyTensor
      && sty_eqb (returns cond) cond_res
  | _ => false
  end.

(** The type check of [_loop2] ... [_loop9]: the results of [cond(x1, ...,
    xn)] and of [body(x1, ..., xn)] are unpacked into [n] tensors each. *)
Definition _loopN_typed (body cond : schema) (n : nat) : bool :=
  fits cond n (TyTuple (replicate n TyTensor)) && fits body n (TyTuple (replicate n TyTensor)).

Definition loops_dict (body : compiled_fn (list (list T) → M (pyval (list T))))
    (cond : compiled_fn (list (list T) → M (pyval (list bool))))
  : gmap nat (closure (nat → list (list T) → M (pyval (list T)))) :=
  let _loopN n := {| well_typed := _loopN_typed (cf_schema body) (cf_schema cond) n;
                     run := _loopN (cf_call body) (cf_call cond) n |} in
  list_to_map [(1, {| well_typed := _loop1_typed (cf_schema body) (cf_schema cond);
                      run := _loop1 (cf_call body) (cf_call cond) |});
               (2, _loopN 2); (3, _loopN 3); (4, _loopN 4); (5, _loopN 5);
               (6, _loopN 6); (7, _loopN 7); (8, _loopN 8); (9, _loopN 9)].

(** The builder: the batched body and the batched condition are traced on
    the operands, then the closure for the number of operands is selected
    and compiled. *)
Definition _compile_vmap_loop_fn : M (nat → list (list T) → M (pyval (list T))) :=
  let* _ := tell (Compile CompileVmapLoopFn) in
  let* body := jit BodyFn vmap_body original_args in
  let* cond := jit CondFn _vmap_cond_fn original_args in
  let loops_dict := loops_dict body cond in
  if decide (length original_args ≤ size loops_dict) then
    match loops_dict !! length original_args with
    | Some l => torch_jit_script l
    | None => raise (KeyError (length original_args))
    end
  else raise (AssertionError (arity_msg (size loops_dict) (length original_args))).
End Build.
End VmapLoopFn.

(** ** [src/utils/control_flow.py] *)

Module ControlFlow.

Module TracingWhile.
Abbreviation compiled_vmap_loop T := (nat → list (list T) → M (pyval (list T))) (only parsing).

Section Class.
Context {T : Type} `{!TensorLike T} `{!PhysIter T}.

(** The attributes [cond] and [body] hold the scripted functions: what a
    call of them does ([cond], [body]) and their schemas. *)
Record obj : Type := {
  cond : pyfn T bool;
  body : pyfn T (pyval T);
  cond_schema : schema;
  body_schema : schema;
  _cond : pyfn T bool;
  _body : pyfn T (pyval T);
  _cache_compiled_vmap_loop : gmap (list (list Z * nat)) (compiled_vmap_loop T);
}.

Definition __init__ (cond : script_fn T bool) (body : script_fn T (pyval T)) : obj :=
  {| cond := cf_call (torch_jit_script_fn cond);
     body := cf_call (torch_jit_script_fn body);
     cond_schema := cf_schema (torch_jit_script_fn cond);
     body_schema := cf_schema (torch_jit_script_fn body);
     _cond := sf_call cond;
     _body := sf_call body;
     _cache_compiled_vmap_loop := ∅ |}.

(** [while self.cond( *x): x = self.body( *x)], then [return x]; [fuel]
    bounds the number of executions of the body. *)
Fixpoint loop_while (self : obj) (fuel : nat) (x : pyval T) : M (pyval T) :=
  let* continue := bind (star x) (invoke CondFn (cond self)) in
  if continue : bool then
    match fuel with
    | 0 => timeout
    | S fuel =>
        let* x := bind (star x) (invoke BodyFn (body self)) in
        loop_while self fuel x
    end
  else ret x.

Definition loop (self : obj) (fuel : nat) (x : list (pyval T)) : M (pyval T) :=
  loop_while self fuel (VTuple x).

(** The closures of [trace_loop]. *)
Fixpoint trace_loop1_while (self : obj) (fuel : nat) (x1 : pyval T) : M (pyval T) :=
  let* continue := invoke CondFn (cond self) [x1] in
  if continue : bool then
    match fuel with
    | 0 => timeout
    | S fuel =>
        let* x1 := invoke BodyFn (body self) [x1] in
        trace_loop1_while self fuel x1
    end
  else ret x1.

Definition trace_loop1 (self : obj) (fuel : nat) (args : list (pyval T)) : M (pyval T) :=
  match args with
  | [x1] => trace_loop1_while self fuel x1
  | _ => raise TypeError
  end.

(** [_loop2] ... [_loop9]: [while cond(x1, ..., xn): x1, ..., xn = body(x1,
    ..., xn)], then [return x1, ..., xn]. *)
Fixpoint trace_loopN_while (self : obj) (n fuel : nat) (xs : list (pyval T))
  : M (list (pyval T)) :=
  let* continue := invoke CondFn (cond self) xs in
  if continue : bool then
    match fuel with
    | 0 => timeout
    | S fuel =>
        let* xs := bind (invoke BodyFn (body self) xs) (unpack_n n) in
        trace_loopN_while self n fuel xs
    end
  else ret xs.

Definition trace_loopN (self : obj) (n fuel : nat) (args : list (pyval T)) : M (pyval T) :=
  if decide (length args = n) then
    let* xs := trace_loopN_while self n fuel args in
    ret (VTuple xs)
  else raise TypeError.

(** The type checks: [while cond(x1, ..., xn)] tests a tensor; [x1 =
    body(x1)] assigns a tensor to the tensor [x1], and [x1, ..., xn =
    body(x1, ..., xn)] unpacks a tuple of [n] tensors. *)
Definition trace_loop1_typed (self : obj) : bool :=
  fits (cond_schema self) 1 TyTensor && fits (body_schema self) 1 TyTensor.
Definition trace_loopN_typed (self : obj) (n : nat) : bool :=
  fits (cond_schema self) n TyTensor
  && fits (body_schema self) n (TyTuple (replicate n TyTensor)).

Definition trace_loops_dict (self : obj)
  : gmap nat (closure (nat → list (pyval T) → M (pyval T))) :=
  let _loopN n := {| well_typed := trace_loopN_typed self n; run := trace_loopN self n |} in
  list_to_map [(1, {| well_typed := trace_loop1_typed self; run := trace_loop1 self |});
               (2, _loopN 2); (3, _loopN 3); (4, _loopN 4); (5, _loopN 5);
               (6, _loopN 6); (7, _loopN 7); (8, _loopN 8); (9, _loopN 9)].

(** [trace_loop]: no cache in this file, the procedure is built by every
    call. *)
Definition trace_loop (self : obj) (fuel : nat) (x : list (pyval T)) : M (pyval T) :=
  let loops_dict := trace_loops_dict self in
  if decide (length x ≤ size loops_dict) then
    match loops_dict !! length x with
    | Some l =>
        let* _ := tell (Compile CompileLoopFn) in
        let* compiled_loop := torch_jit_script l in
        compiled_loop fuel x
    | None => raise (KeyError (length x))
    end
  else raise (AssertionError (arity_msg (size loops_dict) (length x))).

Definition _compile_vmap_loop_fn (self : obj) (original_args : list (BatchedTensor T))
    (vmap_dims : list (list Z)) : M (compiled_vmap_loop T) :=
  VmapLoopFn._compile_vmap_loop_fn (_cond self) (_body self) (lanes <$> original_args) vmap_dims.

Definition set_cache (self : obj) (cache : gmap (list (list Z * nat)) (compiled_vmap_loop T))
  : obj :=
  {| cond := cond self; body := body self; cond_schema := cond_schema self;
     body_schema := body_schema self; _cond := _cond self; _body := _body self;
     _cache_compiled_vmap_loop := cache |}.

(** [vmap_loop]: the tracer after the call, and the result; the result is
    the list [returns]. *)
Definition vmap_loop (self : obj) (fuel : nat) (x : list (pyval (BatchedTensor T)))
  : obj * M (pyval (wrapped T)) :=
  match unwrap_args x with
  | (Done (vmap_dims, original_args), log0) =>
      let key := (λ da : list Z * BatchedTensor T, (da.1, phys_ndim da.2))
                   <$> zip vmap_dims original_args in
      let '(self, compiled) :=
        match _cache_compiled_vmap_loop self !! key with
        | Some vmap_loop_compiled => (self, ret vmap_loop_compiled)
        | None =>
            match _compile_vmap_loop_fn self original_args vmap_dims with
            | (Done vmap_loop_compiled, log) =>
                (set_cache self (<[key := vmap_loop_compiled]> (_cache_compiled_vmap_loop self)),
                 (Done vmap_loop_compiled, log))
            | failed => (self, failed)
            end
        end in
      (self,
       let* _ := (Done tt, log0) in
       let* vmap_loop_compiled := compiled in
       let* ret_ := vmap_loop_compiled fuel (lanes <$> original_args) in
       let* returns := rewrap_all ret_ vmap_dims in
       ret (VTuple returns))
  | (Raise e, log0) => (self, (Raise e, log0))
  | (Timeout, log0) => (self, (Timeout, log0))
  end.
End Class.
Arguments obj : clear implicits.
End TracingWhile.

Module TracingCond.
Section Class.
Context {T : Type}.

(** The attributes [true_fn] and [false_fn] hold the scripted functions:
    what a call of them does and their schemas. *)
Record obj : Type := {
  true_fn : pyfn T (list T);
  false_fn : pyfn T (list T);
  true_schema : schema;
  false_schema : schema;
  _true_fn : pyfn T (list T);
  _false_fn : pyfn T (list T);
}.

Definition __init__ (true_fn false_fn : script_fn T (list T)) : obj :=
  {| true_fn := cf_call (torch_jit_script_fn true_fn);
     false_fn := cf_call (torch_jit_script_fn false_fn);
     true_schema := cf_schema (torch_jit_script_fn true_fn);
     false_schema := cf_schema (torch_jit_script_fn false_fn);
     _true_fn := sf_call true_fn;
     _false_fn := sf_call false_fn |}.

(** [cond]: the predicate is the truth value of the tensor [cond]. *)
Definition cond (self : obj) (cond : bool) (x : list (pyval T)) : M (list T) :=
  if cond then invoke TrueFn (true_fn self) x
  else invoke FalseFn (false_fn self) x.

(** [_cond1] ... [_cond9] of [trace_cond]: they differ in the number [n] of
    operands only. *)
Definition _condN (self : obj) (n : nat) (condition : bool) (args : list (pyval T)) : M (list T) :=
  if decide (length args = n) then
    if condition then invoke TrueFn (true_fn self) args
    else invoke FalseFn (false_fn self) args
  else raise TypeError.

(** The type check: [x = true_fn(x1, ..., xn)] in one branch and [x =
    false_fn(x1, ..., xn)] in the other give [x] one type. *)
Definition _condN_typed (self : obj) (n : nat) : bool :=
  bool_decide (inputs (true_schema self) = n) && bool_decide (inputs (false_schema self) = n)
  && sty_eqb (returns (true_schema self)) (returns (false_schema self)).

Definition cond_dict (self : obj) : gmap nat (closure (bool → list (pyval T) → M (list T))) :=
  let _condN n := {| well_typed := _condN_typed self n; run := _condN self n |} in
  list_to_map [(1, _condN 1); (2, _condN 2); (3, _condN 3); (4, _condN 4); (5, _condN 5);
               (6, _condN 6); (7, _condN 7); (8, _condN 8); (9, _condN 9)].

Definition trace_cond (self : obj) (cond : bool) (x : list (pyval T)) : M (list T) :=
  let cond_dict := cond_dict self in
  if decide (length x ≤ size cond_dict) then
    match cond_dict !! length x with
    | Some c =>
        let* compiled_cond := torch_jit_script c in
        compiled_cond cond x
    | None => raise (KeyError (length x))
    end
  else raise (AssertionError (arity_msg (size cond_dict) (length x))).

(** Under the batch map a call of a branch function computes every lane;
    its per-lane lists are put back along the batch axis. *)
Definition batched_branch (who : callee) (fn : pyfn T (list T)) (x : list (list T))
  : M (list (list T)) :=
  let* rs := batched_call who fn x in
  match rs with
  | [] => ret []
  | r :: _ => (stack_lists (length r) rs, [])
  end.

(** The loop [for t, f in zip(true_res, false_res)] of [vmap_cond]. *)
Fixpoint select (cond : list bool) (true_res false_res : list (list T)) : M (list (list T)) :=
  match true_res, false_res with
  | t :: true_res, f :: false_res =>
      let* r := where_lanes cond t f in
      let* res := select cond true_res false_res in
      ret (r :: res)
  | _, _ => ret []
  end.

Definition vmap_cond (self : obj) (cond : list bool) (x : list (list T)) : M (list (list T)) :=
  let* true_res := batched_branch TrueFn (_true_fn self) x in
  let* false_res := batched_branch FalseFn (_false_fn self) x in
  select cond true_res false_res.
End Class.
Arguments obj : clear implicits.
End TracingCond.

End ControlFlow.

(** ** [src/evox/utils/_control_flow/loop.py] *)

Module Loop.

(** The state dictionary of stateful functions ([Dict[str, torch.Tensor]])
    and [state.update(other)]. *)
Definition update {T} (state other : gmap string T) : gmap string T := other ∪ state.

(** Modelled from the spec: state extraction [core.use_state] (its code is
    not part of the sources) gives, for a function, an extracted form that
    takes an explicit state dictionary as its leading argument and returns
    [(new_state, result)], together with its initial state. *)
Record UseStateFunc (T R : Type) : Type := {
  init_state : gmap string T;
  state_call : gmap string T → list (pyval T) → outcome (gmap string T * R);
}.
Arguments init_state {T R} _.
Arguments state_call {T R} _ _ _.

(** A Python function object: its identity [id(fn)], whether it is a bound
    method ([hasattr(inspect.unwrap(fn), "__self__")]), what a call does,
    and what [use_state] extracts from it. *)
Record function (T R : Type) : Type := {
  fn_id : nat;
  has_self : bool;
  fn_call : list (pyval T) → outcome R;
  fn_use_state : UseStateFunc T R;
}.
Arguments fn_id {T R} _.
Arguments has_self {T R} _.
Arguments fn_call {T R} _ _.
Arguments fn_use_state {T R} _.

(** The callable behind an attribute that holds a function or [None]. *)
Definition callable {T R} (fn : option (function T R)) : pyfn T R := fn_call <$> fn.

(** Modelled from the spec: [use_state(lambda: fn)], then a call of the
    extracted form with the state as leading argument, recorded. *)
Definition use_state {T R} (fn : option (function T R)) : option (UseStateFunc T R) :=
  fn_use_state <$> fn.
Definition invoke_state {T R} (who : callee) (fn : option (UseStateFunc T R))
    (state : gmap string T) (args : list (pyval T)) : M (gmap string T * R) :=
  match fn with
  | Some f => (state_call f state args, [Call who])
  | None => raise TypeError
  end.

(** Tracing an extracted function: the example inputs are the state and the
    operands. *)
Global Instance use_state_traceable {T R} `{!Typed R}
  : Traceable (option (UseStateFunc T R)) (gmap string T * list (pyval T)) := {|
  trace_run fn example_inputs :=
    match fn with
    | Some f => typed_outcome (state_call f example_inputs.1 example_inputs.2)
    | None => Raise TypeError
    end;
  n_inputs example_inputs := S (length example_inputs.2);
|}.

Module TracingWhile.
Abbreviation compiled_vmap_loop T := (nat → list (list T) → M (pyval (list T))) (only parsing).
Abbreviation loop_key := (list (nat * string * string)) (only parsing).
Abbreviation vmap_loop_key := (list (list Z * nat * string * string)) (only parsing).
(** The identity pair of the two functions ([None] has an identity of its
    own). *)
Abbreviation cache_key := (option nat * option nat)%type (only parsing).

Section Class.
Context {T : Type} `{!TensorLike T} `{!PhysIter T}.

(** A compiled loop procedure: pure ([_compile_loop_fn]) or stateful
    ([_compile_state_loop_fn]). *)
Inductive compiled_loop : Type :=
| PureLoop (run : nat → list (pyval T) → M (pyval T))
| StateLoop (run : nat → pyval T → list (pyval T) → M (pyval T)).

Record obj : Type := {
  stateful_functions : bool;
  cond_fn : option (function T bool);
  body_fn : option (function T (pyval T));
  _cache_compiled_loop : gmap loop_key compiled_loop;
  _cache_compiled_vmap_loop : gmap vmap_loop_key (compiled_vmap_loop T);
}.

(** *** The instance cache: [__new__] and [__init__] *)

(** An instance on the heap: [__cache_key__], set by [__new__], and the
    attributes [__init__] sets. *)
Record instance : Type := {
  __cache_key__ : cache_key;
  attributes : option obj;
}.

(** The heap of tracer instances and the module-level
    [_while_object_cache]; an instance is identified by its address. *)
Record world : Type := {
  heap : gmap nat instance;
  _while_object_cache : gmap cache_key nat;
}.

Definition empty_world : world := {| heap := ∅; _while_object_cache := ∅ |}.

(** Modelled from the spec: [utils._get_cache_key_object] (its code is not
    part of the sources) derives the identity key of the function pair and
    returns the cached instance if there is one, the key otherwise. *)
Definition _get_cache_key_object (cache : gmap cache_key nat)
    (cond_fn : option (function T bool)) (body_fn : option (function T (pyval T)))
  : cache_key + nat :=
  let key := (fn_id <$> cond_fn, fn_id <$> body_fn) in
  match cache !! key with
  | Some obj => inr obj
  | None => inl key
  end.

Definition __new__ (w : world) (cond_fn : option (function T bool))
    (body_fn : option (function T (pyval T))) (stateful_functions : option bool)
  : world * nat :=
  match _get_cache_key_object (_while_object_cache w) cond_fn body_fn with
  | inl key =>
      let obj := fresh (dom (heap w)) in
      ({| heap := <[obj := {| __cache_key__ := key; attributes := None |}]> (heap w);
          _while_object_cache := _while_object_cache w |}, obj)
  | inr obj => (w, obj)
  end.

(** [__init__]; the call [super().__init__()] touches none of the
    attributes below, and the finalizer registered last only runs when the
    instance is collected, which does not happen while a caller holds it. *)
Definition __init__ (w : world) (self : nat) (cond_fn : option (function T bool))
    (body_fn : option (function T (pyval T))) (stateful_functions : option bool)
  : M world :=
  match heap w !! self with
  | None => raise RuntimeError
  | Some inst =>
      if decide (is_Some (_while_object_cache w !! __cache_key__ inst)) then ret w
      else
        let stateful_functions :=
          match stateful_functions with
          | Some b => b
          | None => from_option has_self false body_fn || from_option has_self false cond_fn
          end in
        let attrs := {| stateful_functions := stateful_functions;
                        cond_fn := cond_fn;
                        body_fn := body_fn;
                        _cache_compiled_loop := ∅;
                        _cache_compiled_vmap_loop := ∅ |} in
        ret {| heap := <[self := {| __cache_key__ := __cache_key__ inst;
                                    attributes := Some attrs |}]> (heap w);
               _while_object_cache := <[__cache_key__ inst := self]> (_while_object_cache w) |}
  end.

(** [TracingWhile(cond_fn, body_fn, stateful_functions)]: [__new__], then
    [__init__] on the instance it returned. *)
Definition construct (w : world) (cond_fn : option (function T bool))
    (body_fn : option (function T (pyval T))) (stateful_functions : option bool)
  : M (world * nat) :=
  let '(w, obj) := __new__ w cond_fn body_fn stateful_functions in
  let* w := __init__ w obj cond_fn body_fn stateful_functions in
  ret (w, obj).

(** *** The direct executor *)

Fixpoint loop_while (self : obj) (fuel : nat) (x : pyval T) : M (pyval T) :=
  let* continue := bind (star x) (invoke CondFn (callable (cond_fn self))) in
  if continue : bool then
    match fuel with
    | 0 => timeout
    | S fuel =>
        let* x := bind (star x) (invoke BodyFn (callable (body_fn self))) in
        loop_while self fuel x
    end
  else ret x.

(** Both branches of the test on [None] run the same loop. *)
Definition loop (self : obj) (fuel : nat) (x : list (pyval T)) : M (pyval T) :=
  if bool_decide (cond_fn self = None ∨ body_fn self = None)
  then loop_while self fuel (VTuple x)
  else loop_while self fuel (VTuple x).

(** *** [_compile_state_loop_fn] *)

(** The closures [_loop1] ... [_loop9] call the compiled extracted
    functions [cond_fn] and [body_fn]: what running a closure does depends on
    what a call of these does, whether its text type-checks on their
    schemas. *)
Section StateLoops.
Variable jit_cond_fn : option (UseStateFunc T bool).
Variable jit_body_fn : option (UseStateFunc T (pyval T)).

(** One evaluation of the condition and the merge of its state:
    [cond_state, cond = cond_fn(state, ...); state.update(cond_state)]. *)
Definition state_cond (state : gmap string T) (args : list (pyval T))
  : M (gmap string T * bool) :=
  let* r := invoke_state CondFn jit_cond_fn state args in
  ret (update state r.1, r.2).

Definition state_body (state : gmap string T) (args : list (pyval T))
  : M (gmap string T * pyval T) :=
  let* r := invoke_state BodyFn jit_body_fn state args in
  ret (update state r.1, r.2).

Fixpoint state_loop1_while (fuel : nat) (state : gmap string T) (x1 : pyval T) (cond : bool)
  : M (gmap string T * pyval T) :=
  if cond then
    match fuel with
    | 0 => timeout
    | S fuel =>
        let* (state, x1) := state_body state [x1] in
        let* (state, cond) := state_cond state [x1] in
        state_loop1_while fuel state x1 cond
    end
  else ret (state, x1).

(** The parameter [state] of a compiled procedure is a dictionary. *)
Definition as_state (state : pyval T) : M (gmap string T) :=
  match state with
  | VDict d => ret d
  | _ => raise RuntimeError
  end.

Definition state_loop1 (fuel : nat) (state : pyval T) (args : list (pyval T)) : M (pyval T) :=
  match args with
  | [x1] =>
      let* state := as_state state in
      let* (state, cond) := state_cond state [x1] in
      let* (state, x1) := state_loop1_while fuel state x1 cond in
      ret (VTuple [VDict state; x1])
  | _ => raise TypeError
  end.

(** [_loop2], [_loop4] ... [_loop9]: the condition is re-evaluated on
    [( *xs)]. *)
Fixpoint state_loopN_while (fuel : nat) (state : gmap string T) (xs : pyval T) (cond : bool)
  : M (gmap string T * pyval T) :=
  if cond then
    match fuel with
    | 0 => timeout
    | S fuel =>
        let* (state, xs) := bind (star xs) (state_body state) in
        let* (state, cond) := bind (star xs) (state_cond state) in
        state_loopN_while fuel state xs cond
    end
  else ret (state, xs).

Definition state_loopN (n fuel : nat) (state : pyval T) (args : list (pyval T)) : M (pyval T) :=
  if decide (length args = n) then
    let* state := as_state state in
    let xs := VTuple args in
    let* (state, cond) := bind (star xs) (state_cond state) in
    let* (state, xs) := state_loopN_while fuel state xs cond in
    ret (VTuple [VDict state; xs])
  else raise TypeError.

(** [_loop3]: inside the loop the condition is re-evaluated on
    [(state, xs)], the tuple [xs] being its only operand. *)
Fixpoint state_loop3_while (fuel : nat) (state : gmap string T) (xs : pyval T) (cond : bool)
  : M (gmap string T * pyval T) :=
  if cond then
    match fuel with
    | 0 => timeout
    | S fuel =>
        let* (state, xs) := bind (star xs) (state_body state) in
        let* (state, cond) := state_cond state [xs] in
        state_loop3_while fuel state xs cond
    end
  else ret (state, xs).

Definition state_loop3 (fuel : nat) (state : pyval T) (args : list (pyval T)) : M (pyval T) :=
  match args with
  | [x1; x2; x3] =>
      let* state := as_state state in
      let xs := VTuple [x1; x2; x3] in
      let* (state, cond) := bind (star xs) (state_cond state) in
      let* (state, xs) := state_loop3_while fuel state xs cond in
      ret (VTuple [VDict state; xs])
  | _ => raise TypeError
  end.
End StateLoops.

(** The type checks.  [cond_state, cond = cond_fn(state, ...)] unpacks a
    state and a tensor, [state.update(cond_state)] takes a dictionary;
    [body_state, x1 = body_fn(state, x1)] assigns a tensor to the tensor
    [x1], and [body_state, xs = body_fn(state, *xs)] a tuple of [n] tensors
    to the tuple [xs].  A call passes the state and the operands.  In
    [_loop3] the call [cond_fn(state, xs)] inside the loop passes two
    inputs. *)
Definition state_loop1_typed (cond_fn body_fn : schema) : bool :=
  fits cond_fn 2 (TyTuple [TyDict; TyTensor]) && fits body_fn 2 (TyTuple [TyDict; TyTensor]).
Definition state_loopN_typed (cond_fn body_fn : schema) (n : nat) : bool :=
  fits cond_fn (S n) (TyTuple [TyDict; TyTensor])
  && fits body_fn (S n) (TyTuple [TyDict; TyTuple (replicate n TyTensor)]).
Definition state_loop3_typed (cond_fn body_fn : schema) : bool :=
  state_loopN_typed cond_fn body_fn 3 && fits cond_fn 2 (TyTuple [TyDict; TyTensor]).

Section StateBuild.
Variable self : obj.
Variable original_args : list (pyval T).

Definition state_cond_fn : option (UseStateFunc T bool) := use_state (cond_fn self).
Definition state_body_fn : option (UseStateFunc T (pyval T)) := use_state (body_fn self).
Definition combined_init_state : gmap string T :=
  update (from_option init_state ∅ state_cond_fn) (from_option init_state ∅ state_body_fn).

Definition state_loops_dict (cond_fn : compiled_fn (option (UseStateFunc T bool)))
    (body_fn : compiled_fn (option (UseStateFunc T (pyval T))))
  : gmap nat (closure (nat → pyval T → list (pyval T) → M (pyval T))) :=
  let _loopN n := {| well_typed := state_loopN_typed (cf_schema cond_fn) (cf_schema body_fn) n;
                     run := state_loopN (cf_call cond_fn) (cf_call body_fn) n |} in
  list_to_map [(1, {| well_typed := state_loop1_typed (cf_schema cond_fn) (cf_schema body_fn);
                      run := state_loop1 (cf_call cond_fn) (cf_call body_fn) |});
               (2, _loopN 2);
               (3, {| well_typed := state_loop3_typed (cf_schema cond_fn) (cf_schema body_fn);
                      run := state_loop3 (cf_call cond_fn) (cf_call body_fn) |});
               (4, _loopN 4); (5, _loopN 5); (6, _loopN 6); (7, _loopN 7); (8, _loopN 8);
               (9, _loopN 9)].

(** The builder: the extracted condition and body are traced on the
    combined initial state and the operands, then the closure for the number
    of operands is selected and compiled. *)
Definition _compile_state_loop_fn
  : M (compiled_loop * option (UseStateFunc T bool) * option (UseStateFunc T (pyval T))) :=
  let* _ := tell (Compile CompileStateLoopFn) in
  let* cond_fn := jit CondFn state_cond_fn (combined_init_state, original_args) in
  let* body_fn := jit BodyFn state_body_fn (combined_init_state, original_args) in
  let loops_dict := state_loops_dict cond_fn body_fn in
  if decide (length original_args ≤ size loops_dict) then
    match loops_dict !! length original_args with
    | Some l =>
        let* compiled_loop := torch_jit_script l in
        ret (StateLoop compiled_loop, state_cond_fn, state_body_fn)
    | None => raise (KeyError (length original_args))
    end
  else raise (AssertionError (arity_msg (size loops_dict) (length original_args))).
End StateBuild.

(** *** [_compile_loop_fn] *)

(** The closures [_loop1] ... [_loop9] call the compiled functions
    [cond_fn] and [body_fn]. *)
Section Loops.
Variable jit_cond_fn : pyfn T bool.
Variable jit_body_fn : pyfn T (pyval T).

Fixpoint loop1_while (fuel : nat) (x1 : pyval T) (cond : bool) : M (pyval T) :=
  if cond then
    match fuel with
    | 0 => timeout
    | S fuel =>
        let* x1 := invoke BodyFn jit_body_fn [x1] in
        let* cond := invoke CondFn jit_cond_fn [x1] in
        loop1_while fuel x1 cond
    end
  else ret x1.

Definition loop1 (fuel : nat) (args : list (pyval T)) : M (pyval T) :=
  match args with
  | [x1] =>
      let* cond := invoke CondFn jit_cond_fn [x1] in
      loop1_while fuel x1 cond
  | _ => raise TypeError
  end.

(** [_loop2] ... [_loop9]: they differ in the number [n] of operands only. *)
Fixpoint loopN_while (fuel : nat) (xs : pyval T) (cond : bool) : M (pyval T) :=
  if cond then
    match fuel with
    | 0 => timeout
    | S fuel =>
        let* xs := bind (star xs) (invoke BodyFn jit_body_fn) in
        let* cond := bind (star xs) (invoke CondFn jit_cond_fn) in
        loopN_while fuel xs cond
    end
  else ret xs.

Definition loopN (n fuel : nat) (args : list (pyval T)) : M (pyval T) :=
  if decide (length args = n) then
    let xs := VTuple args in
    let* cond := bind (star xs) (invoke CondFn jit_cond_fn) in
    loopN_while fuel xs cond
  else raise TypeError.
End Loops.

(** The type checks: [while cond] tests the tensor [cond = cond_fn(...)];
    [x1 = body_fn(x1)] assigns a tensor to the tensor [x1], and [xs =
    body_fn( *xs)] a tuple of [n] tensors to the tuple [xs]. *)
Definition loop1_typed (cond_fn body_fn : schema) : bool :=
  fits cond_fn 1 TyTensor && fits body_fn 1 TyTensor.
Definition loopN_typed (cond_fn body_fn : schema) (n : nat) : bool :=
  fits cond_fn n TyTensor && fits body_fn n (TyTuple (replicate n TyTensor)).

Section Build.
Variable self : obj.
Variable original_args : list (pyval T).

Definition loops_dict (cond_fn : compiled_fn (pyfn T bool))
    (body_fn : compiled_fn (pyfn T (pyval T)))
  : gmap nat (closure (nat → list (pyval T) → M (pyval T))) :=
  let _loopN n := {| well_typed := loopN_typed (cf_schema cond_fn) (cf_schema body_fn) n;
                     run := loopN (cf_call cond_fn) (cf_call body_fn) n |} in
  list_to_map [(1, {| well_typed := loop1_typed (cf_schema cond_fn) (cf_schema body_fn);
                      run := loop1 (cf_call cond_fn) (cf_call body_fn) |});
               (2, _loopN 2); (3, _loopN 3); (4, _loopN 4); (5, _loopN 5);
               (6, _loopN 6); (7, _loopN 7); (8, _loopN 8); (9, _loopN 9)].

(** The builder: the condition and the body are traced on the operands,
    then the closure for the number of operands is selected and compiled. *)
Definition _compile_loop_fn : M compiled_loop :=
  let* _ := tell (Compile CompileLoopFn) in
  let* cond_fn := jit CondFn (callable (cond_fn self)) original_args in
  let* body_fn := jit BodyFn (callable (body_fn self)) original_args in
  let loops_dict := loops_dict cond_fn body_fn in
  if decide (length original_args ≤ size loops_dict) then
    match loops_dict !! length original_args with
    | Some l =>
        let* compiled_loop := torch_jit_script l in
        ret (PureLoop compiled_loop)
    | None => raise (KeyError (length original_args))
    end
  else raise (AssertionError (arity_msg (size loops_dict) (length original_args))).
End Build.

(** *** [trace_loop] *)

(** [(a.ndim, a.dtype, a.device)]: attributes of tensors only. *)
Definition signature (a : pyval T) : M (nat * string * string) :=
  match a with
  | VTensor t => ret (ndim t, dtype t, device t)
  | _ => raise AttributeError
  end.

Fixpoint signatures (x : list (pyval T)) : M loop_key :=
  match x with
  | [] => ret []
  | a :: x =>
      let* s := signature a in
      let* k := signatures x in
      ret (s :: k)
  end.

Definition set_cache_compiled_loop (self : obj) (cache : gmap loop_key compiled_loop) : obj :=
  {| stateful_functions := stateful_functions self; cond_fn := cond_fn self;
     body_fn := body_fn self; _cache_compiled_loop := cache;
     _cache_compiled_vmap_loop := _cache_compiled_vmap_loop self |}.

Definition set_cache_compiled_vmap_loop (self : obj)
    (cache : gmap vmap_loop_key (compiled_vmap_loop T)) : obj :=
  {| stateful_functions := stateful_functions self; cond_fn := cond_fn self;
     body_fn := body_fn self; _cache_compiled_loop := _cache_compiled_loop self;
     _cache_compiled_vmap_loop := cache |}.

(** A call of a cached procedure, with or without the state. *)
Definition call_compiled (compiled_cond : compiled_loop) (fuel : nat) (state : option (pyval T))
    (x : list (pyval T)) : M (pyval T) :=
  match compiled_cond, state with
  | StateLoop run, Some state => run fuel state x
  | PureLoop run, None => run fuel x
  | _, _ => raise TypeError
  end.

(** The cache lookup of [trace_loop] and [vmap_loop]: the cached procedure
    on a hit; on a miss the procedure is built and, if the build succeeded,
    stored. *)
Definition lookup_or_build `{Countable K} {P : Type} (cache : gmap K P) (key : K) (build : M P)
  : gmap K P * M P :=
  match cache !! key with
  | Some compiled => (cache, ret compiled)
  | None =>
      match build with
      | (Done compiled, log) => (<[key := compiled]> cache, (Done compiled, log))
      | failed => (cache, failed)
      end
  end.

(** The arguments split as [state = x[0]; x = x[1:]] when stateful. *)
Definition split_state (self : obj) (x : list (pyval T))
  : M (option (pyval T) * list (pyval T)) :=
  if stateful_functions self then
    match x with
    | [] => raise IndexError
    | VNone :: x => ret (None, x)
    | state :: x => ret (Some state, x)
    end
  else ret (None, x).

(** [trace_loop]: the tracer after the call, and the result. *)
Definition trace_loop (self : obj) (fuel : nat) (x : list (pyval T)) : obj * M (pyval T) :=
  match (let* sx := split_state self x in
         let* key := signatures sx.2 in
         ret (sx, key)) with
  | (Done (state, x, key), log0) =>
      let build :=
        match state with
        | Some _ =>
            let* r := _compile_state_loop_fn self x in
            ret r.1.1
        | None => _compile_loop_fn self x
        end in
      let '(cache, compiled) := lookup_or_build (_cache_compiled_loop self) key build in
      (set_cache_compiled_loop self cache,
       let* _ := (Done tt, log0) in
       let* compiled_cond := compiled in
       call_compiled compiled_cond fuel state x)
  | (Raise e, log0) => (self, (Raise e, log0))
  | (Timeout, log0) => (self, (Timeout, log0))
  end.

(** *** [vmap_loop] *)

Definition _compile_vmap_loop_fn (self : obj) (original_args : list (BatchedTensor T))
    (vmap_dims : list (list Z)) : M (compiled_vmap_loop T) :=
  VmapLoopFn._compile_vmap_loop_fn (callable (cond_fn self)) (callable (body_fn self))
    (lanes <$> original_args) vmap_dims.

(** [tuple(returns) if len(returns) > 1 else returns[0]]. *)
Definition pack_returns {A} (returns : list (pyval A)) : M (pyval A) :=
  if decide (1 < length returns) then ret (VTuple returns)
  else match returns with
       | r :: _ => ret r
       | [] => raise IndexError
       end.

Definition vmap_loop (self : obj) (fuel : nat) (x : list (pyval (BatchedTensor T)))
  : obj * M (pyval (wrapped T)) :=
  match unwrap_args x with
  | (Done (vmap_dims, original_args), log0) =>
      let key := (λ da : list Z * BatchedTensor T,
                    (da.1, phys_ndim da.2, phys_dtype da.2, phys_device da.2))
                   <$> zip vmap_dims original_args in
      let '(cache, compiled) :=
        lookup_or_build (_cache_compiled_vmap_loop self) key
          (_compile_vmap_loop_fn self original_args vmap_dims) in
      (set_cache_compiled_vmap_loop self cache,
       let* _ := (Done tt, log0) in
       let* vmap_loop_compiled := compiled in
       let* ret_ := vmap_loop_compiled fuel (lanes <$> original_args) in
       let* returns := rewrap_all ret_ vmap_dims in
       pack_returns returns)
  | (Raise e, log0) => (self, (Raise e, log0))
  | (Timeout, log0) => (self, (Timeout, log0))
  end.
End Class.
Arguments obj : clear implicits.
Arguments compiled_loop : clear implicits.
Arguments instance : clear implicits.
Arguments world : clear implicits.
Arguments empty_world : clear implicits.
End TracingWhile.
End Loop.

(** ** Concrete tensors for examples

    Integer 0-d tensors: iterating one is a [TypeError]. *)

Module Examples.
Open Scope Z_scope.
Global Instance Z_tensor : TensorLike Z :=
  {| ndim := λ _, 0%nat; dtype := λ _, "torch.int64"; device := λ _, "cpu";
     iter_tensor := λ _, Raise TypeError |}.
Global Instance Z_phys : PhysIter Z := λ l, Done ((λ x, [x]) <$> l).

(** A batch-tagged integer tensor, batched along axis 0. *)
Definition batched (l : list Z) : BatchedTensor Z :=
  {| lanes := l; in_dim := [0]; phys_ndim := 1; phys_dtype := "torch.int64";
     phys_device := "cpu" |}.

(** [cond_fn(x) = x < 10] and [body_fn(x) = x + 1], one operand. *)
Definition lt10 (args : list (pyval Z)) : outcome bool :=
  match args with
  | [VTensor x] => Done (bool_decide (x < 10))
  | _ => Raise TypeError
  end.
Definition succ (args : list (pyval Z)) : outcome (pyval Z) :=
  match args with
  | [VTensor x] => Done (VTensor (x + 1))
  | _ => Raise TypeError
  end.

Definition no_state {R} : Loop.UseStateFunc Z R :=
  {| Loop.init_state := ∅; Loop.state_call := λ _ _, Raise RuntimeError |}.

Definition fn {R} (id : nat) (call : list (pyval Z) → outcome R) : Loop.function Z R :=
  {| Loop.fn_id := id; Loop.has_self := false; Loop.fn_call := call;
     Loop.fn_use_state := no_state |}.

(** A tracer of [loop.py] over [lt10] and [succ], with empty caches. *)
Definition while1 : Loop.TracingWhile.obj Z :=
  {| Loop.TracingWhile.stateful_functions := false;
     Loop.TracingWhile.cond_fn := Some (fn 1 lt10);
     Loop.TracingWhile.body_fn := Some (fn 2 succ);
     Loop.TracingWhile._cache_compiled_loop := ∅;
     Loop.TracingWhile._cache_compiled_vmap_loop := ∅ |}.

(** A script-compatible function of [n] parameters whose text returns a
    value of type [ty]. *)
Definition scripted {R} (n : nat) (ty : sty) (call : list (pyval Z) → outcome R)
  : script_fn Z R :=
  {| sf_call := Some call; sf_schema := {| inputs := n; returns := ty |} |}.

(** The tracer of [control_flow.py] over the same functions. *)
Definition old_while1 : ControlFlow.TracingWhile.obj Z :=
  ControlFlow.TracingWhile.__init__ (scripted 1 TyTensor lt10) (scripted 1 TyTensor succ).

(** Branch functions of one operand: [[x + 1]] and [[x - 1]]; a third one
    returns the two outputs [[x + 1, x + 2]]. *)
Definition inc_list (args : list (pyval Z)) : outcome (list Z) :=
  match args with
  | [VTensor x] => Done [x + 1]
  | _ => Raise TypeError
  end.
Definition dec_list (args : list (pyval Z)) : outcome (list Z) :=
  match args with
  | [VTensor x] => Done [x - 1]
  | _ => Raise TypeError
  end.

Definition cond1 : ControlFlow.TracingCond.obj Z :=
  ControlFlow.TracingCond.__init__ (scripted 1 (TyList TyTensor) inc_list)
    (scripted 1 (TyList TyTensor) dec_list).


(** Two operands: [cond_fn(x, y) = x < 10] and [body_fn(x, y) = (x + 1, y + x)]. *)
Definition fst_lt10 (args : list (pyval Z)) : outcome bool :=
  match args with
  | [VTensor x; VTensor y] => Done (bool_decide (x < 10))
  | _ => Raise TypeError
  end.
Definition step2 (args : list (pyval Z)) : outcome (pyval Z) :=
  match args with
  | [VTensor x; VTensor y] => Done (VTuple [VTensor (x + 1); VTensor (y + x)])
  | _ => Raise TypeError
  end.
Definition while2 : Loop.TracingWhile.obj Z :=
  {| Loop.TracingWhile.stateful_functions := false;
     Loop.TracingWhile.cond_fn := Some (fn 4 fst_lt10);
     Loop.TracingWhile.body_fn := Some (fn 5 step2);
     Loop.TracingWhile._cache_compiled_loop := ∅;
     Loop.TracingWhile._cache_compiled_vmap_loop := ∅ |}.
Definition old_while2 : ControlFlow.TracingWhile.obj Z :=
  ControlFlow.TracingWhile.__init__ (scripted 2 TyTensor fst_lt10)
    (scripted 2 (TyTuple [TyTensor; TyTensor]) step2).

(** What [fst_lt10] and [step2] compute on the two tensors of a lane. *)
Definition fst_lt10_lane (ts : list Z) : bool :=
  match ts with
  | [x; y] => bool_decide (x < 10)
  | _ => false
  end.
Definition step2_lane (ts : list Z) : list Z :=
  match ts with
  | [x; y] => [x + 1; y + x]
  | _ => ts
  end.

(** Variadic functions: [cond_fn( *x)] holds while every operand is below
    10, [body_fn( *x)] adds one to every operand; what they compute on the
    tensors of a lane. *)
Definition all_lt10_lane (ts : list Z) : bool := forallb (λ x, bool_decide (x < 10)) ts.
Definition succ_all_lane (ts : list Z) : list Z := (λ x, x + 1) <$> ts.
Definition all_lt10 (args : list (pyval Z)) : outcome bool :=
  match mapM as_tensor args with
  | Some ts => Done (all_lt10_lane ts)
  | None => Raise TypeError
  end.
Definition succ_all (args : list (pyval Z)) : outcome (pyval Z) :=
  match mapM as_tensor args with
  | Some ts => Done (VTuple (VTensor <$> succ_all_lane ts))
  | None => Raise TypeError
  end.
Definition while_any : Loop.TracingWhile.obj Z :=
  {| Loop.TracingWhile.stateful_functions := false;
     Loop.TracingWhile.cond_fn := Some (fn 8 all_lt10);
     Loop.TracingWhile.body_fn := Some (fn 9 succ_all);
     Loop.TracingWhile._cache_compiled_loop := ∅;
     Loop.TracingWhile._cache_compiled_vmap_loop := ∅ |}.


(** Stateful functions of [n] operands: the condition [x1 < 3] leaves the
    state as it is, the body adds one to [x1] and to the entry [count] of the
    state; with one operand the body returns the bare tensor, else the tuple
    of the operands.  Either one called with another number of operands, or
    with an operand that is not a tensor, is a [TypeError]. *)
Definition count_cond (n : nat) : Loop.UseStateFunc Z bool :=
  {| Loop.init_state := {[ "count" := 0 ]};
     Loop.state_call := λ state args,
       match mapM as_tensor args with
       | Some (x :: xs) =>
           if decide (S (length xs) = n) then Done (state, bool_decide (x < 3))
           else Raise TypeError
       | _ => Raise TypeError
       end |}.
Definition count_body (n : nat) : Loop.UseStateFunc Z (pyval Z) :=
  {| Loop.init_state := {[ "count" := 0 ]};
     Loop.state_call := λ state args,
       match mapM as_tensor args with
       | Some (x :: xs) =>
           if decide (S (length xs) = n) then
             Done (<[ "count" := default 0 (state !! "count") + 1 ]> state,
                   match xs with
                   | [] => VTensor (x + 1)
                   | _ => VTuple (VTensor <$> (x + 1) :: xs)
                   end)
           else Raise TypeError
       | _ => Raise TypeError
       end |}.
Definition stateful (n : nat) : Loop.TracingWhile.obj Z :=
  {| Loop.TracingWhile.stateful_functions := true;
     Loop.TracingWhile.cond_fn :=
       Some {| Loop.fn_id := 6; Loop.has_self := true;
               Loop.fn_call := λ _, Raise RuntimeError; Loop.fn_use_state := count_cond n |};
     Loop.TracingWhile.body_fn :=
       Some {| Loop.fn_id := 7; Loop.has_self := true;
               Loop.fn_call := λ _, Raise RuntimeError; Loop.fn_use_state := count_body n |};
     Loop.TracingWhile._cache_compiled_loop := ∅;
     Loop.TracingWhile._cache_compiled_vmap_loop := ∅ |}.
End Examples.
(** ** Specification vocabulary *)

Module Spec.

(** The shape of the dictionaries [loops_dict] and [cond_dict]. *)
Definition dict9 {V} (v1 v2 v3 v4 v5 v6 v7 v8 v9 : V) : gmap nat V :=
  list_to_map [(1, v1); (2, v2); (3, v3); (4, v4); (5, v5); (6, v6); (7, v7); (8, v8); (9, v9)].


(** The log of a build that succeeds: the builder is entered and the two
    functions are traced, the condition first in [_compile_loop_fn] and
    [_compile_state_loop_fn], the body first in [_compile_vmap_loop_fn]. *)
Definition build_log (what : builder) : list event :=
  match what with
  | CompileVmapLoopFn => [Compile what; Trace BodyFn; Trace CondFn]
  | _ => [Compile what; Trace CondFn; Trace BodyFn]
  end.

(** The log of the cache lookup when the build succeeds: one build on a
    miss, none on a hit. *)
Definition lookup_log `{Countable K} {P : Type} (cache : gmap K P) (key : K) (what : builder)
  : list event :=
  match cache !! key with Some _ => [] | None => build_log what end.

(** The type of the value that the closure for [n] operands threads through
    the loop: the tensor [x1], or the tuple [xs] of [n] tensors. *)
Definition operands_type (n : nat) : sty :=
  match n with 1 => TyTensor | _ => TyTuple (replicate n TyTensor) end.

(** The tracing of [fn] on the inputs [x] returns, a value of type [ty]. *)
Definition traces_as {F E} `{!Traceable F E} (fn : F) (x : E) (ty : sty) : Prop :=
  trace_run fn x = Done ty.

Section Caches.
Context {T : Type} `{!TensorLike T} `{!PhysIter T}.
Import Loop.TracingWhile.


(** The cache keys [trace_loop] and [vmap_loop] derive from tensors. *)
Definition loop_key_of (ts : list T) : loop_key :=
  (λ t, (ndim t, dtype t, device t)) <$> ts.
Definition vmap_key {A} (bs : list (BatchedTensor A)) : vmap_loop_key :=
  (λ b, (in_dim b, phys_ndim b, phys_dtype b, phys_device b)) <$> bs.

(** The closures the builders select for [n] operands, as run on the
    compiled functions of a tracer. *)
Definition pure_proc (self : obj T) (n : nat) : nat → list (pyval T) → M (pyval T) :=
  let c := Loop.callable (cond_fn self) in
  let b := Loop.callable (body_fn self) in
  match n with 1 => loop1 c b | _ => loopN c b n end.
Definition state_proc (self : obj T) (n : nat) : nat → pyval T → list (pyval T) → M (pyval T) :=
  let c := state_cond_fn self in
  let b := state_body_fn self in
  match n with 1 => state_loop1 c b | 3 => state_loop3 c b | _ => state_loopN c b n end.

(** When a build succeeds.  The number of operands is one for which there
    is a closure, both functions return on the example inputs, and the body
    returns there a value of the type that the closure threads through the
    loop.  The stateful closure for three operands and the batched closure
    for one operand do not type-check, whatever the functions. *)
Definition pure_buildable (self : obj T) (x : list (pyval T)) : Prop :=
  1 ≤ length x ≤ 9 ∧
  (∃ ty, traces_as (Loop.callable (cond_fn self)) x ty) ∧
  traces_as (Loop.callable (body_fn self)) x (operands_type (length x)).
Definition state_buildable (self : obj T) (x : list (pyval T)) : Prop :=
  1 ≤ length x ≤ 9 ∧ length x ≠ 3 ∧
  (∃ ty, traces_as (state_cond_fn self) (combined_init_state self, x) ty) ∧
  traces_as (state_body_fn self) (combined_init_state self, x)
    (TyTuple [TyDict; operands_type (length x)]).
Definition vmap_buildable (cond_fn : pyfn T bool) (body_fn : pyfn T (pyval T))
    (x : list (list T)) (vmap_dims : list (list Z)) : Prop :=
  2 ≤ length x ≤ 9 ∧
  traces_as (VmapLoopFn.vmap_body body_fn) x (TyTuple (replicate (length x) TyTensor)) ∧
  traces_as (VmapLoopFn._vmap_cond_fn cond_fn vmap_dims) x
    (TyTuple (replicate (length x) TyTensor)).



(** Every cached procedure is one that a build of this tracer returned, on
    operands with the signature of the key. *)
Definition loop_cache_ok (self : obj T) : Prop :=
  ∀ key compiled, _cache_compiled_loop self !! key = Some compiled →
    ∃ x, signatures x = ret key ∧
         ((_compile_loop_fn self x).1 = Done compiled ∨
          (stateful_functions self = true ∧
           (_compile_state_loop_fn self x).1
           = Done (compiled, state_cond_fn self, state_body_fn self))).

Definition vmap_cache_ok (self : obj T) : Prop :=
  ∀ key compiled, _cache_compiled_vmap_loop self !! key = Some compiled →
    ∃ bs, vmap_key bs = key ∧
          (_compile_vmap_loop_fn self bs (in_dim <$> bs)).1 = Done compiled.

(** The identity of a function pair, and the invariant of the instance
    cache: every entry leads to a live instance created under that key. *)
Definition identity (cond_fn : option (Loop.function T bool))
    (body_fn : option (Loop.function T (pyval T))) : cache_key :=
  (Loop.fn_id <$> cond_fn, Loop.fn_id <$> body_fn).

Definition world_ok (w : world T) : Prop :=
  ∀ key obj, _while_object_cache w !! key = Some obj →
    ∃ inst, heap w !! obj = Some inst ∧ __cache_key__ inst = key.
End Caches.

(** The direct executor in the words of its description: the condition is
    evaluated on the current operands; while it is true the operands are
    replaced by what the body returns on them; the operands are returned
    once it is false.  [runs x k y log]: started on [x], the loop returns [y]
    after [k] executions of the body, having recorded [log]. *)
Section DirectExecutor.
Context {T : Type} `{!TensorLike T}.
Variable cond_fn : pyfn T bool.
Variable body_fn : pyfn T (pyval T).

Definition eval_cond (x : pyval T) : M bool := bind (star x) (invoke CondFn cond_fn).
Definition eval_body (x : pyval T) : M (pyval T) := bind (star x) (invoke BodyFn body_fn).

(** The same loop as a function of the iteration budget. *)
Fixpoint while_ (fuel : nat) (x : pyval T) : M (pyval T) :=
  let* continue := eval_cond x in
  if continue : bool then
    match fuel with
    | 0 => timeout
    | S fuel => let* x := eval_body x in while_ fuel x
    end
  else ret x.

Inductive runs : pyval T → nat → pyval T → list event → Prop :=
| runs_stop x log :
    eval_cond x = (Done false, log) → runs x 0 x log
| runs_step x x' y k log1 log2 log3 :
    eval_cond x = (Done true, log1) →
    eval_body x = (Done x', log2) →
    runs x' k y log3 →
    runs x (S k) y (log1 ++ log2 ++ log3).
End DirectExecutor.

(** Typing of a loop body: whenever it returns, it returns a tuple of [n]
    values. *)
Definition returns_tuples {T} (n : nat) (body_fn : pyfn T (pyval T)) : Prop :=
  ∀ f args r, body_fn = Some f → f args = Done r →
    ∃ l, r = VTuple l ∧ length l = n.

(** Operands of one lane each. *)
Definition single {T} (ts : list T) : list (list T) := (λ t, [t]) <$> ts.



(** What it would mean for the error of [vmap_loop] to identify the position
    of the offending argument: the position can be read off the exception. *)
Definition identifies_position {T R : Type}
    (vmap_loop : nat → list (pyval (BatchedTensor T)) → M R) : Prop :=
  ∃ position_of : exn → nat,
    ∀ fuel (pre : list (BatchedTensor T)) arg post,
      is_tensor arg = false →
      ∃ e log, vmap_loop fuel ((VTensor <$> pre) ++ arg :: post) = (Raise e, log) ∧
               position_of e = length pre.

Section OtherFile.
Context {T : Type} `{!TensorLike T} `{!PhysIter T}.

(** The cache key of [vmap_loop] in [control_flow.py]: batch axes and rank
    per operand. *)
Definition old_vmap_key {A} (bs : list (BatchedTensor A)) : list (list Z * nat) :=
  (λ b, (in_dim b, phys_ndim b)) <$> bs.

(** Every cached procedure of a tracer of [control_flow.py] is one that a
    build of this tracer returned, on operands with the batch axes and ranks
    of the key. *)
Definition old_vmap_cache_ok (old : ControlFlow.TracingWhile.obj T) : Prop :=
  ∀ key compiled,
    ControlFlow.TracingWhile._cache_compiled_vmap_loop old !! key = Some compiled →
    ∃ bs, old_vmap_key bs = key ∧
          (ControlFlow.TracingWhile._compile_vmap_loop_fn old bs (in_dim <$> bs)).1
          = Done compiled.

(** The closure that [_compile_vmap_loop_fn] of [control_flow.py] selects
    for [n] operands, as run on the compiled functions of a tracer. *)
Definition old_vmap_proc (old : ControlFlow.TracingWhile.obj T) (vmap_dims : list (list Z))
    (n : nat) : nat → list (list T) → M (pyval (list T)) :=
  let body := VmapLoopFn.vmap_body (ControlFlow.TracingWhile._body old) in
  let cond := VmapLoopFn._vmap_cond_fn (ControlFlow.TracingWhile._cond old) vmap_dims in
  match n with
  | 1 => VmapLoopFn._loop1 body cond
  | _ => VmapLoopFn._loopN body cond n
  end.
(** What [vmap_loop] of [control_flow.py] does with the procedure it has
    looked up or built. *)
Definition old_vmap_call (compiled : ControlFlow.TracingWhile.compiled_vmap_loop T)
    (fuel : nat) (bs : list (BatchedTensor T)) : M (pyval (wrapped T)) :=
  let* ret_ := compiled fuel (lanes <$> bs) in
  let* returns := rewrap_all ret_ (in_dim <$> bs) in
  ret (VTuple returns).
Definition old_vmap_run (old : ControlFlow.TracingWhile.obj T) (fuel : nat)
    (bs : list (BatchedTensor T)) : M (pyval (wrapped T)) :=
  let* ret_ := old_vmap_proc old (in_dim <$> bs) (length bs) fuel (lanes <$> bs) in
  let* returns := rewrap_all ret_ (in_dim <$> bs) in
  ret (VTuple returns).

End OtherFile.

(** The batched operands seen lane by lane.  [transpose m xs]: the first
    [m] lanes of the operands [xs], or the first [m] operands of the lanes
    [xs]; [rect p q xs]: [p] lists of [q] items each. *)
Definition transpose {T} (m : nat) (xs : list (list T)) : list (list T) :=
  (λ i, lane i xs) <$> seq 0 m.
Definition rect {T} (p q : nat) (xs : list (list T)) : Prop :=
  length xs = p ∧ Forall (λ x : list T, length x = q) xs.

(** The batched loop in the words of its description, for a condition [c]
    and a body [b] on the operands of one lane: while the mask of any lane is
    true, the lanes whose mask is true take the value of the body, the other
    lanes keep theirs, and the masks are evaluated again.  [lane_while] is
    the direct loop on one lane. *)
Section PerLane.
Context {T : Type}.
Variable c : list T → bool.
Variable b : list T → list T.



Fixpoint lane_while (fuel : nat) (l : list T) : option (list T) :=
  if c l then
    match fuel with
    | 0 => None
    | S fuel => lane_while fuel (b l)
    end
  else Some l.
End PerLane.

(** The condition [fc] and the body [fb] are pure and total on [n] tensors:
    they return there what the functions [c] and [b] compute, the body [n]
    tensors. *)
Definition computes {T} (n : nat) (fc : list (pyval T) → outcome bool)
    (fb : list (pyval T) → outcome (pyval T)) (c : list T → bool) (b : list T → list T) : Prop :=
  (∀ ts, length ts = n → fc (VTensor <$> ts) = Done (c ts)) ∧
  (∀ ts, length ts = n → fb (VTensor <$> ts) = Done (VTuple (VTensor <$> b ts))) ∧
  (∀ ts, length ts = n → length (b ts) = n).

(** What the loop of the description returns on the tensors [ts]: the
    result of [lane_while] as a tuple of tensors, the iteration budget
    permitting. *)
Definition lane_outcome {T} (c : list T → bool) (b : list T → list T) (fuel : nat)
    (ts : list T) : outcome (pyval T) :=
  match lane_while c b fuel ts with
  | Some y => Done (VTuple (VTensor <$> y))
  | None => Timeout
  end.


(** The stateful loop in the words of its description: the condition is
    evaluated on the current state and operands; while it is true the body is
    executed on the current state and operands, and the condition is
    evaluated again on the updated state and operands; the final state and
    the operands are returned.  Every evaluation merges the returned state
    into the current one.  [operands x] are the positional operands that the
    value [x] stands for: its items, or [x] itself when there is one operand
    only. *)
Section StatefulExecutor.
Context {T : Type} `{!TensorLike T} `{!PhysIter T}.
Variable self : Loop.TracingWhile.obj T.
Variable operands : pyval T → M (list (pyval T)).

Fixpoint state_while (fuel : nat) (state : gmap string T) (x : pyval T)
  : M (gmap string T * pyval T) :=
  let* sc := bind (operands x)
               (Loop.TracingWhile.state_cond (Loop.TracingWhile.state_cond_fn self) state) in
  if sc.2 : bool then
    match fuel with
    | 0 => timeout
    | S fuel =>
        let* sx := bind (operands x)
                     (Loop.TracingWhile.state_body (Loop.TracingWhile.state_body_fn self) sc.1) in
        state_while fuel sx.1 sx.2
    end
  else ret (sc.1, x).

(** Every cached procedure of a tracer used with a state is one that a
    stateful build of this tracer returned, on operands with the signature of
    the key. *)
Definition state_cache_ok : Prop :=
  ∀ key compiled, Loop.TracingWhile._cache_compiled_loop self !! key = Some compiled →
    ∃ x, Loop.TracingWhile.signatures x = ret key ∧
         (Loop.TracingWhile._compile_state_loop_fn self x).1
         = Done (compiled, Loop.TracingWhile.state_cond_fn self,
                 Loop.TracingWhile.state_body_fn self).
End StatefulExecutor.

(** A computation that records calls of user functions only, no build. *)
Definition quiet {A} (m : M A) : Prop := builds m.2 = 0.
End Spec.
Import Spec.


(** ** Further vocabulary *)

Module SpecMore.


(** Values that have none of the attributes [ndim], [dtype], [device]:
    [None], tuples and dictionaries. *)
Definition no_attributes {A} (v : pyval A) : Prop :=
  match v with
  | VTuple _ | VDict _ | VNone => True
  | VTensor _ | VOther _ => False
  end.

(** A tracer of [loop.py] up to its caches. *)
Definition same_functions {T} (self self' : Loop.TracingWhile.obj T) : Prop :=
  Loop.TracingWhile.stateful_functions self' = Loop.TracingWhile.stateful_functions self ∧
  Loop.TracingWhile.cond_fn self' = Loop.TracingWhile.cond_fn self ∧
  Loop.TracingWhile.body_fn self' = Loop.TracingWhile.body_fn self.

(** A batch-tagged integer tensor batched along axis 0, with the element
    type and the device given. *)
Definition batched_as (dtype device : string) (l : list Z) : BatchedTensor Z :=
  {| lanes := l; in_dim := [0%Z]; phys_ndim := 1; phys_dtype := dtype;
     phys_device := device |}.

(** The operands of a loop are a pair of tensors, neither of them negative. *)
Definition not_negative (v : pyval Z) : Prop :=
  ∃ x y : Z, v = VTuple [VTensor x; VTensor y] ∧ (0 ≤ x)%Z ∧ (0 ≤ y)%Z.
End SpecMore.
Import SpecMore.
(** * Properties *)

(** *** Laws of the writer monad *)

Lemma bind_ret_l {A B} (a : A) (k : A → outcome B * list event) : bind (ret a) k = k a.
Proof. unfold bind, ret. simpl. by destruct (k a). Qed.

Lemma bind_done {A B} (a : A) (l : list event) (k : A → outcome B * list event) :
  bind (Done a, l) k = ((k a).1, l ++ (k a).2).
Proof. reflexivity. Qed.

Lemma bind_raise {A B} (e : exn) (l : list event) (k : A → outcome B * list event) :
  bind (Raise e, l) k = (Raise e, l).
Proof. reflexivity. Qed.

Lemma bind_raise' {A B} (e : exn) (k : A → outcome B * list event) :
  bind (raise e) k = raise e.
Proof. reflexivity. Qed.

Lemma bind_timeout {A B} (l : list event) (k : A → outcome B * list event) :
  bind (Timeout, l) k = (Timeout, l).
Proof. reflexivity. Qed.

Lemma bind_assoc {A B C} (m : outcome A * list event) (k : A → outcome B * list event)
    (h : B → outcome C * list event) :
  bind (bind m k) h = bind m (λ a, bind (k a) h).
Proof.
  destruct m as [[a| |] l]; [|done..].
  rewrite !bind_done. destruct (k a) as [[b| |] l']; [|done..].
  cbn [fst snd]. rewrite !bind_done. cbn [fst snd]. by rewrite app_assoc.
Qed.

Lemma bind_ext {A B} (m : outcome A * list event) (k k' : A → outcome B * list event) :
  (∀ a, k a = k' a) → bind m k = bind m k'.
Proof. intros Hk. destruct m as [[a| |] l]; [|done..]. by rewrite !bind_done, Hk. Qed.

Lemma bind_done_congr {A B} (a : A) (l : list event) (k k' : A → outcome B * list event) :
  k a = k' a → bind (Done a, l) k = bind (Done a, l) k'.
Proof. intros Hk. by rewrite !bind_done, Hk. Qed.

(** A computation that returns decomposes along [bind]. *)
Lemma bind_Done_inv {A B} (m : outcome A * list event) (k : A → outcome B * list event)
    (b : B) (l : list event) :
  bind m k = (Done b, l) →
  ∃ a l1 l2, m = (Done a, l1) ∧ k a = (Done b, l2) ∧ l = l1 ++ l2.
Proof.
  destruct m as [[a| |] l1]; [|done..].
  rewrite bind_done. destruct (k a) as [o l2] eqn:Hk. cbn [fst snd].
  intros [= -> <-]. by exists a, l1, l2.
Qed.


Lemma builds_app l1 l2 : builds (l1 ++ l2) = builds l1 + builds l2.
Proof. unfold builds. by rewrite filter_app, length_app. Qed.
(** ** The builders and the dispatch by operand count *)

Lemma dict9_size {V} (v1 v2 v3 v4 v5 v6 v7 v8 v9 : V) :
  size (dict9 v1 v2 v3 v4 v5 v6 v7 v8 v9) = 9.
Proof. reflexivity. Qed.

Lemma dict9_lookup {V} (v1 v2 v3 v4 v5 v6 v7 v8 v9 : V) (n : nat) :
  dict9 v1 v2 v3 v4 v5 v6 v7 v8 v9 !! n =
  match n with
  | 1 => Some v1 | 2 => Some v2 | 3 => Some v3 | 4 => Some v4 | 5 => Some v5
  | 6 => Some v6 | 7 => Some v7 | 8 => Some v8 | 9 => Some v9 | _ => None
  end.
Proof.
  do 10 (destruct n as [|n]; [reflexivity|]).
  unfold dict9. cbn [list_to_map foldr uncurry fst snd].
  rewrite !lookup_insert_ne; try lia. apply lookup_empty.
Qed.

(** Normalises the monadic steps whose head has been computed. *)
Lemma bind_done_nil {A B} (a : A) (k : A → outcome B * list event) :
  bind (Done a, []) k = k a.
Proof. apply bind_ret_l. Qed.

Ltac msimpl :=
  repeat (cbv beta;
          first [ rewrite bind_ret_l | rewrite bind_done_nil | rewrite bind_raise'
                | rewrite bind_raise | rewrite bind_timeout ];
          cbn [fst snd]).

(** *** Static types *)

Lemma sty_eqb_refl (a : sty) : sty_eqb a a = true.
Proof.
  revert a. fix IH 1. intros [|l|x| | |n]; cbn; try done.
  - induction l as [|y l IHl]; [done|]. by rewrite IH, IHl.
  - by apply bool_decide_eq_true.
Qed.

Lemma sty_eqb_eq (a b : sty) : sty_eqb a b = true → a = b.
Proof.
  revert a b. fix IH 1. intros [|l|x| | |n] [|l'|x'| | |n']; cbn; try done.
  - intros H. f_equal. revert l' H.
    induction l as [|y l IHl]; intros [|y' l'] H; try done.
    apply andb_true_iff in H as [H1 H2]. f_equal; [by apply IH|by apply IHl].
  - intros H. f_equal. by apply IH.
  - intros H. f_equal. by apply bool_decide_eq_true in H.
Qed.

Lemma sty_eqb_true (a b : sty) : sty_eqb a b = true ↔ a = b.
Proof. split; [apply sty_eqb_eq|]. intros ->. apply sty_eqb_refl. Qed.

Lemma sty_eqb_false (a b : sty) : a ≠ b → sty_eqb a b = false.
Proof.
  intros Hne. destruct (sty_eqb a b) eqn:H; [|done]. by apply sty_eqb_eq in H.
Qed.

Lemma fits_true (s : schema) (n : nat) (ty : sty) :
  fits s n ty = true ↔ inputs s = n ∧ returns s = ty.
Proof.
  unfold fits. rewrite andb_true_iff, bool_decide_eq_true, sty_eqb_true. done.
Qed.

Lemma fits_here (n : nat) (ty ty' : sty) :
  fits {| inputs := n; returns := ty |} n ty' = sty_eqb ty ty'.
Proof. unfold fits. cbn. by rewrite bool_decide_eq_true_2. Qed.

Lemma type_of_tensors {A} (ts : list A) :
  type_of (VTuple (VTensor <$> ts)) = TyTuple (replicate (length ts) TyTensor).
Proof.
  cbn. f_equal. induction ts as [|t ts IH]; [done|]. cbn. by f_equal.
Qed.

(** *** Tracing *)

(** A traced function is the function as called, takes the example inputs
    and returns the traced type; tracing records one event. *)
Lemma jit_Done {F E} `{!Traceable F E} who (fn : F) (x : E) c l :
  jit who fn x = (Done c, l) →
  c = {| cf_call := fn;
         cf_schema := {| inputs := n_inputs (F:=F) x; returns := returns (cf_schema c) |} |} ∧
  trace_run fn x = Done (returns (cf_schema c)) ∧ l = [Trace who].
Proof.
  unfold jit. destruct (trace_run fn x) as [ty| |] eqn:Ht; [|done..].
  by intros [= <- <-].
Qed.

Lemma jit_returns {F E} `{!Traceable F E} who (fn : F) (x : E) ty :
  trace_run fn x = Done ty →
  jit who fn x = (Done {| cf_call := fn;
                          cf_schema := {| inputs := n_inputs (F:=F) x; returns := ty |} |},
                  [Trace who]).
Proof. unfold jit. by intros ->. Qed.

Lemma jit_fails {F E} `{!Traceable F E} who (fn : F) (x : E) :
  (∀ ty, trace_run fn x ≠ Done ty) → ∀ c, (jit who fn x).1 ≠ Done c.
Proof.
  intros Hf c. unfold jit. destruct (trace_run fn x) as [ty| |] eqn:Ht; [|done..].
  by destruct (Hf ty).
Qed.

Lemma jit_log {F E} `{!Traceable F E} who (fn : F) (x : E) : (jit who fn x).2 = [Trace who].
Proof. unfold jit. by destruct (trace_run fn x). Qed.

(** The continuation of a tracing only sees compiled functions that the
    tracing returns. *)
Lemma bind_jit_ext {F E B} `{!Traceable F E} who (fn : F) (x : E)
    (k k' : compiled_fn F → outcome B * list event) :
  (∀ ty, trace_run fn x = Done ty →
         k {| cf_call := fn; cf_schema := {| inputs := n_inputs (F:=F) x; returns := ty |} |}
         = k' {| cf_call := fn;
                 cf_schema := {| inputs := n_inputs (F:=F) x; returns := ty |} |}) →
  bind (jit who fn x) k = bind (jit who fn x) k'.
Proof.
  intros Hk. unfold jit. destruct (trace_run fn x) as [ty| |] eqn:Ht; [|done..].
  rewrite !bind_done. by rewrite (Hk ty eq_refl).
Qed.

(** *** What the builders do, by operand count *)

Section Builders.
Context {T : Type} `{!TensorLike T} `{!PhysIter T}.
Import Loop.TracingWhile.

Lemma signatures_tensors (ts : list T) :
  signatures (VTensor <$> ts) = ret (loop_key_of ts).
Proof.
  unfold loop_key_of. induction ts as [|t ts IH]; [done|].
  cbn [fmap list_fmap signatures]. cbn [fmap list_fmap] in IH. by rewrite IH.
Qed.

Lemma set_cache_compiled_loop_id (self : obj T) :
  set_cache_compiled_loop self (_cache_compiled_loop self) = self.
Proof. by destruct self. Qed.

Lemma set_cache_compiled_vmap_loop_id (self : obj T) :
  set_cache_compiled_vmap_loop self (_cache_compiled_vmap_loop self) = self.
Proof. by destruct self. Qed.

(** A condition has the type of a tensor, an extracted condition that of a
    state and a tensor. *)
Lemma cond_traces_as (fn : pyfn T bool) (x : list (pyval T)) (ty : sty) :
  traces_as fn x ty → ty = TyTensor.
Proof.
  unfold traces_as. cbn. destruct fn as [f|]; [|done]. by destruct (f x); intros [= <-].
Qed.

Lemma state_cond_traces_as (fn : option (Loop.UseStateFunc T bool))
    (x : gmap string T * list (pyval T)) (ty : sty) :
  traces_as fn x ty → ty = TyTuple [TyDict; TyTensor].
Proof.
  unfold traces_as. cbn. destruct fn as [f|]; [|done].
  by destruct (Loop.state_call f x.1 x.2); intros [= <-].
Qed.

(** The batched closure for one operand never type-checks: the mask is a
    tensor and the whole result of the condition at once. *)
Lemma _loop1_typed_false (body cond : schema) : VmapLoopFn._loop1_typed body cond = false.
Proof.
  unfold VmapLoopFn._loop1_typed. destruct (returns cond) as [|[|cond_res l]| | | |]; try done.
  destruct (sty_eqb cond_res TyTensor) eqn:H1; [|by rewrite andb_false_r].
  apply sty_eqb_eq in H1 as ->. cbn. by rewrite andb_false_r.
Qed.

(** The stateful closure for three operands never type-checks: the
    condition is called with four inputs and with two. *)
Lemma state_loop3_typed_false (cond_fn body_fn : schema) :
  state_loop3_typed cond_fn body_fn = false.
Proof.
  unfold state_loop3_typed, state_loopN_typed, fits.
  destruct (decide (inputs cond_fn = 4)) as [->|Hne].
  - by rewrite andb_false_r.
  - by rewrite (bool_decide_eq_false_2 _ Hne).
Qed.

(** [_compile_loop_fn]: the tracing, then by operand count the failure of
    the selection, of the arity guard or of the type check, or the closure. *)
Lemma compile_loop_fn_spec (self : obj T) (x : list (pyval T)) :
  _compile_loop_fn self x =
  let* _ := tell (Compile CompileLoopFn) in
  let* cond_fn := jit CondFn (Loop.callable (cond_fn self)) x in
  let* body_fn := jit BodyFn (Loop.callable (body_fn self)) x in
  match length x with
  | 0 => raise (KeyError 0)
  | n =>
      if decide (n ≤ 9) then
        if sty_eqb (returns (cf_schema body_fn)) (operands_type n)
        then ret (PureLoop (pure_proc self n))
        else raise RuntimeError
      else raise (AssertionError (arity_msg 9 n))
  end.
Proof.
  unfold _compile_loop_fn. apply bind_ext. intros _.
  apply bind_jit_ext. intros tyc Hc. apply cond_traces_as in Hc as ->.
  apply bind_jit_ext. intros tyb _. cbv zeta.
  match goal with |- context [loops_dict ?c ?b] =>
    change (loops_dict c b) with
      (dict9 {| well_typed := loop1_typed (cf_schema c) (cf_schema b);
                run := loop1 (cf_call c) (cf_call b) |}
         (((λ n, {| well_typed := loopN_typed (cf_schema c) (cf_schema b) n;
                    run := loopN (cf_call c) (cf_call b) n |}) : nat → _) 2)
         (((λ n, {| well_typed := loopN_typed (cf_schema c) (cf_schema b) n;
                    run := loopN (cf_call c) (cf_call b) n |}) : nat → _) 3)
         (((λ n, {| well_typed := loopN_typed (cf_schema c) (cf_schema b) n;
                    run := loopN (cf_call c) (cf_call b) n |}) : nat → _) 4)
         (((λ n, {| well_typed := loopN_typed (cf_schema c) (cf_schema b) n;
                    run := loopN (cf_call c) (cf_call b) n |}) : nat → _) 5)
         (((λ n, {| well_typed := loopN_typed (cf_schema c) (cf_schema b) n;
                    run := loopN (cf_call c) (cf_call b) n |}) : nat → _) 6)
         (((λ n, {| well_typed := loopN_typed (cf_schema c) (cf_schema b) n;
                    run := loopN (cf_call c) (cf_call b) n |}) : nat → _) 7)
         (((λ n, {| well_typed := loopN_typed (cf_schema c) (cf_schema b) n;
                    run := loopN (cf_call c) (cf_call b) n |}) : nat → _) 8)
         (((λ n, {| well_typed := loopN_typed (cf_schema c) (cf_schema b) n;
                    run := loopN (cf_call c) (cf_call b) n |}) : nat → _) 9))
  end.
  rewrite dict9_size, dict9_lookup. cbn [cf_schema cf_call n_inputs pyfn_traceable].
  unfold torch_jit_script, loop1_typed, loopN_typed. cbn [well_typed run].
  generalize (length x). intros n.
  destruct (decide (n ≤ 9)) as [Hle|Hgt].
  - destruct n as [|n]; [done|].
    do 9 (destruct n as [|n];
          [rewrite !fits_here, decide_True by lia;
           cbn [andb sty_eqb operands_type well_typed run returns];
           by destruct (sty_eqb tyb _); msimpl|]).
    lia.
  - do 10 (destruct n as [|n]; [lia|]). by rewrite decide_False by lia.
Qed.

Lemma compile_state_loop_fn_spec (self : obj T) (x : list (pyval T)) :
  _compile_state_loop_fn self x =
  let* _ := tell (Compile CompileStateLoopFn) in
  let* cond_fn := jit CondFn (state_cond_fn self) (combined_init_state self, x) in
  let* body_fn := jit BodyFn (state_body_fn self) (combined_init_state self, x) in
  match length x with
  | 0 => raise (KeyError 0)
  | 3 => raise RuntimeError
  | n =>
      if decide (n ≤ 9) then
        if sty_eqb (returns (cf_schema body_fn)) (TyTuple [TyDict; operands_type n])
        then ret (StateLoop (state_proc self n), state_cond_fn self, state_body_fn self)
        else raise RuntimeError
      else raise (AssertionError (arity_msg 9 n))
  end.
Proof.
  unfold _compile_state_loop_fn. apply bind_ext. intros _.
  apply bind_jit_ext. intros tyc Hc. apply state_cond_traces_as in Hc as ->.
  apply bind_jit_ext. intros tyb _. cbv zeta.
  match goal with |- context [state_loops_dict ?c ?b] =>
    change (state_loops_dict c b) with
      (dict9 {| well_typed := state_loop1_typed (cf_schema c) (cf_schema b);
                run := state_loop1 (cf_call c) (cf_call b) |}
         (((λ n, {| well_typed := state_loopN_typed (cf_schema c) (cf_schema b) n;
                    run := state_loopN (cf_call c) (cf_call b) n |}) : nat → _) 2)
         {| well_typed := state_loop3_typed (cf_schema c) (cf_schema b);
            run := state_loop3 (cf_call c) (cf_call b) |}
         (((λ n, {| well_typed := state_loopN_typed (cf_schema c) (cf_schema b) n;
                    run := state_loopN (cf_call c) (cf_call b) n |}) : nat → _) 4)
         (((λ n, {| well_typed := state_loopN_typed (cf_schema c) (cf_schema b) n;
                    run := state_loopN (cf_call c) (cf_call b) n |}) : nat → _) 5)
         (((λ n, {| well_typed := state_loopN_typed (cf_schema c) (cf_schema b) n;
                    run := state_loopN (cf_call c) (cf_call b) n |}) : nat → _) 6)
         (((λ n, {| well_typed := state_loopN_typed (cf_schema c) (cf_schema b) n;
                    run := state_loopN (cf_call c) (cf_call b) n |}) : nat → _) 7)
         (((λ n, {| well_typed := state_loopN_typed (cf_schema c) (cf_schema b) n;
                    run := state_loopN (cf_call c) (cf_call b) n |}) : nat → _) 8)
         (((λ n, {| well_typed := state_loopN_typed (cf_schema c) (cf_schema b) n;
                    run := state_loopN (cf_call c) (cf_call b) n |}) : nat → _) 9))
  end.
  rewrite dict9_size, dict9_lookup. cbn [cf_schema cf_call n_inputs Loop.use_state_traceable snd].
  unfold torch_jit_script. cbn [well_typed run]. rewrite state_loop3_typed_false.
  unfold state_loop1_typed, state_loopN_typed.
  generalize (length x). intros n.
  destruct (decide (n ≤ 9)) as [Hle|Hgt].
  - destruct n as [|n]; [done|].
    do 9 (destruct n as [|n];
          [rewrite ?fits_here, ?decide_True by lia;
           cbn [andb sty_eqb operands_type well_typed run returns bool_decide];
           try (by destruct (sty_eqb tyb _); msimpl); by msimpl|]).
    lia.
  - do 10 (destruct n as [|n]; [lia|]). by rewrite decide_False by lia.
Qed.

Lemma compile_vmap_loop_fn_spec (cond_fn : pyfn T bool) (body_fn : pyfn T (pyval T))
    (x : list (list T)) (dims : list (list Z)) :
  VmapLoopFn._compile_vmap_loop_fn cond_fn body_fn x dims =
  let* _ := tell (Compile CompileVmapLoopFn) in
  let* body := jit BodyFn (VmapLoopFn.vmap_body body_fn) x in
  let* cond := jit CondFn (VmapLoopFn._vmap_cond_fn cond_fn dims) x in
  match length x with
  | 0 => raise (KeyError 0)
  | 1 => raise RuntimeError
  | n =>
      if decide (n ≤ 9) then
        if sty_eqb (returns (cf_schema cond)) (TyTuple (replicate n TyTensor))
           && sty_eqb (returns (cf_schema body)) (TyTuple (replicate n TyTensor))
        then ret (VmapLoopFn._loopN (VmapLoopFn.vmap_body body_fn)
                    (VmapLoopFn._vmap_cond_fn cond_fn dims) n)
        else raise RuntimeError
      else raise (AssertionError (arity_msg 9 n))
  end.
Proof.
  unfold VmapLoopFn._compile_vmap_loop_fn. apply bind_ext. intros _.
  apply bind_jit_ext. intros tyb _. apply bind_jit_ext. intros tyc _. cbv zeta.
  match goal with |- context [VmapLoopFn.loops_dict ?b ?c] =>
    change (VmapLoopFn.loops_dict b c) with
      (dict9 {| well_typed := VmapLoopFn._loop1_typed (cf_schema b) (cf_schema c);
                run := VmapLoopFn._loop1 (cf_call b) (cf_call c) |}
         (((λ n, {| well_typed := VmapLoopFn._loopN_typed (cf_schema b) (cf_schema c) n;
                    run := VmapLoopFn._loopN (cf_call b) (cf_call c) n |}) : nat → _) 2)
         (((λ n, {| well_typed := VmapLoopFn._loopN_typed (cf_schema b) (cf_schema c) n;
                    run := VmapLoopFn._loopN (cf_call b) (cf_call c) n |}) : nat → _) 3)
         (((λ n, {| well_typed := VmapLoopFn._loopN_typed (cf_schema b) (cf_schema c) n;
                    run := VmapLoopFn._loopN (cf_call b) (cf_call c) n |}) : nat → _) 4)
         (((λ n, {| well_typed := VmapLoopFn._loopN_typed (cf_schema b) (cf_schema c) n;
                    run := VmapLoopFn._loopN (cf_call b) (cf_call c) n |}) : nat → _) 5)
         (((λ n, {| well_typed := VmapLoopFn._loopN_typed (cf_schema b) (cf_schema c) n;
                    run := VmapLoopFn._loopN (cf_call b) (cf_call c) n |}) : nat → _) 6)
         (((λ n, {| well_typed := VmapLoopFn._loopN_typed (cf_schema b) (cf_schema c) n;
                    run := VmapLoopFn._loopN (cf_call b) (cf_call c) n |}) : nat → _) 7)
         (((λ n, {| well_typed := VmapLoopFn._loopN_typed (cf_schema b) (cf_schema c) n;
                    run := VmapLoopFn._loopN (cf_call b) (cf_call c) n |}) : nat → _) 8)
         (((λ n, {| well_typed := VmapLoopFn._loopN_typed (cf_schema b) (cf_schema c) n;
                    run := VmapLoopFn._loopN (cf_call b) (cf_call c) n |}) : nat → _) 9))
  end.
  rewrite dict9_size, dict9_lookup. cbn [cf_schema cf_call n_inputs recording_traceable].
  unfold torch_jit_script. cbn [well_typed run]. rewrite _loop1_typed_false.
  unfold VmapLoopFn._loopN_typed.
  generalize (length x). intros n.
  destruct (decide (n ≤ 9)) as [Hle|Hgt].
  - destruct n as [|n]; [done|]. destruct n as [|n]; [done|].
    do 8 (destruct n as [|n];
          [rewrite !fits_here, decide_True by lia;
           cbn [well_typed run returns];
           by destruct (sty_eqb tyc _), (sty_eqb tyb _); msimpl|]).
    lia.
  - do 10 (destruct n as [|n]; [lia|]). by rewrite decide_False by lia.
Qed.

(** A build enters the builder, traces one function and then the other, and
    goes on if both tracings returned. *)
Lemma build_cases {F1 E1 F2 E2 B} `{!Traceable F1 E1} `{!Traceable F2 E2}
    (what : builder) (w1 w2 : callee) (f1 : F1) (x1 : E1) (f2 : F2) (x2 : E2)
    (k : compiled_fn F1 → compiled_fn F2 → outcome B * list event) :
  let m := (let* _ := tell (Compile what) in
            let* c := jit w1 f1 x1 in
            let* b := jit w2 f2 x2 in
            k c b) in
  (∃ ty1 ty2, traces_as f1 x1 ty1 ∧ traces_as f2 x2 ty2 ∧
     m = let r := k {| cf_call := f1;
                       cf_schema := {| inputs := n_inputs (F:=F1) x1; returns := ty1 |} |}
                    {| cf_call := f2;
                       cf_schema := {| inputs := n_inputs (F:=F2) x2; returns := ty2 |} |} in
         (r.1, [Compile what; Trace w1; Trace w2] ++ r.2)) ∨
  (((∀ ty, ¬ traces_as f1 x1 ty) ∨ (∀ ty, ¬ traces_as f2 x2 ty)) ∧
   (∀ c, m.1 ≠ Done c) ∧ builds m.2 = 1 ∧
   (∀ who, calls who m.2 = 0)).
Proof.
  cbv zeta. unfold tell, jit, traces_as. rewrite bind_done.
  destruct (trace_run f1 x1) as [ty1| |] eqn:H1.
  2,3: right; split; [left; congruence|]; by cbn.
  rewrite bind_done. cbn [fst snd].
  destruct (trace_run f2 x2) as [ty2| |] eqn:H2.
  2,3: right; split; [right; congruence|]; by cbn.
  left. exists ty1, ty2. split; [done|]. split; [done|].
  rewrite bind_done. cbn [fst snd]. done.
Qed.
End Builders.

(** *** When a build succeeds *)

Section Buildable.
Context {T : Type} `{!TensorLike T} `{!PhysIter T}.
Import Loop.TracingWhile.

Lemma compile_loop_fn_ok (self : obj T) (x : list (pyval T)) :
  pure_buildable self x →
  _compile_loop_fn self x
  = (Done (PureLoop (pure_proc self (length x))), build_log CompileLoopFn).
Proof.
  intros (Hn & [tyc Hc] & Hb). rewrite compile_loop_fn_spec.
  rewrite (jit_returns _ _ _ _ Hc), (jit_returns _ _ _ _ Hb). unfold tell.
  rewrite !bind_done. cbn [fst snd cf_schema returns].
  destruct (length x) as [|n] eqn:Hl; [lia|].
  rewrite decide_True by lia. by rewrite sty_eqb_refl.
Qed.

Lemma compile_loop_fn_Done (self : obj T) (x : list (pyval T)) (c : compiled_loop T) :
  (_compile_loop_fn self x).1 = Done c → pure_buildable self x.
Proof.
  rewrite compile_loop_fn_spec. unfold tell, jit, pure_buildable, traces_as.
  rewrite bind_done. cbn [fst].
  destruct (trace_run (Loop.callable (cond_fn self)) x) as [tyc| |] eqn:Hc; [|done..].
  rewrite bind_done. cbn [fst].
  destruct (trace_run (Loop.callable (body_fn self)) x) as [tyb| |] eqn:Hb; [|done..].
  rewrite bind_done. cbn [fst cf_schema returns].
  destruct (length x) as [|n] eqn:Hl; [done|].
  destruct (decide (S n ≤ 9)) as [Hle|]; [|done].
  destruct (sty_eqb tyb _) eqn:Hty; [|done]. apply sty_eqb_eq in Hty as ->.
  intros _. split; [lia|]. split; [by exists tyc|done].
Qed.


Lemma compile_state_loop_fn_ok (self : obj T) (x : list (pyval T)) :
  state_buildable self x →
  _compile_state_loop_fn self x
  = (Done (StateLoop (state_proc self (length x)), state_cond_fn self, state_body_fn self),
     build_log CompileStateLoopFn).
Proof.
  intros (Hn & Hn3 & [tyc Hc] & Hb). rewrite compile_state_loop_fn_spec.
  rewrite (jit_returns _ _ _ _ Hc), (jit_returns _ _ _ _ Hb). unfold tell.
  rewrite !bind_done. cbn [fst snd cf_schema returns].
  destruct (length x) as [|[|[|[|n]]]] eqn:Hl; [lia| | |lia|].
  all: rewrite decide_True by lia; by rewrite sty_eqb_refl.
Qed.

Lemma compile_state_loop_fn_Done (self : obj T) (x : list (pyval T)) r :
  (_compile_state_loop_fn self x).1 = Done r → state_buildable self x.
Proof.
  rewrite compile_state_loop_fn_spec. unfold tell, jit, state_buildable, traces_as.
  rewrite bind_done. cbn [fst].
  destruct (trace_run (state_cond_fn self) _) as [tyc| |] eqn:Hc; [|done..].
  rewrite bind_done. cbn [fst].
  destruct (trace_run (state_body_fn self) _) as [tyb| |] eqn:Hb; [|done..].
  rewrite bind_done. cbn [fst cf_schema returns].
  destruct (length x) as [|[|[|[|n]]]] eqn:Hl; [done| | |done|].
  all: match goal with |- context [decide (?a ≤ 9)] =>
         destruct (decide (a ≤ 9)) as [Hle|]; [|done] end.
  all: destruct (sty_eqb tyb _) eqn:Hty; [|done]; apply sty_eqb_eq in Hty as ->.
  all: intros _; split; [lia|]; split; [lia|]; split; [by exists tyc|done].
Qed.

Lemma compile_state_loop_fn_log (self : obj T) (x : list (pyval T)) :
  builds (_compile_state_loop_fn self x).2 = 1 ∧
  ∀ who, calls who (_compile_state_loop_fn self x).2 = 0.
Proof.
  rewrite compile_state_loop_fn_spec. unfold tell, jit. rewrite bind_done. cbn [fst snd].
  destruct (trace_run (state_cond_fn self) _) as [tyc| |]; [|done..].
  rewrite bind_done. cbn [fst snd].
  destruct (trace_run (state_body_fn self) _) as [tyb| |]; [|done..].
  rewrite bind_done. cbn [fst snd cf_schema returns].
  destruct (length x) as [|[|[|[|n]]]]; [done| | |done|].
  all: match goal with |- context [decide (?a ≤ 9)] => destruct (decide (a ≤ 9)); [|done] end.
  all: by destruct (sty_eqb tyb _).
Qed.

Lemma compile_vmap_loop_fn_ok (cond_fn : pyfn T bool) (body_fn : pyfn T (pyval T))
    (x : list (list T)) (dims : list (list Z)) :
  vmap_buildable cond_fn body_fn x dims →
  VmapLoopFn._compile_vmap_loop_fn cond_fn body_fn x dims
  = (Done (VmapLoopFn._loopN (VmapLoopFn.vmap_body body_fn)
             (VmapLoopFn._vmap_cond_fn cond_fn dims) (length x)),
     build_log CompileVmapLoopFn).
Proof.
  intros (Hn & Hb & Hc). rewrite compile_vmap_loop_fn_spec.
  rewrite (jit_returns _ _ _ _ Hc), (jit_returns _ _ _ _ Hb). unfold tell.
  rewrite !bind_done. cbn [fst snd cf_schema returns].
  destruct (length x) as [|[|n]] eqn:Hl; [lia..|].
  rewrite decide_True by lia. by rewrite sty_eqb_refl.
Qed.

Lemma compile_vmap_loop_fn_Done (cond_fn : pyfn T bool) (body_fn : pyfn T (pyval T))
    (x : list (list T)) (dims : list (list Z)) c :
  (VmapLoopFn._compile_vmap_loop_fn cond_fn body_fn x dims).1 = Done c →
  vmap_buildable cond_fn body_fn x dims.
Proof.
  rewrite compile_vmap_loop_fn_spec. unfold tell, jit, vmap_buildable, traces_as.
  rewrite bind_done. cbn [fst].
  destruct (trace_run (VmapLoopFn.vmap_body body_fn) x) as [tyb| |] eqn:Hb; [|done..].
  rewrite bind_done. cbn [fst].
  destruct (trace_run (VmapLoopFn._vmap_cond_fn cond_fn dims) x) as [tyc| |] eqn:Hc;
    [|done..].
  rewrite bind_done. cbn [fst cf_schema returns].
  destruct (length x) as [|[|n]] eqn:Hl; [done..|].
  destruct (decide (S (S n) ≤ 9)) as [Hle|]; [|done].
  destruct (sty_eqb tyc _) eqn:Htc; [|done]. destruct (sty_eqb tyb _) eqn:Htb; [|done].
  apply sty_eqb_eq in Htc as ->. apply sty_eqb_eq in Htb as ->.
  intros _. split; [lia|done].
Qed.


(** A build returns exactly when the operands are buildable; it fails
    otherwise. *)
Lemma compile_loop_fn_fails (self : obj T) (x : list (pyval T)) :
  ¬ pure_buildable self x → ∀ c, (_compile_loop_fn self x).1 ≠ Done c.
Proof. intros Hn c Hc. by apply Hn, (compile_loop_fn_Done self x c). Qed.

Lemma compile_state_loop_fn_fails (self : obj T) (x : list (pyval T)) :
  ¬ state_buildable self x → ∀ r, (_compile_state_loop_fn self x).1 ≠ Done r.
Proof. intros Hn c Hc. by apply Hn, (compile_state_loop_fn_Done self x c). Qed.

Lemma compile_vmap_loop_fn_fails (cond_fn : pyfn T bool) (body_fn : pyfn T (pyval T))
    (x : list (list T)) (dims : list (list Z)) :
  ¬ vmap_buildable cond_fn body_fn x dims →
  ∀ c, (VmapLoopFn._compile_vmap_loop_fn cond_fn body_fn x dims).1 ≠ Done c.
Proof. intros Hn c Hc. by apply Hn, (compile_vmap_loop_fn_Done _ _ _ _ c). Qed.
End Buildable.

(** ** The cache lookup of [trace_loop] and [vmap_loop] *)

Section CacheFacts.
Context {T : Type} `{!TensorLike T} `{!PhysIter T}.
Import Loop.TracingWhile.

Lemma lookup_or_build_hit `{Countable K} {P} (cache : gmap K P) key build compiled :
  cache !! key = Some compiled →
  lookup_or_build cache key build = (cache, ret compiled).
Proof. intros Hk. unfold lookup_or_build. by rewrite Hk. Qed.

Lemma lookup_or_build_miss `{Countable K} {P} (cache : gmap K P) key build compiled log :
  cache !! key = None → build = (Done compiled, log) →
  lookup_or_build cache key build = (<[key := compiled]> cache, (Done compiled, log)).
Proof. intros Hk ->. unfold lookup_or_build. by rewrite Hk. Qed.

Lemma lookup_or_build_fail `{Countable K} {P} (cache : gmap K P) key (build : M P) :
  cache !! key = None → (∀ compiled, build.1 ≠ Done compiled) →
  lookup_or_build cache key build = (cache, build).
Proof.
  intros Hk Hb. unfold lookup_or_build. rewrite Hk.
  destruct build as [[c| |] log]; [|done..]. by destruct (Hb c).
Qed.

(** [trace_loop] on tensors, without state. *)
Lemma trace_loop_pure (self : obj T) (fuel : nat) (ts : list T) :
  stateful_functions self = false →
  trace_loop self fuel (VTensor <$> ts) =
  let x := VTensor <$> ts in
  let cb := lookup_or_build (_cache_compiled_loop self) (loop_key_of ts)
              (_compile_loop_fn self x) in
  (set_cache_compiled_loop self cb.1,
   bind cb.2 (λ compiled_cond, call_compiled compiled_cond fuel None x)).
Proof.
  intros Hs. unfold trace_loop, split_state. rewrite Hs.
  msimpl. rewrite signatures_tensors. msimpl. unfold ret at 1. cbv beta iota.
  destruct (lookup_or_build _ _ _) as [cache compiled].
  cbn [fst snd]. by msimpl.
Qed.

Lemma unwrap_args_tensors (bs : list (BatchedTensor T)) :
  unwrap_args (VTensor <$> bs) = ret (in_dim <$> bs, bs).
Proof.
  induction bs as [|b bs IH]; [done|].
  cbn [fmap list_fmap unwrap_args is_tensor unwrap_batch_tensor].
  cbn [fmap list_fmap] in IH. rewrite IH. by msimpl.
Qed.

Lemma vmap_key_zip (bs : list (BatchedTensor T)) :
  (λ da : list Z * BatchedTensor T, (da.1, phys_ndim da.2, phys_dtype da.2, phys_device da.2))
    <$> zip (in_dim <$> bs) bs
  = vmap_key bs.
Proof. unfold vmap_key. induction bs as [|b bs IH]; [done|]. cbn. by f_equal. Qed.


(** [trace_loop] on a state dictionary followed by tensors. *)
Lemma trace_loop_stateful (self : obj T) (fuel : nat) (state : gmap string T) (ts : list T) :
  stateful_functions self = true →
  trace_loop self fuel (VDict state :: (VTensor <$> ts)) =
  let x := VTensor <$> ts in
  let cb := lookup_or_build (_cache_compiled_loop self) (loop_key_of ts)
              (let* r := _compile_state_loop_fn self x in ret r.1.1) in
  (set_cache_compiled_loop self cb.1,
   let* compiled_cond := cb.2 in
   call_compiled compiled_cond fuel (Some (VDict state)) x).
Proof.
  intros Hs. unfold trace_loop, split_state. rewrite Hs.
  msimpl. rewrite signatures_tensors. msimpl. unfold ret at 1. cbv beta iota.
  destruct (lookup_or_build _ _ _) as [cache compiled].
  cbn [fst snd]. by msimpl.
Qed.

Lemma length_loop_key_of (ts : list T) : length (loop_key_of ts) = length ts.
Proof. unfold loop_key_of. by rewrite length_fmap. Qed.

Lemma signatures_length (x : list (pyval T)) (key : loop_key) :
  signatures x = ret key → length key = length x.
Proof.
  revert key. induction x as [|a x IH]; intros key.
  - by intros [= <-].
  - cbn [signatures]. destruct a as [t| | | |]; try done. cbn [signature]. msimpl.
    destruct (signatures x) as [[k| |] l] eqn:Hx; [|done..].
    rewrite bind_done. cbn. intros [= <- Hl]. cbn. f_equal. apply IH.
    rewrite app_nil_r in Hl. by subst.
Qed.

(** *** What a well-formed cache holds *)

Lemma loop_cache_ok_lookup (self : obj T) key compiled :
  loop_cache_ok self → _cache_compiled_loop self !! key = Some compiled →
  1 ≤ length key ≤ 9 ∧
  (compiled = PureLoop (pure_proc self (length key)) ∨
   (stateful_functions self = true ∧ length key ≠ 3 ∧
    compiled = StateLoop (state_proc self (length key)))).
Proof.
  intros Hok Hk. destruct (Hok _ _ Hk) as (x & Hx & [Hb|[Hs Hb]]).
  - apply signatures_length in Hx as ->.
    pose proof (compile_loop_fn_Done _ _ _ Hb) as Hbuild.
    rewrite (compile_loop_fn_ok _ _ Hbuild) in Hb. injection Hb as <-.
    split; [apply Hbuild|by left].
  - apply signatures_length in Hx as ->.
    pose proof (compile_state_loop_fn_Done _ _ _ Hb) as Hbuild.
    rewrite (compile_state_loop_fn_ok _ _ Hbuild) in Hb. injection Hb as <-.
    split; [apply Hbuild|]. right. split; [done|]. split; [apply Hbuild|done].
Qed.

Lemma loop_cache_ok_pure (self : obj T) key compiled :
  loop_cache_ok self → stateful_functions self = false →
  _cache_compiled_loop self !! key = Some compiled →
  1 ≤ length key ≤ 9 ∧ compiled = PureLoop (pure_proc self (length key)).
Proof.
  intros Hok Hs Hk. destruct (loop_cache_ok_lookup _ _ _ Hok Hk) as [Hn [->|[Hs' _]]].
  - done.
  - congruence.
Qed.

Lemma state_cache_ok_lookup (self : obj T) key compiled :
  state_cache_ok self → _cache_compiled_loop self !! key = Some compiled →
  1 ≤ length key ≤ 9 ∧ length key ≠ 3 ∧
  compiled = StateLoop (state_proc self (length key)).
Proof.
  intros Hok Hk. destruct (Hok _ _ Hk) as (x & Hx & Hb).
  apply signatures_length in Hx as ->.
  pose proof (compile_state_loop_fn_Done _ _ _ Hb) as Hbuild.
  rewrite (compile_state_loop_fn_ok _ _ Hbuild) in Hb. injection Hb as <-.
  split; [apply Hbuild|]. split; [apply Hbuild|done].
Qed.


Lemma old_vmap_cache_ok_lookup (old : ControlFlow.TracingWhile.obj T) key compiled :
  old_vmap_cache_ok old →
  ControlFlow.TracingWhile._cache_compiled_vmap_loop old !! key = Some compiled →
  2 ≤ length key ≤ 9 ∧ compiled = old_vmap_proc old (fst <$> key) (length key).
Proof.
  intros Hok Hk. destruct (Hok _ _ Hk) as (bs & <- & Hb).
  pose proof (compile_vmap_loop_fn_Done _ _ _ _ _ Hb) as Hbuild.
  unfold ControlFlow.TracingWhile._compile_vmap_loop_fn in Hb.
  rewrite (compile_vmap_loop_fn_ok _ _ _ _ Hbuild) in Hb. injection Hb as <-.
  destruct Hbuild as [Hn _]. rewrite length_fmap in Hn.
  unfold old_vmap_key. rewrite length_fmap, <- list_fmap_compose.
  split; [done|]. unfold old_vmap_proc.
  replace ((fst ∘ λ b : BatchedTensor T, (in_dim b, phys_ndim b)) <$> bs)
    with (in_dim <$> bs) by by apply list_fmap_ext.
  rewrite length_fmap. by destruct (length bs) as [|[|n]]; [lia..|].
Qed.

(** A well-formed cache holds no entry for an unsupported operand count. *)
Lemma loop_cache_ok_arity (self : obj T) key :
  loop_cache_ok self → is_Some (_cache_compiled_loop self !! key) →
  1 ≤ length key ≤ 9.
Proof. intros Hok [c Hc]. by destruct (loop_cache_ok_lookup _ _ _ Hok Hc). Qed.


Lemma loop_cache_miss_arity (self : obj T) (key : loop_key) :
  loop_cache_ok self → ¬ (1 ≤ length key ≤ 9) → _cache_compiled_loop self !! key = None.
Proof.
  intros Hok Hn. destruct (_cache_compiled_loop self !! key) eqn:Hk; [|done].
  destruct Hn. eapply loop_cache_ok_arity; eauto.
Qed.


End CacheFacts.

(** ** A call of [trace_loop] or [vmap_loop]: hit, build, failed build *)

(** A failed step decides the outcome of a computation. *)
Lemma bind_not_Done {A B} (m : outcome A * list event) (k : A → outcome B * list event) :
  (∀ a, m.1 ≠ Done a) → (∀ b, (bind m k).1 ≠ Done b) ∧ (bind m k).2 = m.2.
Proof. intros Hm. destruct m as [[a| |] l]; [by destruct (Hm a)|done..]. Qed.


Section ValidArity.
Context {T : Type} `{!TensorLike T} `{!PhysIter T}.
Import Loop.TracingWhile.

Lemma pure_buildable_length (self : obj T) (ts : list T) :
  pure_buildable self (VTensor <$> ts) → 1 ≤ length ts ≤ 9.
Proof. intros [Hn _]. by rewrite length_fmap in Hn. Qed.

Lemma state_buildable_length (self : obj T) (ts : list T) :
  state_buildable self (VTensor <$> ts) → 1 ≤ length ts ≤ 9 ∧ length ts ≠ 3.
Proof. intros (Hn & Hn3 & _). by rewrite length_fmap in Hn, Hn3. Qed.

(** *** [trace_loop], no state *)

Lemma trace_loop_pure_hit (self : obj T) (fuel : nat) (ts : list T) (c : compiled_loop T) :
  loop_cache_ok self → stateful_functions self = false →
  _cache_compiled_loop self !! loop_key_of ts = Some c →
  1 ≤ length ts ≤ 9 ∧ c = PureLoop (pure_proc self (length ts)) ∧
  trace_loop self fuel (VTensor <$> ts)
  = (self, pure_proc self (length ts) fuel (VTensor <$> ts)).
Proof.
  intros Hok Hs Hk. destruct (loop_cache_ok_pure _ _ _ Hok Hs Hk) as [Hn ->].
  rewrite length_loop_key_of in *. split; [done|]. split; [done|].
  rewrite (trace_loop_pure self fuel ts Hs). cbv zeta.
  rewrite (lookup_or_build_hit _ _ _ _ Hk). cbn [fst snd]. msimpl.
  by rewrite set_cache_compiled_loop_id.
Qed.

Lemma trace_loop_pure_miss (self : obj T) (fuel : nat) (ts : list T) :
  stateful_functions self = false →
  _cache_compiled_loop self !! loop_key_of ts = None →
  pure_buildable self (VTensor <$> ts) →
  trace_loop self fuel (VTensor <$> ts) =
  (set_cache_compiled_loop self
     (<[loop_key_of ts := PureLoop (pure_proc self (length ts))]> (_cache_compiled_loop self)),
   let* _ := (Done tt, build_log CompileLoopFn) in
   pure_proc self (length ts) fuel (VTensor <$> ts)).
Proof.
  intros Hs Hk Hb. rewrite (trace_loop_pure self fuel ts Hs). cbv zeta.
  rewrite (lookup_or_build_miss _ _ _ _ _ Hk (compile_loop_fn_ok self _ Hb)).
  cbn [fst snd]. by rewrite length_fmap.
Qed.


(** A call with tensors that are buildable: the procedure for their number
    is in the cache afterwards, and is run. *)
Lemma trace_loop_pure_valid (self : obj T) (fuel : nat) (ts : list T) :
  loop_cache_ok self → stateful_functions self = false →
  pure_buildable self (VTensor <$> ts) →
  trace_loop self fuel (VTensor <$> ts) =
  (set_cache_compiled_loop self
     (<[loop_key_of ts := PureLoop (pure_proc self (length ts))]> (_cache_compiled_loop self)),
   let* _ := (Done tt, lookup_log (_cache_compiled_loop self) (loop_key_of ts) CompileLoopFn) in
   pure_proc self (length ts) fuel (VTensor <$> ts)).
Proof.
  intros Hok Hs Hb. unfold lookup_log.
  destruct (_cache_compiled_loop self !! loop_key_of ts) as [c|] eqn:Hk.
  - destruct (trace_loop_pure_hit self fuel ts c Hok Hs Hk) as (_ & -> & ->).
    rewrite insert_id by done. rewrite set_cache_compiled_loop_id. by msimpl.
  - by apply trace_loop_pure_miss.
Qed.

(** *** [trace_loop] with a state *)

Lemma trace_loop_stateful_hit (self : obj T) (fuel : nat) (state : gmap string T)
    (ts : list T) (c : compiled_loop T) :
  state_cache_ok self → stateful_functions self = true →
  _cache_compiled_loop self !! loop_key_of ts = Some c →
  (1 ≤ length ts ≤ 9 ∧ length ts ≠ 3) ∧ c = StateLoop (state_proc self (length ts)) ∧
  trace_loop self fuel (VDict state :: (VTensor <$> ts))
  = (self, state_proc self (length ts) fuel (VDict state) (VTensor <$> ts)).
Proof.
  intros Hok Hs Hk. destruct (state_cache_ok_lookup _ _ _ Hok Hk) as (Hn & Hn3 & ->).
  rewrite length_loop_key_of in *. split; [done|]. split; [done|].
  rewrite (trace_loop_stateful self fuel state ts Hs). cbv zeta.
  rewrite (lookup_or_build_hit _ _ _ _ Hk). cbn [fst snd]. msimpl.
  by rewrite set_cache_compiled_loop_id.
Qed.

Lemma trace_loop_stateful_miss (self : obj T) (fuel : nat) (state : gmap string T)
    (ts : list T) :
  stateful_functions self = true →
  _cache_compiled_loop self !! loop_key_of ts = None →
  state_buildable self (VTensor <$> ts) →
  trace_loop self fuel (VDict state :: (VTensor <$> ts)) =
  (set_cache_compiled_loop self
     (<[loop_key_of ts := StateLoop (state_proc self (length ts))]> (_cache_compiled_loop self)),
   let* _ := (Done tt, build_log CompileStateLoopFn) in
   state_proc self (length ts) fuel (VDict state) (VTensor <$> ts)).
Proof.
  intros Hs Hk Hb. rewrite (trace_loop_stateful self fuel state ts Hs). cbv zeta.
  rewrite (compile_state_loop_fn_ok self _ Hb), bind_done. cbn [fst snd ret].
  rewrite (lookup_or_build_miss _ _ _ _ _ Hk eq_refl).
  cbn [fst snd]. by rewrite length_fmap, app_nil_r.
Qed.


Lemma trace_loop_stateful_valid (self : obj T) (fuel : nat) (state : gmap string T)
    (ts : list T) :
  state_cache_ok self → stateful_functions self = true →
  state_buildable self (VTensor <$> ts) →
  trace_loop self fuel (VDict state :: (VTensor <$> ts)) =
  (set_cache_compiled_loop self
     (<[loop_key_of ts := StateLoop (state_proc self (length ts))]> (_cache_compiled_loop self)),
   let* _ := (Done tt, lookup_log (_cache_compiled_loop self) (loop_key_of ts)
                         CompileStateLoopFn) in
   state_proc self (length ts) fuel (VDict state) (VTensor <$> ts)).
Proof.
  intros Hok Hs Hb. unfold lookup_log.
  destruct (_cache_compiled_loop self !! loop_key_of ts) as [c|] eqn:Hk.
  - destruct (trace_loop_stateful_hit self fuel state ts c Hok Hs Hk) as (_ & -> & ->).
    rewrite insert_id by done. rewrite set_cache_compiled_loop_id. by msimpl.
  - by apply trace_loop_stateful_miss.
Qed.

(** *** [vmap_loop] of [loop.py] *)

Lemma vmap_buildable_length (cond_fn : pyfn T bool) (body_fn : pyfn T (pyval T))
    (bs : list (BatchedTensor T)) dims :
  vmap_buildable cond_fn body_fn (lanes <$> bs) dims → 2 ≤ length bs ≤ 9.
Proof. intros [Hn _]. by rewrite length_fmap in Hn. Qed.





End ValidArity.

(** *** [vmap_loop] of [control_flow.py] *)

Section OldValid.
Context {T : Type} `{!TensorLike T} `{!PhysIter T}.
Import ControlFlow.TracingWhile.

Lemma old_vmap_key_zip (bs : list (BatchedTensor T)) :
  (λ da : list Z * BatchedTensor T, (da.1, phys_ndim da.2)) <$> zip (in_dim <$> bs) bs
  = old_vmap_key bs.
Proof. unfold old_vmap_key. induction bs as [|b bs IH]; [done|]. cbn. by f_equal. Qed.

Lemma length_old_vmap_key (bs : list (BatchedTensor T)) :
  length (old_vmap_key bs) = length bs.
Proof. unfold old_vmap_key. by rewrite length_fmap. Qed.

Lemma dims_old_vmap_key (bs : list (BatchedTensor T)) :
  fst <$> old_vmap_key bs = in_dim <$> bs.
Proof. unfold old_vmap_key. rewrite <- list_fmap_compose. by apply list_fmap_ext. Qed.

Lemma set_cache_id (old : obj T) : set_cache old (_cache_compiled_vmap_loop old) = old.
Proof. by destruct old. Qed.

Lemma old_compile_vmap_ok (old : obj T) (bs : list (BatchedTensor T)) :
  vmap_buildable (_cond old) (_body old) (lanes <$> bs) (in_dim <$> bs) →
  _compile_vmap_loop_fn old bs (in_dim <$> bs)
  = (Done (old_vmap_proc old (in_dim <$> bs) (length bs)), build_log CompileVmapLoopFn).
Proof.
  intros Hb. unfold _compile_vmap_loop_fn. rewrite (compile_vmap_loop_fn_ok _ _ _ _ Hb).
  rewrite length_fmap. apply vmap_buildable_length in Hb.
  unfold old_vmap_proc. by destruct (length bs) as [|[|n]]; [lia..|].
Qed.

(** [vmap_loop] on batch-tagged tensors. *)
Lemma old_vmap_loop_tensors (old : obj T) (fuel : nat) (bs : list (BatchedTensor T)) :
  vmap_loop old fuel (VTensor <$> bs) =
  let vmap_dims := in_dim <$> bs in
  let cb := Loop.TracingWhile.lookup_or_build (_cache_compiled_vmap_loop old) (old_vmap_key bs)
              (_compile_vmap_loop_fn old bs vmap_dims) in
  (set_cache old cb.1,
   let* vmap_loop_compiled := cb.2 in
   let* ret_ := vmap_loop_compiled fuel (lanes <$> bs) in
   let* returns := rewrap_all ret_ vmap_dims in
   ret (VTuple returns)).
Proof.
  unfold vmap_loop. rewrite unwrap_args_tensors. unfold ret at 1. cbv beta iota zeta.
  rewrite old_vmap_key_zip. unfold Loop.TracingWhile.lookup_or_build.
  destruct (_cache_compiled_vmap_loop old !! old_vmap_key bs) as [c|] eqn:Hk.
  - cbn [fst snd]. rewrite set_cache_id. by rewrite (bind_done_nil tt).
  - destruct (_compile_vmap_loop_fn old bs (in_dim <$> bs)) as [[c| |] l]; cbn [fst snd].
    + by rewrite (bind_done_nil tt).
    + rewrite set_cache_id. by rewrite (bind_done_nil tt).
    + rewrite set_cache_id. by rewrite (bind_done_nil tt).
Qed.

Lemma old_vmap_loop_hit (old : obj T) (fuel : nat) (bs : list (BatchedTensor T)) c :
  old_vmap_cache_ok old → _cache_compiled_vmap_loop old !! old_vmap_key bs = Some c →
  2 ≤ length bs ≤ 9 ∧ c = old_vmap_proc old (in_dim <$> bs) (length bs) ∧
  vmap_loop old fuel (VTensor <$> bs) = (old, old_vmap_run old fuel bs).
Proof.
  intros Hok Hk. destruct (old_vmap_cache_ok_lookup _ _ _ Hok Hk) as [Hn ->].
  rewrite length_old_vmap_key, dims_old_vmap_key in *. split; [done|]. split; [done|].
  rewrite (old_vmap_loop_tensors old fuel bs). cbv zeta.
  rewrite (lookup_or_build_hit _ _ _ _ Hk). cbn [fst snd]. msimpl.
  by rewrite set_cache_id.
Qed.

Lemma old_vmap_loop_miss (old : obj T) (fuel : nat) (bs : list (BatchedTensor T)) :
  _cache_compiled_vmap_loop old !! old_vmap_key bs = None →
  vmap_buildable (_cond old) (_body old) (lanes <$> bs) (in_dim <$> bs) →
  vmap_loop old fuel (VTensor <$> bs) =
  (set_cache old
     (<[old_vmap_key bs := old_vmap_proc old (in_dim <$> bs) (length bs)]>
        (_cache_compiled_vmap_loop old)),
   let* _ := (Done tt, build_log CompileVmapLoopFn) in old_vmap_run old fuel bs).
Proof.
  intros Hk Hb. rewrite (old_vmap_loop_tensors old fuel bs). cbv zeta.
  rewrite (lookup_or_build_miss _ _ _ _ _ Hk (old_compile_vmap_ok old bs Hb)).
  by cbn [fst snd].
Qed.

Lemma old_vmap_loop_fail (old : obj T) (fuel : nat) (bs : list (BatchedTensor T)) :
  _cache_compiled_vmap_loop old !! old_vmap_key bs = None →
  ¬ vmap_buildable (_cond old) (_body old) (lanes <$> bs) (in_dim <$> bs) →
  let r := vmap_loop old fuel (VTensor <$> bs) in
  r.1 = old ∧ (∀ y, r.2.1 ≠ Done y) ∧
  r.2.2 = (_compile_vmap_loop_fn old bs (in_dim <$> bs)).2.
Proof.
  intros Hk Hb. cbv zeta. rewrite (old_vmap_loop_tensors old fuel bs). cbv zeta.
  pose proof (compile_vmap_loop_fn_fails _ _ _ _ Hb) as Hf. unfold _compile_vmap_loop_fn.
  rewrite (lookup_or_build_fail _ _ _ Hk Hf).
  cbn [fst snd]. rewrite set_cache_id. split; [done|].
  by apply bind_not_Done.
Qed.

End OldValid.
(** ** The dictionaries of [control_flow.py] *)

Section OldDicts.
Context {T : Type} `{!TensorLike T} `{!PhysIter T}.

Lemma old_trace_loops_dict_spec (old : ControlFlow.TracingWhile.obj T) (n : nat) :
  size (ControlFlow.TracingWhile.trace_loops_dict old) = 9 ∧
  ControlFlow.TracingWhile.trace_loops_dict old !! n =
  match n with
  | 0 => None
  | 1 => Some {| well_typed := ControlFlow.TracingWhile.trace_loop1_typed old;
                 run := ControlFlow.TracingWhile.trace_loop1 old |}
  | 2 | 3 | 4 | 5 | 6 | 7 | 8 | 9 =>
      Some {| well_typed := ControlFlow.TracingWhile.trace_loopN_typed old n;
              run := ControlFlow.TracingWhile.trace_loopN old n |}
  | _ => None
  end.
Proof.
  unfold ControlFlow.TracingWhile.trace_loops_dict. cbv zeta.
  match goal with |- context [list_to_map [(1, ?v1); (2, ?v2); (3, ?v3); (4, ?v4); (5, ?v5);
                                           (6, ?v6); (7, ?v7); (8, ?v8); (9, ?v9)]] =>
    change (list_to_map [(1, v1); (2, v2); (3, v3); (4, v4); (5, v5);
                         (6, v6); (7, v7); (8, v8); (9, v9)])
      with (dict9 v1 v2 v3 v4 v5 v6 v7 v8 v9) end.
  rewrite dict9_size, dict9_lookup. split; [done|].
  do 10 (destruct n as [|n]; [reflexivity|]). reflexivity.
Qed.
End OldDicts.

Section CondDict.
Context {T : Type}.
Import ControlFlow.TracingCond.

Lemma cond_dict_spec (tc : obj T) (n : nat) :
  size (cond_dict tc) = 9 ∧
  cond_dict tc !! n =
  if decide (1 ≤ n ≤ 9)
  then Some {| well_typed := _condN_typed tc n; run := _condN tc n |} else None.
Proof.
  unfold cond_dict. cbv zeta.
  match goal with |- context [list_to_map [(1, ?v1); (2, ?v2); (3, ?v3); (4, ?v4); (5, ?v5);
                                           (6, ?v6); (7, ?v7); (8, ?v8); (9, ?v9)]] =>
    change (list_to_map [(1, v1); (2, v2); (3, v3); (4, v4); (5, v5);
                         (6, v6); (7, v7); (8, v8); (9, v9)])
      with (dict9 v1 v2 v3 v4 v5 v6 v7 v8 v9) end.
  rewrite dict9_size, dict9_lookup. split; [done|].
  do 10 (destruct n as [|n]; [by case_decide; try lia|]). case_decide; [lia|done].
Qed.
End CondDict.

(** *** Runs of the loop procedures record calls only *)

Section Quiet.
Context {T : Type} `{!TensorLike T} `{!PhysIter T}.

Lemma quiet_ret {A} (a : A) : quiet (ret a).
Proof. done. Qed.
Lemma quiet_raise {A} (e : exn) : quiet (@raise A e).
Proof. done. Qed.
Lemma quiet_timeout {A} : quiet (@timeout A).
Proof. done. Qed.
Lemma quiet_nil {A} (o : outcome A) : quiet (o, []).
Proof. done. Qed.

Lemma quiet_bind {A B} (m : M A) (k : A → M B) :
  quiet m → (∀ a, quiet (k a)) → quiet (bind m k).
Proof.
  unfold quiet. destruct m as [[a| |] l]; [|done..].
  rewrite bind_done. cbn [fst snd]. intros Hm Hk. rewrite builds_app, Hm. apply Hk.
Qed.

Lemma quiet_invoke {A R} who (fn : pyfn A R) args : quiet (invoke who fn args).
Proof. by destruct fn. Qed.

Lemma quiet_invoke_state {R} who (fn : option (Loop.UseStateFunc T R)) state args :
  quiet (Loop.invoke_state who fn state args).
Proof. by destruct fn. Qed.

Lemma quiet_star (x : pyval T) : quiet (star x).
Proof. destruct x as [t| | | |]; try done. cbn. by destruct (iter_tensor t). Qed.

Lemma quiet_destructure {A} n (v : pyval A) : quiet (destructure n v).
Proof. destruct v; try done. cbn. by case_decide. Qed.

Lemma quiet_batched_call {R} who (fn : pyfn T R) xs : quiet (batched_call who fn xs).
Proof. by destruct fn. Qed.

Lemma quiet_where_lanes (m : list bool) (new x : list T) : quiet (where_lanes m new x).
Proof. unfold where_lanes. by case_decide. Qed.
End Quiet.

Create HintDb quiet.
Global Hint Resolve quiet_ret quiet_raise quiet_timeout quiet_nil quiet_invoke
  quiet_invoke_state quiet_star quiet_destructure quiet_batched_call quiet_where_lanes : quiet.

(** Splits a monadic computation into its steps, each recording calls only. *)
Ltac quiet :=
  repeat first
    [ progress eauto with quiet
    | apply quiet_bind; [|intros ?]
    | case_decide
    | match goal with
      | |- quiet (if ?b then _ else _) => destruct b
      | |- quiet (let '(_, _) := ?p in _) => destruct p
      | |- quiet (match ?x with _ => _ end) => destruct x
      end ].

Section QuietLoops.
Context {T : Type} `{!TensorLike T} `{!PhysIter T}.
Import Loop.TracingWhile.




Section Vmap.
Variables (cond_fn : pyfn T bool) (body_fn : pyfn T (pyval T)).
Variable dims : list (list Z).
Let body := VmapLoopFn.vmap_body body_fn.
Let cond := VmapLoopFn._vmap_cond_fn cond_fn dims.

Lemma quiet_vmap_cond xs : quiet (VmapLoopFn._vmap_cond_fn cond_fn dims xs).
Proof. unfold VmapLoopFn._vmap_cond_fn, VmapLoopFn.vmap_cond. quiet. Qed.

Lemma quiet_vmap_body xs : quiet (VmapLoopFn.vmap_body body_fn xs).
Proof. unfold VmapLoopFn.vmap_body. quiet. Qed.

Lemma quiet_any_ c : quiet (VmapLoopFn.any_ c).
Proof. by destruct c. Qed.

Lemma quiet_any1 cs : quiet (VmapLoopFn.any1 cs).
Proof. destruct cs; [done|]. apply quiet_any_. Qed.

Lemma quiet_torch_where c new (y : list T) : quiet (VmapLoopFn.torch_where c new y).
Proof. destruct c, new; try done. apply quiet_where_lanes. Qed.

Lemma quiet_item0 {A} (v : pyval A) : quiet (VmapLoopFn.item0 v).
Proof. by destruct v as [|[|]| | |]. Qed.

Local Hint Resolve quiet_vmap_cond quiet_vmap_body quiet_any_ quiet_any1 quiet_torch_where
  quiet_item0 : quiet.

Lemma quiet_wheres cs news (xs : list (list T)) : quiet (VmapLoopFn.wheres cs news xs).
Proof.
  revert news xs. induction cs as [|c cs IH]; intros [|new news] [|y xs]; cbn; try done.
  quiet.
Qed.

Local Hint Resolve quiet_wheres : quiet.

Lemma quiet_vmap_loop1_while fuel x1 c :
  quiet (VmapLoopFn._loop1_while body cond fuel x1 c).
Proof.
  subst body cond.
  revert x1 c. induction fuel as [|fuel IH]; intros x1 c; cbn [VmapLoopFn._loop1_while];
    quiet.
Qed.

Lemma quiet_vmap_loopN_while n fuel xs c :
  quiet (VmapLoopFn._loopN_while body cond n fuel xs c).
Proof.
  subst body cond.
  revert xs c. induction fuel as [|fuel IH]; intros xs c; cbn [VmapLoopFn._loopN_while];
    quiet.
Qed.
End Vmap.


Lemma quiet_rewrap_all (r : pyval (list T)) dims : quiet (rewrap_all r dims).
Proof.
  unfold rewrap_all, ret_items. apply quiet_bind; [|done].
  destruct r as [t|l| | |]; try done.
  - by destruct (iter_phys t).
  - by destruct (mapM as_tensor l).
Qed.

End QuietLoops.

Section QuietOld.
Context {T : Type} `{!TensorLike T} `{!PhysIter T}.

Lemma quiet_old_vmap_proc (old : ControlFlow.TracingWhile.obj T) dims n fuel xs :
  quiet (old_vmap_proc old dims n fuel xs).
Proof.
  unfold old_vmap_proc.
  destruct n as [|[|n]]; unfold VmapLoopFn._loop1, VmapLoopFn._loopN; quiet;
    auto using quiet_vmap_cond, quiet_item0, quiet_vmap_loop1_while, quiet_vmap_loopN_while.
Qed.


Lemma quiet_old_vmap_run (old : ControlFlow.TracingWhile.obj T) fuel bs :
  quiet (old_vmap_run old fuel bs).
Proof.
  unfold old_vmap_run. apply quiet_bind; [apply quiet_old_vmap_proc|intros ?].
  apply quiet_bind; [apply quiet_rewrap_all|intros ?]. apply quiet_ret.
Qed.
End QuietOld.

(** ** Arguments of the batched path that are not tensors *)

Section TypeMismatch.
Context {T : Type} `{!TensorLike T} `{!PhysIter T}.

Lemma unwrap_args_not_tensor (pre : list (BatchedTensor T)) arg post :
  is_tensor arg = false →
  unwrap_args ((VTensor <$> pre) ++ arg :: post) = raise (AssertionError (tensor_msg arg)).
Proof.
  intros Harg. induction pre as [|b pre IH].
  - cbn [fmap list_fmap app unwrap_args]. by rewrite Harg.
  - cbn [fmap list_fmap app unwrap_args is_tensor unwrap_batch_tensor].
    cbn [fmap list_fmap] in IH. rewrite IH. by msimpl.
Qed.

(** C9, as amended.  If an operand passed to [vmap_loop] is not a tensor,
    the call fails at once with the assertion error whose message names the
    type of the first such operand (its position is not reported); the
    tracer is unchanged, so nothing is cached, and the log is empty, so
    nothing is built and no user function is invoked.  Both files. *)
Theorem C9_non_tensor_operand (self : Loop.TracingWhile.obj T)
    (old : ControlFlow.TracingWhile.obj T) (fuel : nat)
    (pre : list (BatchedTensor T)) (arg : pyval (BatchedTensor T))
    (post : list (pyval (BatchedTensor T))) :
  is_tensor arg = false →
  let error := AssertionError
    ("Expect all arguments in `vmap` to be `torch.Tensor`, got " +:+ type_repr arg) in
  Loop.TracingWhile.vmap_loop self fuel ((VTensor <$> pre) ++ arg :: post)
  = (self, (Raise error, [])) ∧
  ControlFlow.TracingWhile.vmap_loop old fuel ((VTensor <$> pre) ++ arg :: post)
  = (old, (Raise error, [])).
Proof.
  intros Harg error. unfold Loop.TracingWhile.vmap_loop, ControlFlow.TracingWhile.vmap_loop.
  by rewrite (unwrap_args_not_tensor pre arg post Harg).
Qed.
End TypeMismatch.

(** C9, witness: an [int] passed as second operand. *)
Lemma C9_non_tensor_operand_witness :
  Loop.TracingWhile.vmap_loop Examples.while1 0
    [VTensor (Examples.batched [0; 5; 9]%Z); VOther "int"]
  = (Examples.while1,
     (Raise (AssertionError
        "Expect all arguments in `vmap` to be `torch.Tensor`, got <class 'int'>"), [])).
Proof.
  exact (proj1 (C9_non_tensor_operand Examples.while1 Examples.old_while1 0
                  [Examples.batched [0; 5; 9]%Z] (VOther "int") [] eq_refl)).
Defined.

(** C9, counterexample: an [int] passed first and an [int] passed second
    raise the same exception, so that no reading of the exception gives the
    position of the offending argument. *)
Lemma C9_position_not_identified :
  ¬ identifies_position (λ fuel x, (Loop.TracingWhile.vmap_loop Examples.while1 fuel x).2).
Proof.
  intros [position_of Hpos].
  destruct (Hpos 0 [] (VOther "int") [VTensor (Examples.batched [0]%Z)] eq_refl)
    as (e0 & log0 & Hcall0 & Hpos0).
  destruct (Hpos 0 [Examples.batched [0]%Z] (VOther "int") [] eq_refl)
    as (e1 & log1 & Hcall1 & Hpos1).
  vm_compute in Hcall0, Hcall1.
  injection Hcall0 as <- _. injection Hcall1 as <- _.
  cbn in Hpos0, Hpos1. congruence.
Qed.
(** ** Fresh tracers satisfy the cache invariants *)

Section Fresh.
Context {T : Type} `{!TensorLike T} `{!PhysIter T}.
Import Loop.TracingWhile.

Lemma loop_cache_ok_empty (self : obj T) : _cache_compiled_loop self = ∅ → loop_cache_ok self.
Proof. intros He key c. by rewrite He, lookup_empty. Qed.

Lemma vmap_cache_ok_empty (self : obj T) :
  _cache_compiled_vmap_loop self = ∅ → vmap_cache_ok self.
Proof. intros He key c. by rewrite He, lookup_empty. Qed.
End Fresh.


(** ** The instance cache *)

Section InstanceCache.
Context {T : Type} `{!TensorLike T} `{!PhysIter T}.
Import Loop.TracingWhile.

Lemma world_ok_empty : world_ok (empty_world T).
Proof. intros key obj. cbn. by rewrite lookup_empty. Qed.

(** A construction returns an instance registered under the identity of the
    function pair: the cached one, the world being left as it is, or a fresh
    one. *)
Lemma construct_spec (w : world T) cond_fn body_fn stateful :
  world_ok w →
  ∃ w1 obj inst,
    construct w cond_fn body_fn stateful = ret (w1, obj) ∧
    world_ok w1 ∧
    _while_object_cache w1 !! identity cond_fn body_fn = Some obj ∧
    heap w1 !! obj = Some inst ∧ __cache_key__ inst = identity cond_fn body_fn ∧
    match _while_object_cache w !! identity cond_fn body_fn with
    | Some cached => w1 = w ∧ obj = cached
    | None => heap w !! obj = None
    end.
Proof.
  intros Hok. unfold construct, __new__, _get_cache_key_object.
  fold (identity cond_fn body_fn). set (key := identity cond_fn body_fn).
  destruct (_while_object_cache w !! key) as [cached|] eqn:Hk.
  - destruct (Hok _ _ Hk) as (inst & Hh & Hi).
    exists w, cached, inst. unfold __init__. rewrite Hh, Hi.
    rewrite decide_True by (by rewrite Hk). msimpl. done.
  - set (obj := fresh (dom (heap w))).
    assert (heap w !! obj = None) as Hfresh.
    { apply not_elem_of_dom. apply is_fresh. }
    unfold __init__. cbn [heap _while_object_cache]. rewrite lookup_insert_eq.
    cbn [__cache_key__]. rewrite decide_False by (rewrite Hk; by intros [? ?]).
    msimpl. eexists _, obj, _. split; [reflexivity|].
    cbn [heap _while_object_cache]. rewrite !lookup_insert_eq.
    split; [|done].
    intros key' obj'. cbn [heap _while_object_cache].
    destruct (decide (key = key')) as [<-|Hne].
    + rewrite lookup_insert_eq. intros [= <-]. rewrite lookup_insert_eq. eauto.
    + rewrite lookup_insert_ne by done. intros Hk'.
      destruct (Hok _ _ Hk') as (inst & Hh & Hi).
      exists inst. split; [|done].
      rewrite !lookup_insert_ne; [done|congruence..].
Qed.

(** C7.  Two constructions with the same identity of the (condition, body)
    pair return the same tracer instance, and the second one leaves the
    whole world, hence the attributes of that instance, as it was, whatever
    stateful flag and functions it was given; two constructions with
    different identities return distinct instances.  The first instance is
    alive at the second construction, its caller holding it. *)
Theorem C7_identity_dedup (w : world T) cond_fn1 body_fn1 stateful1 cond_fn2 body_fn2 stateful2 :
  world_ok w →
  ∃ w1 obj1 w2 obj2,
    construct w cond_fn1 body_fn1 stateful1 = ret (w1, obj1) ∧
    construct w1 cond_fn2 body_fn2 stateful2 = ret (w2, obj2) ∧
    (identity cond_fn2 body_fn2 = identity cond_fn1 body_fn1 → obj2 = obj1 ∧ w2 = w1) ∧
    (identity cond_fn2 body_fn2 ≠ identity cond_fn1 body_fn1 → obj2 ≠ obj1).
Proof.
  intros Hok.
  destruct (construct_spec w cond_fn1 body_fn1 stateful1 Hok)
    as (w1 & obj1 & inst1 & Hc1 & Hok1 & Hk1 & Hh1 & Hi1 & _).
  destruct (construct_spec w1 cond_fn2 body_fn2 stateful2 Hok1)
    as (w2 & obj2 & inst2 & Hc2 & Hok2 & Hk2 & Hh2 & Hi2 & Hcase).
  exists w1, obj1, w2, obj2. split; [done|]. split; [done|]. split.
  - intros Hid. rewrite Hid, Hk1 in Hcase. by destruct Hcase.
  - intros Hid ->.
    destruct (_while_object_cache w1 !! identity cond_fn2 body_fn2) as [cached|] eqn:Hk.
    + destruct Hcase as [-> ->].
      destruct (Hok1 _ _ Hk) as (inst & Hh & Hi). congruence.
    + congruence.
Qed.
End InstanceCache.

(** C7, witness: two constructions over the functions of the examples, the
    second with another stateful flag, starting from the empty world. *)
Lemma C7_identity_dedup_witness :
  ∃ w1 obj1 w2 obj2,
    Loop.TracingWhile.construct (Loop.TracingWhile.empty_world Z)
      (Some (Examples.fn 1 Examples.lt10)) (Some (Examples.fn 2 Examples.succ)) None
    = ret (w1, obj1) ∧
    Loop.TracingWhile.construct w1
      (Some (Examples.fn 1 Examples.lt10)) (Some (Examples.fn 2 Examples.succ)) (Some true)
    = ret (w2, obj2) ∧
    obj2 = obj1 ∧ w2 = w1.
Proof.
  destruct (C7_identity_dedup (Loop.TracingWhile.empty_world Z)
              (Some (Examples.fn 1 Examples.lt10)) (Some (Examples.fn 2 Examples.succ)) None
              (Some (Examples.fn 1 Examples.lt10)) (Some (Examples.fn 2 Examples.succ))
              (Some true) world_ok_empty)
    as (w1 & obj1 & w2 & obj2 & H1 & H2 & Hsame & _).
  exists w1, obj1, w2, obj2. split; [exact H1|]. split; [exact H2|]. exact (Hsame eq_refl).
Defined.

(** ** The batched branch *)

Section BatchedCond.
Context {T : Type}.
Import ControlFlow.TracingCond.

Lemma where_lanes_Done (m : list bool) (t f r : list T) log :
  where_lanes m t f = (Done r, log) →
  log = [] ∧ length r = length m ∧
  ∀ (j : nat) (c : bool), m !! j = Some c → r !! j = if c then t !! j else f !! j.
Proof.
  unfold where_lanes. case_decide as Hl; [|done]. intros [= <- <-].
  destruct Hl as [Hm Ht]. split; [done|]. split.
  - rewrite length_zip_with, length_zip. lia.
  - intros j c Hj. rewrite lookup_zip_with, Hj. cbn.
    destruct (lookup_lt_is_Some_2 t j) as [tj Htj];
      [apply lookup_lt_Some in Hj; lia|].
    destruct (lookup_lt_is_Some_2 f j) as [fj Hfj];
      [apply lookup_lt_Some in Hj; lia|].
    rewrite (proj2 (lookup_zip_with_Some pair t f j (tj, fj))) by eauto.
    cbn. rewrite Htj, Hfj. by destruct c.
Qed.

Lemma select_log (cond : list bool) (true_res false_res : list (list T)) :
  (select cond true_res false_res).2 = [].
Proof.
  revert false_res. induction true_res as [|t ts IH]; intros [|f fs]; try done.
  cbn [select]. unfold where_lanes. case_decide; [|done].
  rewrite bind_ret_l. specialize (IH fs).
  destruct (select cond ts fs) as [[res| |] l]; cbn in IH; by subst.
Qed.

Lemma select_Done (cond : list bool) (true_res false_res res : list (list T)) log :
  select cond true_res false_res = (Done res, log) →
  length res = length true_res `min` length false_res ∧
  ∀ (i : nat) (r : list T), res !! i = Some r →
    ∃ t f, true_res !! i = Some t ∧ false_res !! i = Some f ∧
           length r = length cond ∧
           ∀ (j : nat) (c : bool), cond !! j = Some c → r !! j = if c then t !! j else f !! j.
Proof.
  revert false_res res log.
  induction true_res as [|t ts IH]; intros [|f fs] res log; cbn [select];
    try (intros [= <- <-]; split; [done|]; by intros i r; rewrite lookup_nil).
  intros Hsel. apply bind_Done_inv in Hsel as (r0 & l1 & l2 & Hw & Hrest & ->).
  apply bind_Done_inv in Hrest as (rest & l3 & l4 & Hs & Hret & ->).
  injection Hret as <- <-.
  destruct (where_lanes_Done _ _ _ _ _ Hw) as (_ & Hlen & Hlanes).
  destruct (IH _ _ _ Hs) as [Hl Hall]. split; [cbn; lia|].
  intros [|i] r; cbn.
  - intros [= <-]. eauto 10.
  - apply Hall.
Qed.

Lemma batched_branch_Done who (fn : pyfn T (list T)) (x res : list (list T)) log :
  batched_branch who fn x = (Done res, log) → log = [Call who].
Proof.
  unfold batched_branch, batched_call. destruct fn as [f|]; [|done].
  intros Hb. apply bind_Done_inv in Hb as (rs & l1 & l2 & [= _ <-] & Hst & ->).
  destruct rs; [by injection Hst as <- <-|]. by injection Hst as _ <-.
Qed.
End BatchedCond.

(** ** The direct executor *)

Section DirectLoop.
Context {T : Type} `{!TensorLike T} `{!PhysIter T}.



Lemma invoke_Done_inv {A R} who (fn : pyfn A R) args r log :
  invoke who fn args = (Done r, log) → ∃ f, fn = Some f ∧ f args = Done r.
Proof. destruct fn as [f|]; [|done]. intros [= Hf _]. by exists f. Qed.

Section Runs.
Variable cond_fn : pyfn T bool.
Variable body_fn : pyfn T (pyval T).




Lemma while_runs fuel x y log :
  while_ cond_fn body_fn fuel x = (Done y, log)
  ↔ ∃ k, k ≤ fuel ∧ runs cond_fn body_fn x k y log.
Proof.
  split.
  - revert x log. induction fuel as [|fuel IH]; intros x log; cbn [while_]; intros H;
      apply bind_Done_inv in H as (c & l1 & l2 & Hc & H & ->); destruct c.
    + done.
    + injection H as <- <-. exists 0. split; [done|]. rewrite app_nil_r. by constructor.
    + apply bind_Done_inv in H as (x' & l3 & l4 & Hb & H & ->).
      destruct (IH _ _ H) as (k & Hk & Hr).
      exists (S k). split; [lia|]. by econstructor.
    + injection H as <- <-. exists 0. split; [lia|]. rewrite app_nil_r. by constructor.
  - intros (k & Hk & Hr). revert fuel Hk.
    induction Hr as [x log Hc|x x' y k l1 l2 l3 Hc Hb _ IH]; intros fuel Hk.
    + destruct fuel; cbn [while_]; by rewrite Hc, bind_done, app_nil_r.
    + destruct fuel as [|fuel]; [lia|]. cbn [while_].
      rewrite Hc, bind_done. cbn [fst snd]. rewrite Hb, bind_done. cbn [fst snd].
      by rewrite (IH fuel) by lia.
Qed.
End Runs.

Lemma old_loop_while (old : ControlFlow.TracingWhile.obj T) fuel x :
  ControlFlow.TracingWhile.loop_while old fuel x
  = while_ (ControlFlow.TracingWhile.cond old) (ControlFlow.TracingWhile.body old) fuel x.
Proof.
  revert x. induction fuel as [|fuel IH]; intros x; cbn [ControlFlow.TracingWhile.loop_while while_];
    apply bind_ext; intros [|]; try done.
  apply bind_ext. intros x'. apply IH.
Qed.

Lemma new_loop_while (self : Loop.TracingWhile.obj T) fuel x :
  Loop.TracingWhile.loop_while self fuel x
  = while_ (Loop.callable (Loop.TracingWhile.cond_fn self))
      (Loop.callable (Loop.TracingWhile.body_fn self)) fuel x.
Proof.
  revert x. induction fuel as [|fuel IH]; intros x; cbn [Loop.TracingWhile.loop_while while_];
    apply bind_ext; intros [|]; try done.
  apply bind_ext. intros x'. apply IH.
Qed.

Lemma new_loop (self : Loop.TracingWhile.obj T) fuel x :
  Loop.TracingWhile.loop self fuel x = Loop.TracingWhile.loop_while self fuel (VTuple x).
Proof. unfold Loop.TracingWhile.loop. by case_bool_decide. Qed.

End DirectLoop.

(** ** Equivalence of the execution paths *)

Section TraceEquivalence.
Context {T : Type} `{!TensorLike T} `{!PhysIter T}.

(** The closure of [loop.py] for [n >= 2] operands is the direct loop, for
    any pair of functions. *)
Lemma loopN_while_direct (cf : pyfn T bool) (bf : pyfn T (pyval T)) fuel x :
  while_ cf bf fuel x =
  let* cond := eval_cond cf x in
  Loop.TracingWhile.loopN_while cf bf fuel x cond.
Proof.
  revert x. induction fuel as [|fuel IH]; intros x;
    cbn [while_ Loop.TracingWhile.loopN_while];
    apply bind_ext; intros [|]; try done.
  apply bind_ext. intros x'. apply IH.
Qed.

Lemma loopN_direct (self : Loop.TracingWhile.obj T) n fuel args :
  length args = n →
  Loop.TracingWhile.loopN (Loop.callable (Loop.TracingWhile.cond_fn self))
    (Loop.callable (Loop.TracingWhile.body_fn self)) n fuel args
  = Loop.TracingWhile.loop self fuel args.
Proof.
  intros Hn. unfold Loop.TracingWhile.loopN. rewrite decide_True by done.
  rewrite new_loop, new_loop_while. by rewrite loopN_while_direct.
Qed.

Lemma pure_proc_direct (self : Loop.TracingWhile.obj T) fuel args :
  2 ≤ length args →
  pure_proc self (length args) fuel args = Loop.TracingWhile.loop self fuel args.
Proof.
  intros Hn. unfold pure_proc. destruct (length args) as [|[|n]] eqn:Hl; [lia..|].
  by apply loopN_direct.
Qed.

(** Functions that are pure and total on [n >= 2] tensors can be built. *)
Lemma computes_pure_buildable (self : Loop.TracingWhile.obj T) (ts : list T)
    (fc : list (pyval T) → outcome bool) (fb : list (pyval T) → outcome (pyval T))
    (c : list T → bool) (b : list T → list T) :
  Loop.callable (Loop.TracingWhile.cond_fn self) = Some fc →
  Loop.callable (Loop.TracingWhile.body_fn self) = Some fb →
  2 ≤ length ts ≤ 9 → computes (length ts) fc fb c b →
  pure_buildable self (VTensor <$> ts).
Proof.
  intros Hcf Hbf Hn (Hc & Hb & Hbn). unfold pure_buildable, traces_as.
  rewrite length_fmap, Hcf, Hbf. split; [lia|]. cbn [trace_run pyfn_traceable].
  rewrite (Hc ts eq_refl), (Hb ts eq_refl). split; [by eexists|].
  cbn [typed_outcome]. f_equal. unfold static_type, pyval_typed.
  rewrite type_of_tensors, (Hbn ts eq_refl).
  unfold operands_type. by destruct (length ts) as [|[|n]]; [lia..|].
Qed.

(** With 2 to 9 tensors on which the build succeeds, [trace_loop] is the
    direct loop after the cache lookup. *)
Lemma trace_loop_direct (self : Loop.TracingWhile.obj T) (fuel : nat) (ts : list T) :
  loop_cache_ok self → Loop.TracingWhile.stateful_functions self = false →
  2 ≤ length ts → pure_buildable self (VTensor <$> ts) →
  (Loop.TracingWhile.trace_loop self fuel (VTensor <$> ts)).2 =
  let* _ := (Done tt, lookup_log (Loop.TracingWhile._cache_compiled_loop self)
                        (loop_key_of ts) CompileLoopFn) in
  Loop.TracingWhile.loop self fuel (VTensor <$> ts).
Proof.
  intros Hok Hs Hn Hb. rewrite (trace_loop_pure_valid self fuel ts Hok Hs Hb). cbn [snd].
  apply bind_done_congr. rewrite <- (length_fmap VTensor ts).
  apply pure_proc_direct. by rewrite length_fmap.
Qed.

(** The closure of [control_flow.py] for [n >= 2] operands is the direct
    loop when the body returns [n] values. *)
Lemma old_trace_loopN_while_direct (old : ControlFlow.TracingWhile.obj T) n fuel xs :
  returns_tuples n (ControlFlow.TracingWhile.body old) →
  ControlFlow.TracingWhile.loop_while old fuel (VTuple xs) =
  let* xs := ControlFlow.TracingWhile.trace_loopN_while old n fuel xs in
  ret (VTuple xs).
Proof.
  intros Hbody. revert xs. induction fuel as [|fuel IH]; intros xs;
    cbn [ControlFlow.TracingWhile.loop_while ControlFlow.TracingWhile.trace_loopN_while star];
    rewrite (bind_ret_l xs (invoke CondFn _));
    rewrite (bind_assoc (invoke CondFn (ControlFlow.TracingWhile.cond old) xs));
    apply bind_ext; intros [|]; try done; try (by rewrite bind_ret_l).
  rewrite (bind_ret_l xs (invoke BodyFn _)), !bind_assoc.
  destruct (ControlFlow.TracingWhile.body old) as [f|] eqn:Hf; [|done].
  cbn [invoke]. destruct (f xs) as [r| |] eqn:Hr; [|done..].
  destruct (Hbody f xs r eq_refl Hr) as (l & -> & Hl).
  rewrite !bind_done. cbn [fst snd]. unfold unpack_n. cbn [star].
  rewrite bind_ret_l, decide_True by done. rewrite bind_ret_l.
  by rewrite (IH l).
Qed.

Lemma old_trace_loop_select (old : ControlFlow.TracingWhile.obj T) fuel x :
  2 ≤ length x ≤ 9 →
  ControlFlow.TracingWhile.trace_loop old fuel x =
  let* _ := tell (Compile CompileLoopFn) in
  let* compiled_loop :=
    torch_jit_script
      {| well_typed := ControlFlow.TracingWhile.trace_loopN_typed old (length x);
         run := ControlFlow.TracingWhile.trace_loopN old (length x) |} in
  compiled_loop fuel x.
Proof.
  intros Hn. unfold ControlFlow.TracingWhile.trace_loop. cbv zeta.
  destruct (old_trace_loops_dict_spec old (length x)) as [-> ->].
  rewrite decide_True by lia.
  destruct (length x) as [|[|m]]; [lia..|].
  do 8 (destruct m as [|m]; [done|]). lia.
Qed.

Lemma old_trace_loop_direct (old : ControlFlow.TracingWhile.obj T) fuel x :
  2 ≤ length x ≤ 9 →
  ControlFlow.TracingWhile.trace_loopN_typed old (length x) = true →
  returns_tuples (length x) (ControlFlow.TracingWhile.body old) →
  ControlFlow.TracingWhile.trace_loop old fuel x =
  let* _ := tell (Compile CompileLoopFn) in ControlFlow.TracingWhile.loop old fuel x.
Proof.
  intros Hn Hty Hbody. rewrite old_trace_loop_select by done.
  apply bind_ext. intros _.
  unfold torch_jit_script. cbn [well_typed run]. rewrite Hty, bind_ret_l.
  unfold ControlFlow.TracingWhile.trace_loopN, ControlFlow.TracingWhile.loop.
  rewrite decide_True by done. by rewrite (old_trace_loopN_while_direct old (length x)).
Qed.

(** A closure that does not type-check is rejected when [trace_loop] of
    [control_flow.py] builds it. *)
Lemma old_trace_loop_rejected (old : ControlFlow.TracingWhile.obj T) fuel x :
  2 ≤ length x ≤ 9 →
  ControlFlow.TracingWhile.trace_loopN_typed old (length x) = false →
  ControlFlow.TracingWhile.trace_loop old fuel x
  = (Raise RuntimeError, [Compile CompileLoopFn]).
Proof.
  intros Hn Hty. rewrite old_trace_loop_select by done.
  unfold torch_jit_script. cbn [well_typed run]. by rewrite Hty.
Qed.


Lemma trace_cond_rejected (tc : ControlFlow.TracingCond.obj T) (c : bool) x :
  1 ≤ length x ≤ 9 →
  ControlFlow.TracingCond._condN_typed tc (length x) = false →
  ControlFlow.TracingCond.trace_cond tc c x = raise RuntimeError.
Proof.
  intros Hn Hty. unfold ControlFlow.TracingCond.trace_cond. cbv zeta.
  destruct (cond_dict_spec tc (length x)) as [-> ->].
  rewrite decide_True by lia. rewrite decide_True by done.
  unfold torch_jit_script. cbn [well_typed run]. by rewrite Hty.
Qed.
End TraceEquivalence.

(** ** Batches of a single lane *)

Section SingleLane.
Context {T : Type}.




(** Stacking the outputs of the only lane gives one-lane tensors. *)
Lemma lanes_singleton (l : list T) :
  (λ i, lane i [l]) <$> seq 0 (length l) = single l.
Proof.
  unfold single. apply list_eq. intros i. rewrite !list_lookup_fmap.
  destruct (decide (i < length l)) as [Hi|Hi].
  - rewrite lookup_seq_lt by done. cbn. unfold lane. cbn.
    destruct (lookup_lt_is_Some_2 l i Hi) as [t Ht]. by rewrite Ht.
  - rewrite lookup_seq_ge by lia. cbn. by rewrite lookup_ge_None_2 by lia.
Qed.

Lemma stack_lists_single (l : list T) : stack_lists (length l) [l] = Done (single l).
Proof.
  unfold stack_lists. rewrite decide_True by (by repeat constructor).
  by rewrite lanes_singleton.
Qed.

Lemma mapM_as_tensor_tensors {A} (ts : list A) : mapM as_tensor (VTensor <$> ts) = Some ts.
Proof. induction ts as [|t ts IH]; [done|]. cbn. by rewrite IH. Qed.

Lemma stack_single (ts : list T) :
  stack [VTuple (VTensor <$> ts)] = Done (VTuple (VTensor <$> single ts)).
Proof.
  cbn [stack mapM as_tensors]. rewrite mapM_as_tensor_tensors. cbn.
  rewrite length_fmap, stack_lists_single. done.
Qed.

End SingleLane.

(** ** The conditional on a batch of one lane *)


Section SingleLaneCond.
Context {T : Type}.
Import ControlFlow.TracingCond.



End SingleLaneCond.

(** ** Operands and lanes *)

Section Transpose.
Context {T : Type}.
Implicit Types xs ls : list (list T).

Lemma lane_cons (i : nat) (x : list T) xs :
  lane i (x :: xs) = match x !! i with Some t => t :: lane i xs | None => lane i xs end.
Proof. reflexivity. Qed.

Lemma lane_ge q i xs : Forall (λ x : list T, length x = q) xs → q ≤ i → lane i xs = [].
Proof.
  intros Hxs Hi. induction Hxs as [|x xs Hx _ IH]; [done|].
  rewrite lane_cons, lookup_ge_None_2 by lia. done.
Qed.

Lemma length_lane q i xs :
  Forall (λ x : list T, length x = q) xs → i < q → length (lane i xs) = length xs.
Proof.
  intros Hxs Hi. induction Hxs as [|x xs Hx _ IH]; [done|].
  rewrite lane_cons. destruct (lookup_lt_is_Some_2 x i) as [t ->]; [lia|].
  cbn. by rewrite IH.
Qed.

Lemma lane_lookup q i j xs :
  Forall (λ x : list T, length x = q) xs → lane i xs !! j = xs !! j ≫= (λ x, x !! i).
Proof.
  intros Hxs. destruct (decide (i < q)) as [Hi|Hi].
  - revert j. induction Hxs as [|x xs Hx _ IH]; intros j; [done|].
    rewrite lane_cons. destruct (lookup_lt_is_Some_2 x i) as [t Ht]; [lia|].
    rewrite Ht. destruct j as [|j]; [done|]. apply IH.
  - rewrite (lane_ge q) by (done || lia). rewrite lookup_nil.
    destruct (xs !! j) as [x|] eqn:Hx; [|done]. cbn.
    symmetry. apply lookup_ge_None_2.
    rewrite Forall_forall in Hxs. rewrite (Hxs x) by (by eapply list_elem_of_lookup_2). lia.
Qed.

Lemma transpose_lookup m xs i :
  transpose m xs !! i = if decide (i < m) then Some (lane i xs) else None.
Proof.
  unfold transpose. rewrite list_lookup_fmap. case_decide.
  - by rewrite lookup_seq_lt.
  - by rewrite lookup_seq_ge by lia.
Qed.

Lemma transpose_rect p q xs : rect p q xs → rect q p (transpose q xs).
Proof.
  intros [Hl Hxs]. split.
  - unfold transpose. by rewrite length_fmap, length_seq.
  - unfold transpose. apply Forall_fmap, Forall_forall. intros i Hi%elem_of_seq.
    cbn. rewrite (length_lane q) by (done || lia). done.
Qed.

Lemma lane_transpose p q xs j (x : list T) :
  rect p q xs → xs !! j = Some x → lane j (transpose q xs) = x.
Proof.
  intros Hr Hx. destruct (transpose_rect p q xs Hr) as [_ Ht]. destruct Hr as [Hl Hxs].
  apply list_eq. intros i. rewrite (lane_lookup p) by done.
  rewrite transpose_lookup. case_decide as Hi.
  - cbn. rewrite (lane_lookup q) by done. by rewrite Hx.
  - cbn. symmetry. apply lookup_ge_None_2.
    rewrite Forall_forall in Hxs. rewrite (Hxs x) by (by eapply list_elem_of_lookup_2). lia.
Qed.

Lemma transpose_transpose p q xs : rect p q xs → transpose p (transpose q xs) = xs.
Proof.
  intros Hr. apply list_eq. intros j. rewrite transpose_lookup. case_decide as Hj.
  - destruct (lookup_lt_is_Some_2 xs j) as [x Hx]; [destruct Hr; lia|].
    by rewrite Hx, (lane_transpose p q xs j x).
  - symmetry. apply lookup_ge_None_2. destruct Hr. lia.
Qed.

(** The lanes of [n >= 1] operands given lane by lane. *)
Lemma batch_size_transpose p q ls : rect p q ls → 1 ≤ q → batch_size (transpose q ls) = p.
Proof.
  intros [Hl Hls] Hq. unfold transpose. destruct q as [|q]; [lia|]. cbn.
  rewrite (length_lane (S q)) by (done || lia). done.
Qed.

Lemma lanes_of_transpose p q ls : rect p q ls → 1 ≤ q → lanes_of (transpose q ls) = Done ls.
Proof.
  intros Hr Hq. unfold lanes_of. rewrite (batch_size_transpose p q) by done.
  destruct (transpose_rect p q ls Hr) as [_ Ht]. rewrite decide_True by done.
  change ((λ j, lane j (transpose q ls)) <$> seq 0 p) with (transpose p (transpose q ls)).
  by rewrite (transpose_transpose p q).
Qed.

Lemma stack_lists_transpose p q ls : rect p q ls → stack_lists q ls = Done (transpose q ls).
Proof. intros [_ Hls]. unfold stack_lists. by rewrite decide_True. Qed.

End Transpose.

(** ** The batched loop, lane by lane *)

Section LanesLoop.
Context {T : Type} `{!TensorLike T}.
Variable fc : list (pyval T) → outcome bool.
Variable fb : list (pyval T) → outcome (pyval T).
Variable c : list T → bool.
Variable b : list T → list T.
Variable vmap_dims : list (list Z).
Variable n : nat.
Hypothesis Hn : 1 ≤ n.
Hypothesis Hdims : length vmap_dims = n.
(** On [n] tensors the condition returns [c] and the body the [n] tensors
    [b]. *)
Hypothesis Hc : ∀ ts, length ts = n → fc (VTensor <$> ts) = Done (c ts).
Hypothesis Hb : ∀ ts, length ts = n → fb (VTensor <$> ts) = Done (VTuple (VTensor <$> b ts)).
Hypothesis Hbn : ∀ ts, length ts = n → length (b ts) = n.

Lemma sequence_fmap_Done {A R} (f : A → outcome R) (g : A → R) (l : list A) :
  Forall (λ a, f a = Done (g a)) l → sequence (f <$> l) = Done (g <$> l).
Proof. induction 1 as [|a l Ha _ IH]; [done|]. cbn. by rewrite Ha, IH. Qed.










(** *** Every lane runs as it does alone *)




Lemma tell_fst {A} (ev : event) (m : outcome A * list event) :
  (let* _ := tell ev in m).1 = m.1.
Proof. reflexivity. Qed.





(** The direct executor on one lane. *)
Lemma while_lane fuel l :
  length l = n →
  (while_ (Some fc) (Some fb) fuel (VTuple (VTensor <$> l))).1 =
  match lane_while c b fuel l with
  | Some y => Done (VTuple (VTensor <$> y))
  | None => Timeout
  end.
Proof.
  revert l. induction fuel as [|fuel IH]; intros l Hl; cbn [while_ lane_while];
    unfold eval_cond; cbn [star]; rewrite (bind_ret_l (VTensor <$> l)); unfold invoke;
    rewrite (Hc l Hl), bind_done; destruct (c l) eqn:Hcl; try done.
  cbn [fst]. unfold eval_body. cbn [star]. rewrite (bind_ret_l (VTensor <$> l)).
  unfold invoke. rewrite (Hb l Hl), bind_done. cbn [fst]. apply IH. by apply Hbn.
Qed.




End LanesLoop.
(** ** [vmap_loop] on a batch of lanes *)

Section VmapLoopLanes.
Context {T : Type} `{!TensorLike T} `{!PhysIter T}.


Lemma bind_fst_tt {B} (l : list event) (m : outcome B * list event) :
  (let* _ := (Done tt, l) in m).1 = m.1.
Proof. by rewrite bind_done. Qed.


Section Lanes.
Variable fuel : nat.
Variable bs : list (BatchedTensor T).
Variable B : nat.
Variable fc : list (pyval T) → outcome bool.
Variable fb : list (pyval T) → outcome (pyval T).
Variable c : list T → bool.
Variable b : list T → list T.
Hypothesis Hn : 2 ≤ length bs ≤ 9.
Hypothesis Hcomputes : computes (length bs) fc fb c b.
Hypothesis HB : Forall (λ x : BatchedTensor T, length (lanes x) = B) bs.
Hypothesis HB1 : 1 ≤ B.




End Lanes.
End VmapLoopLanes.

(** ** The batched branch returns *)

Section BatchedCondReturns.
Context {T : Type}.
Import ControlFlow.TracingCond.

Lemma select_returns (cond : list bool) (true_res false_res : list (list T)) B :
  length cond = B →
  Forall (λ t : list T, length t = B) true_res →
  Forall (λ f : list T, length f = B) false_res →
  ∃ res, select cond true_res false_res = (Done res, []).
Proof.
  intros Hc Ht. revert false_res. induction Ht as [|t ts Hlt _ IH]; intros fs Hf.
  - by exists [].
  - destruct Hf as [|f fs Hlf Hfs]; [by exists []|].
    destruct (IH fs Hfs) as (res & Hres). cbn [select]. unfold where_lanes.
    rewrite decide_True by lia. rewrite bind_ret_l, Hres. by eexists.
Qed.

(** A branch function that is pure and total on [n] tensors, returning [m]
    outputs, returns under the batch map [m] batched outputs. *)
Lemma batched_branch_returns who (f : list (pyval T) → outcome (list T)) (g : list T → list T)
    (x : list (list T)) (n B m : nat) :
  1 ≤ n → rect n B x →
  (∀ l, length l = n → f (VTensor <$> l) = Done (g l) ∧ length (g l) = m) →
  ∃ res, batched_branch who (Some f) x = (Done res, [Call who]) ∧
         Forall (λ t : list T, length t = B) res.
Proof.
  intros Hn Hr Hf. pose proof (transpose_rect n B x Hr) as Hrl.
  unfold batched_branch, batched_call.
  rewrite <- (transpose_transpose n B x Hr), (lanes_of_transpose B n _ Hrl Hn).
  set (ls := transpose B x) in *.
  rewrite (sequence_fmap_Done _ g).
  2:{ destruct Hrl as [_ Hls]. eapply Forall_impl; [exact Hls|]. intros l Hl. by apply Hf. }
  rewrite bind_done.
  assert (rect B m (g <$> ls)) as Hrg.
  { destruct Hrl as [Hl Hls]. split; [by rewrite length_fmap|].
    apply Forall_fmap. eapply Forall_impl; [exact Hls|]. intros l Hll. by apply Hf. }
  destruct (g <$> ls) as [|r rs] eqn:Hg.
  - exists []. by split.
  - assert (length r = m) as -> by (destruct Hrg as [_ Hall]; by inversion Hall).
    rewrite (stack_lists_transpose B m _ Hrg). cbn [fst snd]. eexists. split; [done|].
    by destruct (transpose_rect B m _ Hrg).
Qed.

(** C4.  The batched [cond] over branch functions that are pure and total
    on the operands of a lane returns, on operands of [B] lanes and a
    predicate of [B] lanes, after one invocation of each branch function.
    Whenever a call returns, it has invoked each branch function exactly
    once, and its log does not depend on the predicate; every element of the
    result list is, lane by lane, the output of the true branch where the
    predicate holds and that of the false branch elsewhere. *)
Theorem C4_batched_cond_selects (self : obj T) (cond : list bool) (x res : list (list T))
    (log : list event) (tf ff : list (pyval T) → outcome (list T)) (tb fb : list T → list T)
    (n B mt mf : nat) :
  (_true_fn self = Some tf → _false_fn self = Some ff →
   1 ≤ n → rect n B x → length cond = B →
   (∀ l, length l = n → tf (VTensor <$> l) = Done (tb l) ∧ length (tb l) = mt) →
   (∀ l, length l = n → ff (VTensor <$> l) = Done (fb l) ∧ length (fb l) = mf) →
   ∃ res', vmap_cond self cond x = (Done res', [Call TrueFn; Call FalseFn])) ∧
  (vmap_cond self cond x = (Done res, log) →
   calls TrueFn log = 1 ∧ calls FalseFn log = 1 ∧
   (∀ cond', (vmap_cond self cond' x).2 = log) ∧
   ∃ true_res false_res,
     (batched_branch TrueFn (_true_fn self) x).1 = Done true_res ∧
     (batched_branch FalseFn (_false_fn self) x).1 = Done false_res ∧
     length res = length true_res `min` length false_res ∧
     ∀ (i : nat) (r : list T), res !! i = Some r →
       ∃ t f, true_res !! i = Some t ∧ false_res !! i = Some f ∧
              length r = length cond ∧
              ∀ (j : nat) (c : bool), cond !! j = Some c →
                r !! j = if c then t !! j else f !! j).
Proof.
  split.
  - intros Ht Hf Hn Hr Hc Htb Hfb. unfold vmap_cond. rewrite Ht, Hf.
    destruct (batched_branch_returns TrueFn tf tb x n B mt Hn Hr Htb) as (tr & -> & Htr).
    destruct (batched_branch_returns FalseFn ff fb x n B mf Hn Hr Hfb) as (fr & Hfr' & Hfr).
    destruct (select_returns cond tr fr B Hc Htr Hfr) as (res' & Hs).
    exists res'. rewrite bind_done. cbn [fst snd]. by rewrite Hfr', bind_done, Hs.
  - unfold vmap_cond. intros Hv.
    apply bind_Done_inv in Hv as (true_res & l1 & l2 & Ht & Hv & ->).
    apply bind_Done_inv in Hv as (false_res & l3 & l4 & Hf & Hs & ->).
    pose proof (batched_branch_Done _ _ _ _ _ Ht) as ->.
    pose proof (batched_branch_Done _ _ _ _ _ Hf) as ->.
    pose proof (select_log cond true_res false_res) as Hl. rewrite Hs in Hl. cbn in Hl.
    subst l4.
    split; [done|]. split; [done|]. split.
    + intros cond'. rewrite Ht, bind_done. cbn [fst snd]. rewrite Hf, bind_done.
      cbn [fst snd]. by rewrite select_log.
    + exists true_res, false_res. rewrite Ht, Hf. split; [done|]. split; [done|].
      by apply (select_Done _ _ _ _ _ Hs).
Qed.
End BatchedCondReturns.

Lemma inc_list_computes (l : list Z) :
  length l = 1 → Examples.inc_list (VTensor <$> l) = Done ((λ x, x + 1)%Z <$> l) ∧
                 length ((λ x, x + 1)%Z <$> l) = 1.
Proof. intros Hl. by destruct l as [|x [|? ?]]. Qed.

Lemma dec_list_computes (l : list Z) :
  length l = 1 → Examples.dec_list (VTensor <$> l) = Done ((λ x, x - 1)%Z <$> l) ∧
                 length ((λ x, x - 1)%Z <$> l) = 1.
Proof. intros Hl. by destruct l as [|x [|? ?]]. Qed.

(** C4, witness: three lanes with predicate [True, False, True] on the
    operand [0, 1, 2]; the branches compute [x + 1] and [x - 1]. *)
Lemma C4_batched_cond_selects_witness :
  (∃ res, ControlFlow.TracingCond.vmap_cond Examples.cond1 [true; false; true] [[0; 1; 2]%Z]
          = (Done res, [Call TrueFn; Call FalseFn])) ∧
  ControlFlow.TracingCond.vmap_cond Examples.cond1 [true; false; true] [[0; 1; 2]%Z]
  = (Done [[1; 0; 3]%Z], [Call TrueFn; Call FalseFn]) ∧
  calls TrueFn [Call TrueFn; Call FalseFn] = 1 ∧
  calls FalseFn [Call TrueFn; Call FalseFn] = 1.
Proof.
  destruct (C4_batched_cond_selects Examples.cond1 [true; false; true] [[0; 1; 2]%Z]
              [[1; 0; 3]%Z] [Call TrueFn; Call FalseFn] Examples.inc_list Examples.dec_list
              (fmap (λ x, x + 1)%Z) (fmap (λ x, x - 1)%Z) 1 3 1 1) as [Hret Hsel].
  split; [|split; [reflexivity|]].
  - apply Hret.
    + reflexivity.
    + reflexivity.
    + lia.
    + split; [reflexivity|]. repeat constructor.
    + reflexivity.
    + exact inc_list_computes.
    + exact dec_list_computes.
  - destruct (Hsel eq_refl) as (Ht & Hf & _). exact (conj Ht Hf).
Defined.
(** ** Calls with an operand count for which there is no closure *)

(** If both tracings return, a build that then fails has the log of a
    build. *)
Lemma traced_then_raise {F1 E1 F2 E2 R} `{!Traceable F1 E1} `{!Traceable F2 E2}
    (what : builder) (w1 w2 : callee) (f1 : F1) (x1 : E1) (f2 : F2) (x2 : E2)
    (ty1 ty2 : sty) (e : exn) :
  traces_as f1 x1 ty1 → traces_as f2 x2 ty2 →
  (let* _ := tell (Compile what) in
   let* _ := jit w1 f1 x1 in
   let* _ := jit w2 f2 x2 in
   raise e) = ((Raise e, [Compile what; Trace w1; Trace w2]) : outcome R * list event).
Proof.
  unfold traces_as. intros H1 H2.
  by rewrite (jit_returns _ _ _ _ H1), (jit_returns _ _ _ _ H2).
Qed.

Section OutOfRange.
Context {T : Type} `{!TensorLike T} `{!PhysIter T}.
Import Loop.TracingWhile.

Lemma compile_loop_fn_out_of_range (self : obj T) (x : list (pyval T)) :
  ¬ (1 ≤ length x ≤ 9) →
  _compile_loop_fn self x =
  let* _ := tell (Compile CompileLoopFn) in
  let* _ := jit CondFn (Loop.callable (cond_fn self)) x in
  let* _ := jit BodyFn (Loop.callable (body_fn self)) x in
  raise (if decide (length x = 0) then KeyError 0
         else AssertionError (arity_msg 9 (length x))).
Proof.
  intros Hn. rewrite compile_loop_fn_spec.
  apply bind_ext; intros _. apply bind_ext; intros c. apply bind_ext; intros b.
  destruct (length x) as [|n]; [done|].
  rewrite decide_False by lia. by rewrite decide_False by lia.
Qed.

Lemma compile_state_loop_fn_out_of_range (self : obj T) (x : list (pyval T)) :
  ¬ (1 ≤ length x ≤ 9) →
  _compile_state_loop_fn self x =
  let* _ := tell (Compile CompileStateLoopFn) in
  let* _ := jit CondFn (state_cond_fn self) (combined_init_state self, x) in
  let* _ := jit BodyFn (state_body_fn self) (combined_init_state self, x) in
  raise (if decide (length x = 0) then KeyError 0
         else AssertionError (arity_msg 9 (length x))).
Proof.
  intros Hn. rewrite compile_state_loop_fn_spec.
  apply bind_ext; intros _. apply bind_ext; intros c. apply bind_ext; intros b.
  destruct (length x) as [|[|[|[|n]]]]; [done|lia|lia|lia|].
  rewrite decide_False by lia. by rewrite decide_False by lia.
Qed.


(** [trace_loop] without state, on tensors that are too many or none: the
    tracer is left as it is, and the call fails in the builder, in the
    tracing of the condition or of the body, or else on the operand count. *)
Lemma trace_loop_out_of_range (self : obj T) (fuel : nat) (ts : list T) :
  loop_cache_ok self → stateful_functions self = false → ¬ (1 ≤ length ts ≤ 9) →
  trace_loop self fuel (VTensor <$> ts) =
  (self,
   let* _ := tell (Compile CompileLoopFn) in
   let* _ := jit CondFn (Loop.callable (cond_fn self)) (VTensor <$> ts) in
   let* _ := jit BodyFn (Loop.callable (body_fn self)) (VTensor <$> ts) in
   raise (if decide (length ts = 0) then KeyError 0
          else AssertionError (arity_msg 9 (length ts)))).
Proof.
  intros Hok Hs Hn. rewrite (trace_loop_pure self fuel ts Hs). cbv zeta.
  rewrite lookup_or_build_fail.
  - cbn [fst snd]. rewrite set_cache_compiled_loop_id. f_equal.
    rewrite compile_loop_fn_out_of_range by (by rewrite length_fmap).
    rewrite length_fmap, !bind_assoc. apply bind_ext; intros _.
    rewrite ?bind_assoc. apply bind_ext; intros c.
    rewrite ?bind_assoc. apply bind_ext; intros b. by rewrite bind_raise'.
  - apply loop_cache_miss_arity; [done|]. by rewrite length_loop_key_of.
  - apply compile_loop_fn_fails. intros Hb. apply pure_buildable_length in Hb. lia.
Qed.

Lemma trace_loop_stateful_out_of_range (self : obj T) (fuel : nat) (state : gmap string T)
    (ts : list T) :
  loop_cache_ok self → stateful_functions self = true → ¬ (1 ≤ length ts ≤ 9) →
  trace_loop self fuel (VDict state :: (VTensor <$> ts)) =
  (self,
   let* _ := tell (Compile CompileStateLoopFn) in
   let* _ := jit CondFn (state_cond_fn self) (combined_init_state self, VTensor <$> ts) in
   let* _ := jit BodyFn (state_body_fn self) (combined_init_state self, VTensor <$> ts) in
   raise (if decide (length ts = 0) then KeyError 0
          else AssertionError (arity_msg 9 (length ts)))).
Proof.
  intros Hok Hs Hn. rewrite (trace_loop_stateful self fuel state ts Hs). cbv zeta.
  assert (∀ r, (_compile_state_loop_fn self (VTensor <$> ts)).1 ≠ Done r) as Hf.
  { apply compile_state_loop_fn_fails. intros Hb. apply state_buildable_length in Hb. lia. }
  rewrite lookup_or_build_fail.
  - cbn [fst snd]. rewrite set_cache_compiled_loop_id. f_equal.
    rewrite compile_state_loop_fn_out_of_range by (by rewrite length_fmap).
    rewrite length_fmap, !bind_assoc. apply bind_ext; intros _.
    rewrite ?bind_assoc. apply bind_ext; intros c.
    rewrite ?bind_assoc. apply bind_ext; intros b. by rewrite !bind_raise'.
  - apply loop_cache_miss_arity; [done|]. by rewrite length_loop_key_of.
  - by apply bind_not_Done.
Qed.



(** [trace_loop] of [control_flow.py] traces nothing: the operand count is
    checked at once. *)
Lemma old_trace_loop_out_of_range (old : ControlFlow.TracingWhile.obj T) (fuel : nat)
    (x : list (pyval T)) :
  ¬ (1 ≤ length x ≤ 9) →
  ControlFlow.TracingWhile.trace_loop old fuel x =
  (Raise (if decide (length x = 0) then KeyError 0
          else AssertionError (arity_msg 9 (length x))), []).
Proof.
  intros Hn. unfold ControlFlow.TracingWhile.trace_loop. cbv zeta.
  destruct (old_trace_loops_dict_spec old (length x)) as [-> ->].
  destruct (length x) as [|n]; [done|].
  rewrite decide_False by lia. by rewrite decide_False by lia.
Qed.
End OutOfRange.
(** ** No operand *)

Section ZeroOperands.
Context {T : Type} `{!TensorLike T} `{!PhysIter T}.
Import Loop.TracingWhile.

(** C10.  With zero operands no arity check rejects the call.  In
    [control_flow.py] the guard [len(x) <= 9] passes and the selection
    [loops_dict[0]] fails with [KeyError(0)] at once.  In [loop.py] the
    builder first traces the condition and then the body on the empty tuple of
    operands (with the combined initial state, when stateful): a tracing that
    fails decides the call; if both return, the guard passes and the
    selection fails with [KeyError(0)].  The tracer is left as it is. *)
Theorem C10_zero_operands_key_error (self : obj T) (old : ControlFlow.TracingWhile.obj T)
    (fuel : nat) (state : gmap string T) :
  ControlFlow.TracingWhile.trace_loop old fuel [] = (Raise (KeyError 0), []) ∧
  (loop_cache_ok self → stateful_functions self = false →
   trace_loop self fuel [] =
   (self,
    let* _ := tell (Compile CompileLoopFn) in
    let* _ := jit CondFn (Loop.callable (cond_fn self)) ([] : list (pyval T)) in
    let* _ := jit BodyFn (Loop.callable (body_fn self)) ([] : list (pyval T)) in
    raise (KeyError 0)) ∧
   ∀ tyc tyb,
     traces_as (Loop.callable (cond_fn self)) ([] : list (pyval T)) tyc →
     traces_as (Loop.callable (body_fn self)) ([] : list (pyval T)) tyb →
     trace_loop self fuel [] = (self, (Raise (KeyError 0), build_log CompileLoopFn))) ∧
  (loop_cache_ok self → stateful_functions self = true →
   trace_loop self fuel [VDict state] =
   (self,
    let* _ := tell (Compile CompileStateLoopFn) in
    let* _ := jit CondFn (state_cond_fn self) (combined_init_state self, []) in
    let* _ := jit BodyFn (state_body_fn self) (combined_init_state self, []) in
    raise (KeyError 0)) ∧
   ∀ tyc tyb,
     traces_as (state_cond_fn self) (combined_init_state self, []) tyc →
     traces_as (state_body_fn self) (combined_init_state self, []) tyb →
     trace_loop self fuel [VDict state]
     = (self, (Raise (KeyError 0), build_log CompileStateLoopFn))).
Proof.
  split; [|split].
  - by rewrite old_trace_loop_out_of_range by (cbn; lia).
  - intros Hok Hs.
    pose proof (trace_loop_out_of_range self fuel [] Hok Hs ltac:(cbn; lia)) as Hcall.
    cbn [fmap list_fmap length] in Hcall. rewrite decide_True in Hcall by done.
    split; [done|]. intros tyc tyb Hc Hb. rewrite Hcall. f_equal.
    by apply (traced_then_raise _ _ _ _ _ _ _ tyc tyb).
  - intros Hok Hs.
    pose proof (trace_loop_stateful_out_of_range self fuel state [] Hok Hs ltac:(cbn; lia))
      as Hcall.
    cbn [fmap list_fmap length] in Hcall. rewrite decide_True in Hcall by done.
    split; [done|]. intros tyc tyb Hc Hb. rewrite Hcall. f_equal.
    by apply (traced_then_raise _ _ _ _ _ _ _ tyc tyb).
Qed.
End ZeroOperands.

(** C10, witness: the tracer of [control_flow.py] and the tracer over the
    variadic functions of the examples, called with no operand; the stateful
    tracer of the examples, called with a state only. *)
Lemma C10_zero_operands_key_error_witness :
  ControlFlow.TracingWhile.trace_loop Examples.old_while1 5 [] = (Raise (KeyError 0), []) ∧
  Loop.TracingWhile.trace_loop Examples.while_any 5 []
  = (Examples.while_any,
     (Raise (KeyError 0), [Compile CompileLoopFn; Trace CondFn; Trace BodyFn])) ∧
  Loop.TracingWhile.trace_loop (Examples.stateful 1) 5 [VDict ∅]
  = (Examples.stateful 1, (Raise TypeError, [Compile CompileStateLoopFn; Trace CondFn])).
Proof.
  destruct (C10_zero_operands_key_error Examples.while_any Examples.old_while1 5 ∅)
    as (Hold & Hpure & _).
  destruct (C10_zero_operands_key_error (Examples.stateful 1) Examples.old_while1 5 ∅)
    as (_ & _ & Hstate).
  split; [exact Hold|]. split.
  - apply (proj2 (Hpure (loop_cache_ok_empty Examples.while_any eq_refl) eq_refl)
             TyTensor (TyTuple [])); reflexivity.
  - etrans.
    + exact (proj1 (Hstate (loop_cache_ok_empty (Examples.stateful 1) eq_refl) eq_refl)).
    + vm_compute. reflexivity.
Defined.

(** C10, counterexample: on the tracer over [x < 10] and [x + 1], functions
    of one operand, the call with no operand does not reach the guard and
    the selection: tracing the condition on no operand fails with a
    [TypeError]. *)
Lemma C10_tracing_fails_first :
  Loop.TracingWhile.trace_loop Examples.while1 5 []
  = (Examples.while1, (Raise TypeError, [Compile CompileLoopFn; Trace CondFn])).
Proof. vm_compute. reflexivity. Qed.
(** ** The loops over functions that are pure and total *)

Section Computes.
Context {T : Type} `{!TensorLike T} `{!PhysIter T}.
Variable fc : list (pyval T) → outcome bool.
Variable fb : list (pyval T) → outcome (pyval T).
Variable c : list T → bool.
Variable b : list T → list T.
Variable n : nat.
Hypothesis Hcomputes : computes n fc fb c b.


Lemma old_loop_computes (old : ControlFlow.TracingWhile.obj T) (fuel : nat) (ts : list T) :
  ControlFlow.TracingWhile.cond old = Some fc →
  ControlFlow.TracingWhile.body old = Some fb →
  length ts = n →
  (ControlFlow.TracingWhile.loop old fuel (VTensor <$> ts)).1 = lane_outcome c b fuel ts.
Proof.
  intros Hcf Hbf Hl. destruct Hcomputes as (Hc & Hb & Hbn).
  unfold ControlFlow.TracingWhile.loop. rewrite old_loop_while, Hcf, Hbf.
  by apply (while_lane fc fb c b n).
Qed.

(** [trace_loop] of [loop.py], 2 to 9 operands. *)
Lemma trace_loop_computes (self : Loop.TracingWhile.obj T) (fuel : nat) (ts : list T) :
  loop_cache_ok self → Loop.TracingWhile.stateful_functions self = false →
  Loop.callable (Loop.TracingWhile.cond_fn self) = Some fc →
  Loop.callable (Loop.TracingWhile.body_fn self) = Some fb →
  length ts = n → 2 ≤ n ≤ 9 →
  (Loop.TracingWhile.trace_loop self fuel (VTensor <$> ts)).2.1
  = (Loop.TracingWhile.loop self fuel (VTensor <$> ts)).1.
Proof.
  intros Hok Hs Hcf Hbf Hl Hn. subst n.
  rewrite (trace_loop_direct self fuel ts Hok Hs) by
    (lia || by apply (computes_pure_buildable self ts fc fb c b)).
  by rewrite bind_fst_tt.
Qed.

(** The closure of [control_flow.py] for [n] operands. *)
Lemma old_trace_loopN_lane (old : ControlFlow.TracingWhile.obj T) (fuel : nat) (l : list T) :
  ControlFlow.TracingWhile.cond old = Some fc →
  ControlFlow.TracingWhile.body old = Some fb →
  length l = n →
  (let* xs := ControlFlow.TracingWhile.trace_loopN_while old n fuel (VTensor <$> l) in
   ret (VTuple xs)).1 = lane_outcome c b fuel l.
Proof.
  intros Hcf Hbf. destruct Hcomputes as (Hc & Hb & Hbn). unfold lane_outcome.
  revert l. induction fuel as [|fuel IH]; intros l Hl;
    cbn [ControlFlow.TracingWhile.trace_loopN_while lane_while];
    rewrite Hcf; unfold invoke at 1; rewrite (Hc l Hl), bind_assoc, bind_done;
    destruct (c l) eqn:Hcl; try done.
  cbn [fst]. rewrite Hbf. unfold invoke. rewrite (Hb l Hl).
  rewrite !bind_assoc, bind_done. cbn [fst]. unfold unpack_n. cbn [star].
  rewrite bind_ret_l, decide_True by (by rewrite length_fmap; apply Hbn).
  rewrite bind_ret_l. apply IH. by apply Hbn.
Qed.

Lemma old_trace_loop_computes (old : ControlFlow.TracingWhile.obj T) (fuel : nat)
    (ts : list T) :
  ControlFlow.TracingWhile.cond old = Some fc →
  ControlFlow.TracingWhile.body old = Some fb →
  ControlFlow.TracingWhile.trace_loopN_typed old n = true →
  length ts = n → 2 ≤ n ≤ 9 →
  (ControlFlow.TracingWhile.trace_loop old fuel (VTensor <$> ts)).1
  = (ControlFlow.TracingWhile.loop old fuel (VTensor <$> ts)).1.
Proof.
  intros Hcf Hbf Hty Hl Hn.
  rewrite old_trace_loop_select by (rewrite length_fmap; lia).
  rewrite length_fmap, Hl. unfold torch_jit_script. cbn [well_typed run]. rewrite Hty.
  rewrite tell_fst, bind_ret_l. unfold ControlFlow.TracingWhile.trace_loopN.
  rewrite decide_True by (by rewrite length_fmap).
  by rewrite (old_trace_loopN_lane old fuel ts), (old_loop_computes old fuel ts).
Qed.
End Computes.
(** ** The batched loop on a batch of one lane *)

Section SingleLaneLoop.
Context {T : Type} `{!TensorLike T} `{!PhysIter T}.



Section Lane.
Variable fuel : nat.
Variable bs : list (BatchedTensor T).
Variable ts : list T.
Variable fc : list (pyval T) → outcome bool.
Variable fb : list (pyval T) → outcome (pyval T).
Variable c : list T → bool.
Variable b : list T → list T.
Hypothesis Hn : 2 ≤ length ts ≤ 9.
Hypothesis Hcomputes : computes (length ts) fc fb c b.
Hypothesis Hlanes : lanes <$> bs = single ts.




End Lane.
End SingleLaneLoop.
(** ** Ten operands, nine operands *)

Section ArityBound.
Context {T : Type} `{!TensorLike T} `{!PhysIter T}.
Import Loop.TracingWhile.

End ArityBound.




(** ** The specialization caches *)

Lemma builds_lookup_log `{Countable K} {P} (cache : gmap K P) key what :
  builds (lookup_log cache key what) = if cache !! key is Some _ then 0 else 1.
Proof. unfold lookup_log. destruct (cache !! key); [done|]. by destruct what. Qed.

Lemma builds_build_log what : builds (build_log what) = 1.
Proof. by destruct what. Qed.

Lemma builds_prefixed {A} (log : list event) (m : M A) :
  quiet m → builds (let* _ := (Done tt, log) in m).2 = builds log.
Proof. intros Hm. rewrite bind_done. cbn [snd]. rewrite builds_app, Hm. lia. Qed.

Section CacheReuse.
Context {T : Type} `{!TensorLike T} `{!PhysIter T}.
Import Loop.TracingWhile.











End CacheReuse.


(** ** The three execution paths compared *)

Section PathsAgree.
Context {T : Type} `{!TensorLike T} `{!PhysIter T}.


End PathsAgree.

Lemma computes_step2 :
  computes 2 Examples.fst_lt10 Examples.step2 Examples.fst_lt10_lane Examples.step2_lane.
Proof.
  split; [|split]; intros ts Hl; destruct ts as [|x [|y [|? ?]]]; try done.
Qed.

Lemma old_vmap_cache_ok_fresh {T} `{!TensorLike T} `{!PhysIter T}
    (c : script_fn T bool) (b : script_fn T (pyval T)) :
  old_vmap_cache_ok (ControlFlow.TracingWhile.__init__ c b).
Proof. intros key compiled. cbn. by rewrite lookup_empty. Qed.

(** ** The batched loop: one operand and more *)

Section BatchedLoop.
Context {T : Type} `{!TensorLike T} `{!PhysIter T}.




(** A build that is rejected after the tracings does not return. *)
Lemma traced_then_raise_fails {F1 E1 F2 E2 R} `{!Traceable F1 E1} `{!Traceable F2 E2}
    (what : builder) (w1 w2 : callee) (f1 : F1) (x1 : E1) (f2 : F2) (x2 : E2) (e : exn)
    (y : R) :
  (let* _ := tell (Compile what) in
   let* _ := jit w1 f1 x1 in
   let* _ := jit w2 f2 x2 in
   raise e).1 ≠ Done y.
Proof.
  unfold tell, jit. rewrite bind_done. cbn [fst].
  destruct (trace_run f1 x1); [|done..]. rewrite bind_done. cbn [fst].
  by destruct (trace_run f2 x2).
Qed.

End BatchedLoop.

(** ** The stateful loop at every operand count *)

Section StatefulLoop.
Context {T : Type} `{!TensorLike T} `{!PhysIter T}.
Import Loop.TracingWhile.

Lemma state_loopN_while_direct (self : obj T) fuel state x :
  state_while self star fuel state x =
  let* sc := bind (star x) (state_cond (state_cond_fn self) state) in
  state_loopN_while (state_cond_fn self) (state_body_fn self) fuel sc.1 x sc.2.
Proof.
  revert state x. induction fuel as [|fuel IH]; intros state x;
    cbn [state_while state_loopN_while]; apply bind_ext; intros [state' [|]];
    cbn [fst snd]; try done.
  apply bind_ext. intros [state'' x']. cbn [fst snd]. rewrite IH.
  apply bind_ext. by intros [st c].
Qed.

Lemma state_loop1_while_direct (self : obj T) fuel state x :
  state_while self (λ x, ret [x]) fuel state x =
  let* sc := state_cond (state_cond_fn self) state [x] in
  state_loop1_while (state_cond_fn self) (state_body_fn self) fuel sc.1 x sc.2.
Proof.
  revert state x. induction fuel as [|fuel IH]; intros state x;
    cbn [state_while state_loop1_while]; rewrite (bind_ret_l [x]);
    apply bind_ext; intros [state' [|]]; cbn [fst snd]; try done.
  rewrite (bind_ret_l [x]). apply bind_ext. intros [state'' x']. cbn [fst snd].
  rewrite IH. apply bind_ext. by intros [st c].
Qed.

(** The stateful procedure of 2, 4, ..., 9 operands and that of one
    operand are the loop of the description. *)
Lemma state_loopN_direct (self : obj T) n fuel state args :
  length args = n →
  state_loopN (state_cond_fn self) (state_body_fn self) n fuel (VDict state) args =
  let* sx := state_while self star fuel state (VTuple args) in
  ret (VTuple [VDict sx.1; sx.2]).
Proof.
  intros Hn. unfold state_loopN. rewrite decide_True by done. cbn [as_state].
  rewrite bind_ret_l, state_loopN_while_direct.
  rewrite (bind_assoc (bind (star (VTuple args)) (state_cond (state_cond_fn self) state))).
  apply bind_ext. intros [st c]. cbn [fst snd]. apply bind_ext. by intros [st' xs].
Qed.

Lemma state_loop1_direct (self : obj T) fuel state x :
  state_loop1 (state_cond_fn self) (state_body_fn self) fuel (VDict state) [x] =
  let* sx := state_while self (λ x, ret [x]) fuel state x in
  ret (VTuple [VDict sx.1; sx.2]).
Proof.
  unfold state_loop1. cbn [as_state].
  rewrite bind_ret_l, state_loop1_while_direct.
  rewrite (bind_assoc (state_cond (state_cond_fn self) state [x])).
  apply bind_ext. intros [st c]. cbn [fst snd]. apply bind_ext. by intros [st' xs].
Qed.

(** The invariant holds on a fresh tracer. *)
Lemma state_cache_ok_empty (self : obj T) : _cache_compiled_loop self = ∅ → state_cache_ok self.
Proof. intros He key compiled. by rewrite He, lookup_empty. Qed.

(** The stateful builder on three operands: the closure [_loop3] is selected
    and rejected by the type check, whatever the functions. *)
Lemma compile_state_loop_fn_three (self : obj T) (x : list (pyval T)) :
  length x = 3 →
  _compile_state_loop_fn self x =
  let* _ := tell (Compile CompileStateLoopFn) in
  let* _ := jit CondFn (state_cond_fn self) (combined_init_state self, x) in
  let* _ := jit BodyFn (state_body_fn self) (combined_init_state self, x) in
  raise RuntimeError.
Proof. intros Hl. rewrite compile_state_loop_fn_spec. by rewrite Hl. Qed.

Lemma trace_loop_stateful_three (self : obj T) (fuel : nat) (state : gmap string T)
    (ts : list T) :
  state_cache_ok self → stateful_functions self = true → length ts = 3 →
  trace_loop self fuel (VDict state :: (VTensor <$> ts)) =
  (self,
   let* _ := tell (Compile CompileStateLoopFn) in
   let* _ := jit CondFn (state_cond_fn self) (combined_init_state self, VTensor <$> ts) in
   let* _ := jit BodyFn (state_body_fn self) (combined_init_state self, VTensor <$> ts) in
   raise RuntimeError).
Proof.
  intros Hok Hs Hl. rewrite (trace_loop_stateful self fuel state ts Hs). cbv zeta.
  assert (∀ r, (_compile_state_loop_fn self (VTensor <$> ts)).1 ≠ Done r) as Hf.
  { apply compile_state_loop_fn_fails. intros Hb. apply state_buildable_length in Hb. lia. }
  rewrite lookup_or_build_fail.
  - cbn [fst snd]. rewrite set_cache_compiled_loop_id. f_equal.
    rewrite compile_state_loop_fn_three by (by rewrite length_fmap).
    rewrite !bind_assoc. apply bind_ext; intros _.
    rewrite ?bind_assoc. apply bind_ext; intros c.
    rewrite ?bind_assoc. apply bind_ext; intros b. by rewrite !bind_raise'.
  - destruct (_cache_compiled_loop self !! loop_key_of ts) as [compiled|] eqn:Hk; [|done].
    destruct (state_cache_ok_lookup _ _ _ Hok Hk) as (_ & Hn3 & _).
    rewrite length_loop_key_of in Hn3. lia.
  - by apply bind_not_Done.
Qed.

(** C3.  On a tracer in stateful mode whose cache holds stateful
    procedures, and on a state and operands for which the build succeeds,
    [trace_loop] called with 2, 4, 5, ..., 9 operands returns the pair of the
    final state and the operands that the loop of the description returns:
    the condition is evaluated on the current state and operands; while it is
    true the body is executed on them and the condition is evaluated again on
    the updated state and operands.  With one operand it does the same, the
    operand being threaded and returned bare.  With three operands it does
    not: [_loop3] re-evaluates the condition on the state and the tuple of the
    operands, a call that the condition traced on three operands does not
    take; the builder traces the two functions and then rejects the closure,
    so that [trace_loop] never returns, whatever the functions, the state and
    the operands, and leaves the tracer as it is. *)
Theorem C3_stateful_loop (self self1 self3 : obj T) (fuel : nat) (state : gmap string T)
    (ts ts3 : list T) (t : T) :
  (state_cache_ok self → stateful_functions self = true →
   2 ≤ length ts → state_buildable self (VTensor <$> ts) →
   (trace_loop self fuel (VDict state :: (VTensor <$> ts))).2 =
   let* _ := (Done tt, lookup_log (_cache_compiled_loop self) (loop_key_of ts)
                         CompileStateLoopFn) in
   let* sx := state_while self star fuel state (VTuple (VTensor <$> ts)) in
   ret (VTuple [VDict sx.1; sx.2])) ∧
  (state_cache_ok self1 → stateful_functions self1 = true →
   state_buildable self1 [VTensor t] →
   (trace_loop self1 fuel [VDict state; VTensor t]).2 =
   let* _ := (Done tt, lookup_log (_cache_compiled_loop self1) (loop_key_of [t])
                         CompileStateLoopFn) in
   let* sx := state_while self1 (λ x, ret [x]) fuel state (VTensor t) in
   ret (VTuple [VDict sx.1; sx.2])) ∧
  (state_cache_ok self3 → stateful_functions self3 = true → length ts3 = 3 →
   trace_loop self3 fuel (VDict state :: (VTensor <$> ts3)) =
   (self3,
    let* _ := tell (Compile CompileStateLoopFn) in
    let* _ := jit CondFn (state_cond_fn self3) (combined_init_state self3, VTensor <$> ts3) in
    let* _ := jit BodyFn (state_body_fn self3) (combined_init_state self3, VTensor <$> ts3) in
    raise RuntimeError) ∧
   ∀ y, (trace_loop self3 fuel (VDict state :: (VTensor <$> ts3))).2.1 ≠ Done y).
Proof.
  split; [|split].
  - intros Hok Hs Hn Hb.
    rewrite (trace_loop_stateful_valid self fuel state ts Hok Hs Hb). cbn [snd].
    apply bind_done_congr.
    destruct (state_buildable_length self ts Hb) as [_ Hn3].
    assert (state_proc self (length ts)
            = state_loopN (state_cond_fn self) (state_body_fn self) (length ts)) as ->.
    { unfold state_proc. destruct (length ts) as [|[|[|[|m]]]]; try lia; done. }
    apply state_loopN_direct. by rewrite length_fmap.
  - intros Hok Hs Hb.
    pose proof (trace_loop_stateful_valid self1 fuel state [t] Hok Hs Hb) as Hcall.
    cbn [fmap list_fmap length] in Hcall. rewrite Hcall. cbn [snd].
    apply bind_done_congr. cbn [state_proc]. apply state_loop1_direct.
  - intros Hok Hs Hl. rewrite (trace_loop_stateful_three self3 fuel state ts3 Hok Hs Hl).
    split; [done|]. intros y. apply traced_then_raise_fails.
Qed.
End StatefulLoop.

(** C3, witness: the stateful tracers of the examples for two operands and
    one operand, started on the state [count = 0], return the state
    [count = 3] and the operands [3, 5], respectively [3]; the tracer for
    three operands is rejected at the build after both tracings. *)
Lemma C3_stateful_loop_witness :
  (Loop.TracingWhile.trace_loop (Examples.stateful 2) 20
     (VDict {[ "count" := 0%Z ]} :: (VTensor <$> [0; 5]%Z))).2
  = (Done (VTuple [VDict {[ "count" := 3%Z ]}; VTuple [VTensor 3%Z; VTensor 5%Z]]),
     [Compile CompileStateLoopFn; Trace CondFn; Trace BodyFn;
      Call CondFn; Call BodyFn; Call CondFn; Call BodyFn; Call CondFn; Call BodyFn;
      Call CondFn]) ∧
  (Loop.TracingWhile.trace_loop (Examples.stateful 1) 20
     [VDict {[ "count" := 0%Z ]}; VTensor 0%Z]).2.1
  = Done (VTuple [VDict {[ "count" := 3%Z ]}; VTensor 3%Z]) ∧
  Loop.TracingWhile.trace_loop (Examples.stateful 3) 20
    (VDict {[ "count" := 0%Z ]} :: (VTensor <$> [0; 5; 7]%Z))
  = (Examples.stateful 3,
     (Raise RuntimeError, [Compile CompileStateLoopFn; Trace CondFn; Trace BodyFn])).
Proof.
  destruct (C3_stateful_loop (Examples.stateful 2) (Examples.stateful 1) (Examples.stateful 3)
              20 {[ "count" := 0%Z ]} [0; 5]%Z [0; 5; 7]%Z 0%Z) as (H2 & H1 & H3).
  split; [|split].
  - etrans.
    + apply H2.
      * by apply state_cache_ok_empty.
      * reflexivity.
      * simpl. lia.
      * split; [simpl; lia|]. split; [simpl; lia|].
        split; [by exists (TyTuple [TyDict; TyTensor])|reflexivity].
    + vm_compute. reflexivity.
  - etrans.
    + apply (f_equal fst). apply H1.
      * by apply state_cache_ok_empty.
      * reflexivity.
      * split; [simpl; lia|]. split; [simpl; lia|].
        split; [by exists (TyTuple [TyDict; TyTensor])|reflexivity].
    + vm_compute. reflexivity.
  - etrans.
    + exact (proj1 (H3 (state_cache_ok_empty (Examples.stateful 3) eq_refl) eq_refl eq_refl)).
    + vm_compute. reflexivity.
Defined.

(** * Further properties *)

(** ** The operand count in [trace_cond] *)

Section CondArity.
Context {T : Type}.
Import ControlFlow.TracingCond.

(** X1.  [trace_cond] takes 1 to 9 operands.  With none the guard
    [len(x) <= 9] passes and the selection [cond_dict[0]] fails with
    [KeyError(0)]; with more than 9 the assertion fails, its message naming
    the limit 9 and the count.  In both cases neither branch function is
    invoked, whatever the predicate. *)
Theorem trace_cond_operand_count (tc : obj T) (c : bool) (x : list (pyval T)) :
  ¬ (1 ≤ length x ≤ 9) →
  trace_cond tc c x =
  (Raise (if decide (length x = 0) then KeyError 0
          else AssertionError (arity_msg 9 (length x))), []).
Proof.
  intros Hn. unfold trace_cond. cbv zeta.
  destruct (cond_dict_spec tc (length x)) as [-> ->].
  rewrite (decide_False (P := 1 ≤ length x ≤ 9)) by done.
  destruct (decide (length x = 0)) as [->|H0].
  - by rewrite decide_True by lia.
  - by rewrite decide_False by lia.
Qed.
End CondArity.

(** X1, witness: the conditional of the examples with no operand and with
    twelve. *)
Lemma trace_cond_operand_count_witness :
  ControlFlow.TracingCond.trace_cond Examples.cond1 true [] = (Raise (KeyError 0), []) ∧
  ControlFlow.TracingCond.trace_cond Examples.cond1 false (VTensor <$> replicate 12 0%Z)
  = (Raise (AssertionError "At most 9 arguments are supported, got 12"), []).
Proof.
  split.
  - apply (trace_cond_operand_count Examples.cond1 true []). simpl. lia.
  - etrans.
    + apply (trace_cond_operand_count Examples.cond1 false (VTensor <$> replicate 12 0%Z)).
      simpl. lia.
    + vm_compute. reflexivity.
Defined.

(** ** [control_flow.py]: no cache on the trace-compiled path, a cache keyed
    by batch axes and rank on the batched path *)

Section OldFile.
Context {T : Type} `{!TensorLike T} `{!PhysIter T}.
Import ControlFlow.TracingWhile.

Lemma quiet_unpack_n n (r : pyval T) : quiet (unpack_n n r).
Proof. unfold unpack_n. quiet. Qed.

Lemma quiet_old_trace_loop1_while (old : obj T) fuel x1 : quiet (trace_loop1_while old fuel x1).
Proof. revert x1. induction fuel as [|fuel IH]; intros x1; cbn [trace_loop1_while]; quiet. Qed.

Lemma quiet_old_trace_loopN_while (old : obj T) n fuel xs :
  quiet (trace_loopN_while old n fuel xs).
Proof.
  revert xs. induction fuel as [|fuel IH]; intros xs; cbn [trace_loopN_while]; quiet;
    auto using quiet_unpack_n.
Qed.

(** X2.  [trace_loop] of [control_flow.py] keeps no cache: every call with 1
    to 9 operands builds the specialized procedure, once, whatever was called
    before. *)
Theorem old_trace_loop_builds_every_call (old : obj T) (fuel : nat) (x : list (pyval T)) :
  1 ≤ length x ≤ 9 → builds (trace_loop old fuel x).2 = 1.
Proof.
  intros Hn. unfold trace_loop. cbv zeta.
  destruct (old_trace_loops_dict_spec old (length x)) as [-> Hsel]. rewrite Hsel.
  rewrite decide_True by lia.
  assert (∀ l : closure (nat → list (pyval T) → M (pyval T)),
            (∀ fuel x, quiet (run l fuel x)) →
            builds (let* _ := tell (Compile CompileLoopFn) in
                    let* compiled_loop := torch_jit_script l in
                    compiled_loop fuel x).2 = 1) as Hq.
  { intros l Hl. unfold tell, torch_jit_script. rewrite bind_done. cbn [snd].
    rewrite builds_app. destruct (well_typed l); [|done].
    rewrite bind_ret_l. by rewrite Hl. }
  destruct (length x) as [|[|n]] eqn:Hl; [lia| |].
  - apply Hq. intros fuel' x'. cbn [run]. unfold trace_loop1. quiet.
    apply quiet_old_trace_loop1_while.
  - do 8 (destruct n as [|n];
          [apply Hq; intros fuel' x'; cbn [run]; unfold trace_loopN; quiet;
           apply quiet_old_trace_loopN_while|]).
    lia.
Qed.

End OldFile.

(** X2, witness: the two-operand tracer of the examples on 8 and 0. *)
Lemma old_trace_loop_builds_every_call_witness :
  builds (ControlFlow.TracingWhile.trace_loop Examples.old_while2 20
            [VTensor 8%Z; VTensor 0%Z]).2 = 1.
Proof.
  apply (old_trace_loop_builds_every_call Examples.old_while2 20 [VTensor 8%Z; VTensor 0%Z]).
  simpl. lia.
Defined.
(** ** [control_flow.py]: the batched cache is keyed by batch axes and rank *)

Section OldCache.
Context {T : Type} `{!TensorLike T} `{!PhysIter T}.
Import ControlFlow.TracingWhile.

Lemma old_vmap_loop_builds (old : obj T) (fuel : nat) (bs : list (BatchedTensor T))
    (c : compiled_vmap_loop T) :
  _cache_compiled_vmap_loop old !! old_vmap_key bs = None →
  (_compile_vmap_loop_fn old bs (in_dim <$> bs)).1 = Done c →
  let r := vmap_loop old fuel (VTensor <$> bs) in
  r.1 = set_cache old (<[old_vmap_key bs := c]> (_cache_compiled_vmap_loop old)) ∧
  builds r.2.2 = 1 ∧ r.2.1 = (old_vmap_call c fuel bs).1.
Proof.
  intros Hk Hc. cbv zeta.
  pose proof (compile_vmap_loop_fn_Done _ _ _ _ c Hc) as Hb.
  rewrite (old_compile_vmap_ok old bs Hb) in Hc. injection Hc as <-.
  rewrite (old_vmap_loop_miss old fuel bs Hk Hb). cbn [fst snd]. split; [done|].
  rewrite builds_prefixed by apply quiet_old_vmap_run. by rewrite bind_fst_tt.
Qed.

Lemma old_vmap_loop_reuses (old : obj T) (fuel : nat) (bs : list (BatchedTensor T))
    (c : compiled_vmap_loop T) :
  old_vmap_cache_ok old → _cache_compiled_vmap_loop old !! old_vmap_key bs = Some c →
  let r := vmap_loop old fuel (VTensor <$> bs) in
  r.1 = old ∧ builds r.2.2 = 0 ∧ r.2 = old_vmap_call c fuel bs.
Proof.
  intros Hok Hk. cbv zeta.
  destruct (old_vmap_loop_hit old fuel bs c Hok Hk) as (_ & -> & ->).
  cbn [fst snd]. split; [done|]. split; [apply quiet_old_vmap_run|done].
Qed.

Lemma old_vmap_cache_ok_stored (old : obj T) (bs : list (BatchedTensor T))
    (c : compiled_vmap_loop T) :
  old_vmap_cache_ok old → (_compile_vmap_loop_fn old bs (in_dim <$> bs)).1 = Done c →
  old_vmap_cache_ok (set_cache old (<[old_vmap_key bs := c]> (_cache_compiled_vmap_loop old))).
Proof.
  intros Hok Hc key c'. cbn [_cache_compiled_vmap_loop set_cache].
  destruct (decide (old_vmap_key bs = key)) as [<-|Hne].
  - rewrite lookup_insert_eq. intros [= <-]. by exists bs.
  - rewrite lookup_insert_ne by done. apply Hok.
Qed.

(** X3.  The batched cache of [control_flow.py] is keyed by the batch axes
    and the rank of every operand, not by element type or device.  A first
    call with a new key whose build succeeds builds the procedure once, stores
    it under the key and runs it; a second call whose operands have the same
    batch axes and ranks builds nothing, leaves the tracer as it is and runs
    the stored procedure, whatever their lanes, element types and devices.
    The invariant of the cache is kept. *)
Theorem old_vmap_loop_reuse (old : obj T) (fuel1 fuel2 : nat) (bs1 bs2 : list (BatchedTensor T))
    (c : compiled_vmap_loop T) :
  old_vmap_cache_ok old →
  (_compile_vmap_loop_fn old bs1 (in_dim <$> bs1)).1 = Done c →
  old_vmap_key bs2 = old_vmap_key bs1 →
  _cache_compiled_vmap_loop old !! old_vmap_key bs1 = None →
  let r1 := vmap_loop old fuel1 (VTensor <$> bs1) in
  let r2 := vmap_loop r1.1 fuel2 (VTensor <$> bs2) in
  builds r1.2.2 = 1 ∧
  _cache_compiled_vmap_loop r1.1 = <[old_vmap_key bs1 := c]> (_cache_compiled_vmap_loop old) ∧
  r1.2.1 = (old_vmap_call c fuel1 bs1).1 ∧
  old_vmap_cache_ok r1.1 ∧
  builds r2.2.2 = 0 ∧ r2.1 = r1.1 ∧ r2.2 = old_vmap_call c fuel2 bs2.
Proof.
  intros Hok Hc Hk Hmiss. cbv zeta.
  destruct (old_vmap_loop_builds old fuel1 bs1 c Hmiss Hc) as (-> & Hb1 & Hr1).
  set (old1 := set_cache old _).
  assert (old_vmap_cache_ok old1) as Hok1 by (by apply old_vmap_cache_ok_stored).
  assert (_cache_compiled_vmap_loop old1 !! old_vmap_key bs2 = Some c) as Hh2.
  { rewrite Hk. apply lookup_insert_eq. }
  destruct (old_vmap_loop_reuses old1 fuel2 bs2 c Hok1 Hh2) as (-> & Hb2 & Hr2).
  by repeat split.
Qed.
End OldCache.

(** X3, witness: two integer lanes on the CPU first, then two operands of
    another element type on another device, with the same batch axes and
    ranks. *)
Lemma old_vmap_loop_reuse_witness :
  let bs1 := [Examples.batched [7; 8; 9]%Z; Examples.batched [0; 0; 0]%Z] in
  let bs2 := [batched_as "torch.float32" "cuda:0" [1; 2]%Z;
              batched_as "torch.float32" "cuda:0" [3; 4]%Z] in
  let c := old_vmap_proc Examples.old_while2 [[0%Z]; [0%Z]] 2 in
  let r1 := ControlFlow.TracingWhile.vmap_loop Examples.old_while2 20 (VTensor <$> bs1) in
  let r2 := ControlFlow.TracingWhile.vmap_loop r1.1 20 (VTensor <$> bs2) in
  builds r1.2.2 = 1 ∧
  ControlFlow.TracingWhile._cache_compiled_vmap_loop r1.1
  = <[old_vmap_key bs1 := c]>
      (ControlFlow.TracingWhile._cache_compiled_vmap_loop Examples.old_while2) ∧
  r1.2.1 = (old_vmap_call c 20 bs1).1 ∧
  old_vmap_cache_ok r1.1 ∧
  builds r2.2.2 = 0 ∧ r2.1 = r1.1 ∧ r2.2 = old_vmap_call c 20 bs2.
Proof.
  apply (old_vmap_loop_reuse Examples.old_while2 20 20
           [Examples.batched [7; 8; 9]%Z; Examples.batched [0; 0; 0]%Z]
           [batched_as "torch.float32" "cuda:0" [1; 2]%Z;
            batched_as "torch.float32" "cuda:0" [3; 4]%Z]
           (old_vmap_proc Examples.old_while2 [[0%Z]; [0%Z]] 2)).
  - apply old_vmap_cache_ok_fresh.
  - vm_compute. reflexivity.
  - reflexivity.
  - reflexivity.
Defined.

(** ** [loop.py]: what a call does to the tracer *)

Section NewFileCaches.
Context {T : Type} `{!TensorLike T} `{!PhysIter T}.
Import Loop.TracingWhile.

Lemma signatures_Done (x : list (pyval T)) key log :
  signatures x = (Done key, log) →
  ∃ ts, x = VTensor <$> ts ∧ key = loop_key_of ts ∧ log = [].
Proof.
  revert key log. induction x as [|a x IH]; intros key log; cbn [signatures].
  - intros [= <- <-]. by exists [].
  - intros H. apply bind_Done_inv in H as (s & l1 & l2 & Hs & H & ->).
    apply bind_Done_inv in H as (k & l3 & l4 & Hk & [= <- <-] & ->).
    destruct a as [t| | | |]; try done. injection Hs as <- <-.
    destruct (IH _ _ Hk) as (ts & -> & -> & ->). by exists (t :: ts).
Qed.

Lemma signatures_not_tensor (pre : list T) (arg : pyval T) post :
  is_tensor arg = false →
  signatures ((VTensor <$> pre) ++ arg :: post) = raise AttributeError.
Proof.
  intros Harg. induction pre as [|t pre IH].
  - cbn [fmap list_fmap app signatures]. by destruct arg.
  - cbn [fmap list_fmap app signatures signature]. cbn [fmap list_fmap] in IH.
    by rewrite IH.
Qed.

Lemma split_state_Done (self : obj T) x state x' log :
  split_state self x = (Done (state, x'), log) →
  log = [] ∧ (is_Some state → stateful_functions self = true).
Proof.
  unfold split_state. destruct (stateful_functions self).
  - destruct x as [|[| | | |] x]; try done; intros [= <- <- <-]; by split.
  - intros [= <- <- <-]. split; [done|]. by intros [? ?].
Qed.

Lemma lookup_or_build_cases `{Countable K} {P} (cache : gmap K P) key (build : M P) :
  cache !! key = None →
  (∃ c log, build = (Done c, log) ∧
            lookup_or_build cache key build = (<[key := c]> cache, (Done c, log))) ∨
  lookup_or_build cache key build = (cache, build).
Proof.
  intros Hk. unfold lookup_or_build. rewrite Hk.
  destruct build as [[c| |] log]; [left; by exists c, log|by right..].
Qed.

(** X5.  Whatever its arguments and whether it returns, raises or is cut
    off, a call of [trace_loop] keeps the invariant of the cache of compiled
    loops, never removes or replaces an entry of it, and touches neither the
    functions and the mode of the tracer nor its batched cache. *)
Theorem trace_loop_keeps_cache (self : obj T) (fuel : nat) (x : list (pyval T)) :
  loop_cache_ok self →
  let self' := (trace_loop self fuel x).1 in
  loop_cache_ok self' ∧
  _cache_compiled_loop self ⊆ _cache_compiled_loop self' ∧
  same_functions self self' ∧
  _cache_compiled_vmap_loop self' = _cache_compiled_vmap_loop self.
Proof.
  intros Hok self'. subst self'. unfold trace_loop.
  destruct (let* sx := split_state self x in
            let* key := signatures sx.2 in
            ret (sx, key)) as [[[[state x'] key]| |] log0] eqn:H;
    [|by repeat split..].
  apply bind_Done_inv in H as ([state0 x0] & l1 & l2 & Hsp & H & ->).
  apply bind_Done_inv in H as (key0 & l3 & l4 & Hsig & Hret & ->).
  injection Hret as <- <- <- <-. cbn [fst snd] in Hsig.
  apply split_state_Done in Hsp as [-> Hstate].
  apply signatures_Done in Hsig as (ts & -> & -> & ->).
  destruct (_cache_compiled_loop self !! loop_key_of ts) as [c|] eqn:Hk.
  { rewrite (lookup_or_build_hit _ _ _ c Hk). cbn [fst].
    rewrite set_cache_compiled_loop_id. by repeat split. }
  match goal with |- context [lookup_or_build _ _ ?b] =>
    destruct (lookup_or_build_cases (_cache_compiled_loop self) (loop_key_of ts) b Hk)
      as [(c & lb & Hb & ->)| ->] end.
  2:{ cbn [fst]. rewrite set_cache_compiled_loop_id. by repeat split. }
  cbn [fst]. split; [|split; [|by repeat split]].
  - intros key' c'. cbn [_cache_compiled_loop set_cache_compiled_loop].
    destruct (decide (loop_key_of ts = key')) as [<-|Hne].
    + rewrite lookup_insert_eq. intros [= <-]. exists (VTensor <$> ts).
      split; [apply signatures_tensors|].
      destruct state0 as [state|].
      * right. split; [apply Hstate; by eexists|].
        apply bind_Done_inv in Hb as (r & l5 & l6 & Hc & [= <- _] & _).
        change (_compile_state_loop_fn ?s ?y) with (_compile_state_loop_fn self y).
        rewrite Hc. cbn [fst].
        pose proof (compile_state_loop_fn_Done self _ r ltac:(by rewrite Hc)) as Hbuild.
        rewrite (compile_state_loop_fn_ok _ _ Hbuild) in Hc. by injection Hc as <- _.
      * left. change (_compile_loop_fn ?s ?y) with (_compile_loop_fn self y).
        by rewrite Hb.
    + rewrite lookup_insert_ne by done. intros Hc'.
      destruct (Hok _ _ Hc') as (y & Hy & Hb'). by exists y.
  - cbn [_cache_compiled_loop set_cache_compiled_loop]. by apply insert_subseteq.
Qed.

Lemma unwrap_args_Done (x : list (pyval (BatchedTensor T))) dims args log :
  unwrap_args x = (Done (dims, args), log) →
  x = VTensor <$> args ∧ dims = in_dim <$> args ∧ log = [].
Proof.
  revert dims args log. induction x as [|a x IH]; intros dims args log; cbn [unwrap_args].
  - by intros [= <- <- <-].
  - destruct a as [b| | | |]; try done. cbn [is_tensor unwrap_batch_tensor].
    intros H. apply bind_Done_inv in H as ([dims' args'] & l1 & l2 & Hx & [= <- <- <-] & ->).
    destruct (IH _ _ _ Hx) as (-> & -> & ->). done.
Qed.

(** X6.  Whatever its arguments and whether it returns, raises or is cut
    off, a call of [vmap_loop] keeps the invariant of the batched cache, never
    removes or replaces an entry of it, and touches neither the functions and
    the mode of the tracer nor its cache of compiled loops. *)
Theorem vmap_loop_keeps_cache (self : obj T) (fuel : nat)
    (x : list (pyval (BatchedTensor T))) :
  vmap_cache_ok self →
  let self' := (vmap_loop self fuel x).1 in
  vmap_cache_ok self' ∧
  _cache_compiled_vmap_loop self ⊆ _cache_compiled_vmap_loop self' ∧
  same_functions self self' ∧
  _cache_compiled_loop self' = _cache_compiled_loop self.
Proof.
  intros Hok self'. subst self'. unfold vmap_loop.
  destruct (unwrap_args x) as [[[dims args]| |] log0] eqn:H; [|by repeat split..].
  apply unwrap_args_Done in H as (-> & -> & ->). rewrite vmap_key_zip.
  destruct (_cache_compiled_vmap_loop self !! vmap_key args) as [c|] eqn:Hk.
  { rewrite (lookup_or_build_hit _ _ _ c Hk). cbn [fst].
    rewrite set_cache_compiled_vmap_loop_id. by repeat split. }
  destruct (lookup_or_build_cases (_cache_compiled_vmap_loop self) (vmap_key args)
              (_compile_vmap_loop_fn self args (in_dim <$> args)) Hk)
    as [(c & lb & Hb & ->)| ->].
  2:{ cbn [fst]. rewrite set_cache_compiled_vmap_loop_id. by repeat split. }
  cbn [fst]. split; [|split; [|by repeat split]].
  - intros key' c'. cbn [_cache_compiled_vmap_loop set_cache_compiled_vmap_loop].
    destruct (decide (vmap_key args = key')) as [<-|Hne].
    + rewrite lookup_insert_eq. intros [= <-]. exists args. split; [done|].
      change (_compile_vmap_loop_fn ?s ?y ?d) with (_compile_vmap_loop_fn self y d).
      by rewrite Hb.
    + rewrite lookup_insert_ne by done. apply Hok.
  - cbn [_cache_compiled_vmap_loop set_cache_compiled_vmap_loop]. by apply insert_subseteq.
Qed.
End NewFileCaches.

(** ** Arguments that the entry points reject *)

Section Arguments.
Context {T : Type} `{!TensorLike T} `{!PhysIter T}.

(** X7.  [trace_loop] derives the cache key from the attributes [ndim],
    [dtype] and [device] of every operand before anything else: an operand
    that is [None], a tuple or a dictionary makes the call fail with an
    [AttributeError], with or without a leading state, and a tracer in stateful mode called without
    any argument fails with an [IndexError] on [x[0]].  In all three cases
    nothing is built or cached and no user function is invoked. *)
Theorem trace_loop_rejects (self : Loop.TracingWhile.obj T) (fuel : nat)
    (state : gmap string T) (pre : list T) (arg : pyval T) (post : list (pyval T)) :
  no_attributes arg →
  (Loop.TracingWhile.stateful_functions self = false →
   Loop.TracingWhile.trace_loop self fuel ((VTensor <$> pre) ++ arg :: post)
   = (self, (Raise AttributeError, []))) ∧
  (Loop.TracingWhile.stateful_functions self = true →
   Loop.TracingWhile.trace_loop self fuel (VDict state :: (VTensor <$> pre) ++ arg :: post)
   = (self, (Raise AttributeError, [])) ∧
   Loop.TracingWhile.trace_loop self fuel [] = (self, (Raise IndexError, []))).
Proof.
  intros Hno. assert (is_tensor arg = false) as Harg by (by destruct arg).
  split; intros Hs; [|split];
    unfold Loop.TracingWhile.trace_loop, Loop.TracingWhile.split_state; rewrite Hs.
  - rewrite bind_ret_l. cbn [snd]. by rewrite (signatures_not_tensor pre arg post Harg).
  - rewrite bind_ret_l. cbn [snd]. by rewrite (signatures_not_tensor pre arg post Harg).
  - done.
Qed.

End Arguments.

(** ** Reasoning about the direct executor *)

Section LoopRule.
Context {T : Type} `{!TensorLike T} `{!PhysIter T}.

Lemma runs_invariant (cond_fn : pyfn T bool) (body_fn : pyfn T (pyval T))
    (P : pyval T → Prop) x k y log :
  (∀ a b l1 l2, P a → eval_cond cond_fn a = (Done true, l1) →
                eval_body body_fn a = (Done b, l2) → P b) →
  runs cond_fn body_fn x k y log → P x →
  P y ∧ ∃ l, eval_cond cond_fn y = (Done false, l).
Proof.
  intros Hstep. induction 1 as [x log Hc|x x' y k l1 l2 l3 Hc Hb _ IH]; intros HP.
  - split; [done|]. by exists log.
  - apply IH. by eapply Hstep.
Qed.

(** X9.  The rule of the while loop for the direct executor of either
    file: a property of the operands that holds at the start and that every
    execution of the body under a true condition preserves holds of the
    result, on which the condition evaluates to false. *)
Theorem loop_rule (old : ControlFlow.TracingWhile.obj T) (self : Loop.TracingWhile.obj T)
    (P : pyval T → Prop) (fuel : nat) (x : list (pyval T)) (y : pyval T) (log : list event) :
  P (VTuple x) →
  (ControlFlow.TracingWhile.loop old fuel x = (Done y, log) →
   (∀ a b l1 l2, P a → eval_cond (ControlFlow.TracingWhile.cond old) a = (Done true, l1) →
                 eval_body (ControlFlow.TracingWhile.body old) a = (Done b, l2) → P b) →
   P y ∧ ∃ l, eval_cond (ControlFlow.TracingWhile.cond old) y = (Done false, l)) ∧
  (Loop.TracingWhile.loop self fuel x = (Done y, log) →
   (∀ a b l1 l2, P a → eval_cond (Loop.callable (Loop.TracingWhile.cond_fn self)) a
                       = (Done true, l1) →
                 eval_body (Loop.callable (Loop.TracingWhile.body_fn self)) a = (Done b, l2) →
                 P b) →
   P y ∧ ∃ l, eval_cond (Loop.callable (Loop.TracingWhile.cond_fn self)) y = (Done false, l)).
Proof.
  intros HP. split.
  - unfold ControlFlow.TracingWhile.loop. rewrite old_loop_while.
    intros (k & _ & Hr)%while_runs Hstep. by eapply runs_invariant.
  - rewrite new_loop, new_loop_while.
    intros (k & _ & Hr)%while_runs Hstep. by eapply runs_invariant.
Qed.

End LoopRule.
(** ** The two files compared *)

Section FilesAgree.
Context {T : Type} `{!TensorLike T} `{!PhysIter T}.

(** X10.  The two files agree.  Over the same condition and body, the
    direct executors of [control_flow.py] and [loop.py] return the same
    result and record the same calls, on any operands.  With 2 to 9 tensors
    and a condition and a body that are pure and total on that many tensors
    (scripted, in [control_flow.py], with the types of a condition and a body
    of that many tensors), the two [trace_loop] return the same result. *)
Theorem files_agree (old : ControlFlow.TracingWhile.obj T) (self : Loop.TracingWhile.obj T)
    (fuel : nat) (x : list (pyval T)) (ts : list T)
    (fc : list (pyval T) → outcome bool) (fb : list (pyval T) → outcome (pyval T))
    (c : list T → bool) (b : list T → list T) :
  Loop.callable (Loop.TracingWhile.cond_fn self) = ControlFlow.TracingWhile.cond old →
  Loop.callable (Loop.TracingWhile.body_fn self) = ControlFlow.TracingWhile.body old →
  Loop.TracingWhile.loop self fuel x = ControlFlow.TracingWhile.loop old fuel x ∧
  (loop_cache_ok self → Loop.TracingWhile.stateful_functions self = false →
   2 ≤ length ts ≤ 9 →
   ControlFlow.TracingWhile.cond old = Some fc → ControlFlow.TracingWhile.body old = Some fb →
   computes (length ts) fc fb c b →
   ControlFlow.TracingWhile.trace_loopN_typed old (length ts) = true →
   (Loop.TracingWhile.trace_loop self fuel (VTensor <$> ts)).2.1
   = (ControlFlow.TracingWhile.trace_loop old fuel (VTensor <$> ts)).1).
Proof.
  intros Hc Hb.
  assert (∀ y, Loop.TracingWhile.loop self fuel y = ControlFlow.TracingWhile.loop old fuel y)
    as Hl.
  { intros y. unfold ControlFlow.TracingWhile.loop.
    by rewrite new_loop, new_loop_while, old_loop_while, Hc, Hb. }
  split; [done|]. intros Hok Hs Hn Hcf Hbf Hcomputes Hty.
  rewrite (trace_loop_computes fc fb c b (length ts) Hcomputes self fuel ts)
    by (done || congruence).
  rewrite (old_trace_loop_computes fc fb c b (length ts) Hcomputes old fuel ts) by done.
  by rewrite Hl.
Qed.
End FilesAgree.

(** X10, witness: the two-operand tracers of both files on 8 and 0. *)
Lemma files_agree_witness :
  Loop.TracingWhile.loop Examples.while2 20 [VTensor 8%Z; VTensor 0%Z]
  = ControlFlow.TracingWhile.loop Examples.old_while2 20 [VTensor 8%Z; VTensor 0%Z] ∧
  (Loop.TracingWhile.trace_loop Examples.while2 20 (VTensor <$> [8; 0]%Z)).2.1
  = (ControlFlow.TracingWhile.trace_loop Examples.old_while2 20 (VTensor <$> [8; 0]%Z)).1.
Proof.
  destruct (files_agree Examples.old_while2 Examples.while2 20 [VTensor 8%Z; VTensor 0%Z]
              [8; 0]%Z Examples.fst_lt10 Examples.step2
              Examples.fst_lt10_lane Examples.step2_lane eq_refl eq_refl)
    as [Hloop Htrace].
  split; [exact Hloop|].
  apply Htrace.
  - by apply loop_cache_ok_empty.
  - reflexivity.
  - simpl. lia.
  - reflexivity.
  - reflexivity.
  - exact computes_step2.
  - reflexivity.
Defined.
(** ** The state of a stateful loop *)

Section StateThreading.
Context {T : Type} `{!TensorLike T} `{!PhysIter T}.
Import Loop.TracingWhile.
Variable self : obj T.










(** X12.  On a state and operands for which the build succeeds (1, 2, 4,
    ..., 9 operands), if the condition is false on the initial state and
    operands, a stateful loop returns at once, after the cache lookup (which
    traces the condition and the body on a miss): the state merged with the
    state the condition returned, and the operands as they were (the bare
    operand when there is one).  The compiled body is not executed. *)
Theorem stateful_loop_condition_false (fuel : nat) (state state1 : gmap string T)
    (ts : list T) (log : list event) :
  state_cache_ok self → stateful_functions self = true →
  state_buildable self (VTensor <$> ts) →
  state_cond (state_cond_fn self) state (VTensor <$> ts) = (Done (state1, false), log) →
  (trace_loop self fuel (VDict state :: (VTensor <$> ts))).2 =
  (Done (VTuple [VDict state1;
                 match ts with [t] => VTensor t | _ => VTuple (VTensor <$> ts) end]),
   lookup_log (_cache_compiled_loop self) (loop_key_of ts) CompileStateLoopFn ++ log) ∧
  calls BodyFn log = 0.
Proof.
  intros Hok Hs Hb Hc. destruct (state_buildable_length self ts Hb) as [Hn Hn3]. split.
  - rewrite (trace_loop_stateful_valid self fuel state ts Hok Hs Hb). cbn [snd].
    rewrite bind_done. cbn [fst snd].
    assert (state_proc self (length ts) fuel (VDict state) (VTensor <$> ts)
            = (Done (VTuple [VDict state1;
                 match ts with [t] => VTensor t | _ => VTuple (VTensor <$> ts) end]), log))
      as ->; [|done].
    assert (∀ m, m = length ts → ts ≠ [] → (∀ t, ts ≠ [t]) →
              state_loopN (state_cond_fn self) (state_body_fn self) m fuel (VDict state)
                (VTensor <$> ts)
              = (Done (VTuple [VDict state1; VTuple (VTensor <$> ts)]), log)) as HN.
    { intros m -> _ _. unfold state_loopN. rewrite decide_True by (by rewrite length_fmap).
      cbn [as_state star]. rewrite !bind_ret_l, Hc, bind_done. cbn [fst snd].
      destruct fuel; cbn [state_loopN_while]; by rewrite bind_ret_l, app_nil_r. }
    unfold state_proc.
    destruct ts as [|t1 [|t2 [|t3 [|t4 ts]]]]; cbn [length] in *; try lia;
      try (rewrite HN by done; done).
    cbn [fmap list_fmap state_loop1 as_state]. rewrite bind_ret_l.
    cbn [fmap list_fmap] in Hc. rewrite Hc, bind_done. cbn [fst snd].
    destruct fuel; cbn [state_loop1_while]; by rewrite bind_ret_l, app_nil_r.
  - unfold state_cond, Loop.invoke_state in Hc.
    apply bind_Done_inv in Hc as (a & l1 & l2 & Hi & [= _ _ <-] & ->).
    destruct (state_cond_fn self); [|done]. by injection Hi as _ <-.
Qed.
End StateThreading.


(** X12, witness: the stateful two-operand tracer on the operands [3, 5],
    where the condition [x1 < 3] is false at once. *)
Lemma stateful_loop_condition_false_witness :
  (Loop.TracingWhile.trace_loop (Examples.stateful 2) 20
     (VDict {[ "count" := 0%Z ]} :: (VTensor <$> [3; 5]%Z))).2
  = (Done (VTuple [VDict {[ "count" := 0%Z ]}; VTuple [VTensor 3%Z; VTensor 5%Z]]),
     [Compile CompileStateLoopFn; Trace CondFn; Trace BodyFn; Call CondFn]) ∧
  calls BodyFn [Call CondFn] = 0.
Proof.
  destruct (stateful_loop_condition_false (Examples.stateful 2) 20
              {[ "count" := 0%Z ]} {[ "count" := 0%Z ]} [3; 5]%Z [Call CondFn])
    as [Hcall Hcalls].
  - by apply state_cache_ok_empty.
  - reflexivity.
  - split; [simpl; lia|]. split; [simpl; lia|].
    split; [by exists (TyTuple [TyDict; TyTensor])|reflexivity].
  - vm_compute. reflexivity.
  - split; [|exact Hcalls]. etrans; [exact Hcall|]. vm_compute. reflexivity.
Defined.

(** ** The batched loop: no active lane, and the number of iterations *)

Section BatchedEdges.
Context {T : Type} `{!TensorLike T} `{!PhysIter T}.






End BatchedEdges.

Section BatchedCost.
Context {T : Type} `{!TensorLike T} `{!PhysIter T}.
Variable fc : list (pyval T) → outcome bool.
Variable fb : list (pyval T) → outcome (pyval T).
Variable c : list T → bool.
Variable b : list T → list T.
Variable n : nat.
Hypothesis Hcomputes : computes n fc fb c b.












End BatchedCost.



(** ** New instances *)

Section NewInstances.
Context {T : Type} `{!TensorLike T} `{!PhysIter T}.
Import Loop.TracingWhile.

(** X15.  When [_get_cache_key_object] returns a key, one that is not in
    the instance cache, the construction of a tracer allocates a new
    instance, initialises it with the two functions and empty caches, in the
    mode given or, if none is given, in stateful mode exactly when one of the
    functions is a bound method, and registers it under that key.  The
    instances that were there are left as they were, and the invariant of the
    instance cache is kept. *)
Theorem construct_new_pair (w : world T) (cond_fn : option (Loop.function T bool))
    (body_fn : option (Loop.function T (pyval T))) (stateful : option bool)
    (key : cache_key) :
  world_ok w →
  _get_cache_key_object (_while_object_cache w) cond_fn body_fn = inl key →
  _while_object_cache w !! key = None →
  ∃ w1 obj,
    construct w cond_fn body_fn stateful = ret (w1, obj) ∧
    world_ok w1 ∧
    heap w !! obj = None ∧
    heap w1 !! obj = Some
      {| __cache_key__ := key;
         attributes := Some
           {| stateful_functions :=
                default (from_option Loop.has_self false body_fn
                         || from_option Loop.has_self false cond_fn) stateful;
              cond_fn := cond_fn; body_fn := body_fn;
              _cache_compiled_loop := ∅; _cache_compiled_vmap_loop := ∅ |} |} ∧
    _while_object_cache w1 = <[key := obj]> (_while_object_cache w) ∧
    heap w ⊆ heap w1.
Proof.
  intros Hok Hget Hk. unfold construct, __new__. rewrite Hget.
  set (obj := fresh (dom (heap w))).
  assert (heap w !! obj = None) as Hfresh.
  { apply not_elem_of_dom. apply is_fresh. }
  unfold __init__. cbn [heap _while_object_cache]. rewrite lookup_insert_eq.
  cbn [__cache_key__]. rewrite decide_False by (rewrite Hk; by intros [? ?]).
  rewrite bind_ret_l. eexists _, obj. split; [reflexivity|].
  cbn [heap _while_object_cache]. rewrite insert_insert_eq, lookup_insert_eq.
  split; [|split; [done|split; [|split; [done|]]]].
  - intros key' obj'. cbn [heap _while_object_cache].
    destruct (decide (key = key')) as [<-|Hne].
    + rewrite lookup_insert_eq. intros [= <-]. rewrite lookup_insert_eq. eauto.
    + rewrite lookup_insert_ne by done. intros Hk'.
      destruct (Hok _ _ Hk') as (inst & Hh & Hi).
      exists inst. split; [|done]. rewrite lookup_insert_ne; [done|congruence].
  - by destruct stateful.
  - by apply insert_subseteq.
Qed.
End NewInstances.
(** ** The further properties on the tracers of the examples *)

(** X5, witness: the fresh two-operand tracer on the operands 8 and 0. *)
Lemma trace_loop_keeps_cache_witness :
  let self' := (Loop.TracingWhile.trace_loop Examples.while2 20 [VTensor 8%Z; VTensor 0%Z]).1 in
  loop_cache_ok self' ∧
  Loop.TracingWhile._cache_compiled_loop Examples.while2
  ⊆ Loop.TracingWhile._cache_compiled_loop self' ∧
  same_functions Examples.while2 self' ∧
  Loop.TracingWhile._cache_compiled_vmap_loop self'
  = Loop.TracingWhile._cache_compiled_vmap_loop Examples.while2.
Proof.
  apply (trace_loop_keeps_cache Examples.while2 20 [VTensor 8%Z; VTensor 0%Z]).
  by apply loop_cache_ok_empty.
Defined.

(** X6, witness: the fresh two-operand tracer on three lanes. *)
Lemma vmap_loop_keeps_cache_witness :
  let self' := (Loop.TracingWhile.vmap_loop Examples.while2 20
                  [VTensor (Examples.batched [7; 8; 9]%Z);
                   VTensor (Examples.batched [0; 0; 0]%Z)]).1 in
  vmap_cache_ok self' ∧
  Loop.TracingWhile._cache_compiled_vmap_loop Examples.while2
  ⊆ Loop.TracingWhile._cache_compiled_vmap_loop self' ∧
  same_functions Examples.while2 self' ∧
  Loop.TracingWhile._cache_compiled_loop self'
  = Loop.TracingWhile._cache_compiled_loop Examples.while2.
Proof.
  apply (vmap_loop_keeps_cache Examples.while2 20
           [VTensor (Examples.batched [7; 8; 9]%Z); VTensor (Examples.batched [0; 0; 0]%Z)]).
  by apply vmap_cache_ok_empty.
Defined.

(** X7, witness: [None] as second operand, without and with a state, and
    a stateful tracer called without arguments. *)
Lemma trace_loop_rejects_witness :
  Loop.TracingWhile.trace_loop Examples.while2 20 [VTensor 8%Z; VNone]
  = (Examples.while2, (Raise AttributeError, [])) ∧
  Loop.TracingWhile.trace_loop (Examples.stateful 2) 20
    [VDict {[ "count" := 0%Z ]}; VTensor 8%Z; VNone]
  = (Examples.stateful 2, (Raise AttributeError, [])) ∧
  Loop.TracingWhile.trace_loop (Examples.stateful 2) 20 []
  = (Examples.stateful 2, (Raise IndexError, [])).
Proof.
  split.
  - exact (proj1 (trace_loop_rejects Examples.while2 20 ∅ [8%Z] VNone [] I) eq_refl).
  - exact (proj2 (trace_loop_rejects (Examples.stateful 2) 20 {[ "count" := 0%Z ]} [8%Z]
                    VNone [] I) eq_refl).
Defined.

(** X9, witness: started on [(0, 0)], the loop over [fst_lt10] and [step2]
    keeps both operands non-negative; it ends on [(10, 45)]. *)
Lemma loop_rule_witness :
  not_negative (VTuple [VTensor 10%Z; VTensor 45%Z]) ∧
  ∃ l, eval_cond (Loop.callable (Loop.TracingWhile.cond_fn Examples.while2))
         (VTuple [VTensor 10%Z; VTensor 45%Z]) = (Done false, l).
Proof.
  apply (proj2 (loop_rule Examples.old_while2 Examples.while2 not_negative 20
                  [VTensor 0%Z; VTensor 0%Z] (VTuple [VTensor 10%Z; VTensor 45%Z])
                  (Loop.TracingWhile.loop Examples.while2 20 [VTensor 0%Z; VTensor 0%Z]).2
                  (ex_intro _ 0%Z (ex_intro _ 0%Z (conj eq_refl (conj (Z.le_refl 0) (Z.le_refl 0))))))).
  - vm_compute. reflexivity.
  - intros a b l1 l2 (x & y & -> & Hx & Hy) Hc Hb.
    cbn in Hc, Hb. injection Hc as Hc _. apply bool_decide_eq_true in Hc.
    injection Hb as <- _. eexists _, _. split; [done|]. lia.
Defined.

(** X15, witness: the first construction in the empty world gives the
    two-operand tracer of the examples. *)
Lemma construct_new_pair_witness :
  ∃ w1 obj,
    Loop.TracingWhile.construct (Loop.TracingWhile.empty_world Z)
      (Some (Examples.fn 4 Examples.fst_lt10)) (Some (Examples.fn 5 Examples.step2)) None
    = ret (w1, obj) ∧
    Loop.TracingWhile.heap w1 !! obj = Some
      {| Loop.TracingWhile.__cache_key__ := (Some 4, Some 5);
         Loop.TracingWhile.attributes := Some Examples.while2 |}.
Proof.
  destruct (construct_new_pair (Loop.TracingWhile.empty_world Z)
              (Some (Examples.fn 4 Examples.fst_lt10)) (Some (Examples.fn 5 Examples.step2))
              None (Some 4, Some 5))
    as (w1 & obj & Hc & _ & _ & Hh & _).
  - intros key obj. cbn. by rewrite lookup_empty.
  - reflexivity.
  - reflexivity.
  - by exists w1, obj.
Defined.
